(** * Weekly zonal statistics over epidemiological weeks

    A shallow embedding of the two scripts of the repository,

      - [notebooks/01_precipitation_chirps_weekly.py]  (module [Chirps])
      - [notebooks/02_lst_modis_day_night_weekly.py]   (module [Modis])

    together with the part of Python, pandas, numpy and the Earth Engine
    client they call.  Script-level statements that are not inside a Python
    function are grouped under the heading of the script section they come
    from ([data_loading], [processing_loop], [post_processing]); every
    definition names the source lines it embeds. *)

From Stdlib Require Import ZArith QArith Qround Qabs List String Ascii Bool Lia.
From Stdlib Require Import DecimalString.
From Stdlib Require Qcanon.
From Stdlib Require PrimFloat.
Import ListNotations.

Set Implicit Arguments.

Close Scope Q_scope.
Open Scope Z_scope.

(* ------------------------------------------------------------------ *)
(** * Exceptions *)

(** The Python exceptions the scripts can run into.  [EEException] is the
    Earth Engine client's error (a band that does not exist, for one).
    [OutOfBounds] is the error of pandas for a date that leaves the range
    of a timestamp: [OutOfBoundsDatetime], or [OverflowError] where the
    nanosecond count overflows first; the embedding has one exception for
    the two. *)
Inductive exn : Set :=
| IndexError
| KeyError
| ValueError
| EEException
| OutOfBounds.

Inductive res (A : Type) : Type :=
| Ok (a : A)
| Raise (e : exn).

Arguments Ok {A} a.
Arguments Raise {A} e.

Definition bind {A B : Type} (m : res A) (k : A -> res B) : res B :=
  match m with
  | Ok a => k a
  | Raise e => Raise e
  end.

Declare Scope res_scope.
Delimit Scope res_scope with res.
Notation "x <- m ;; k" := (bind m (fun x => k))
  (at level 100, m at next level, right associativity) : res_scope.
Open Scope res_scope.

(** A list comprehension whose body can raise: the first exception wins. *)
Fixpoint mapM {A B : Type} (f : A -> res B) (l : list A) : res (list B) :=
  match l with
  | [] => Ok []
  | x :: xs => y <- f x ;; ys <- mapM f xs ;; Ok (y :: ys)
  end.

Definition is_ok {A : Type} (m : res A) : bool :=
  match m with Ok _ => true | Raise _ => false end.

(* ------------------------------------------------------------------ *)
(** * Python lists and strings *)

Module Py.

(** [l[i]] for a non-negative index. *)
Definition getitem {A : Type} (l : list A) (i : nat) : res A :=
  match nth_error l i with
  | Some x => Ok x
  | None => Raise IndexError
  end.

(** [l[-1]]. *)
Definition getitem_last {A : Type} (l : list A) : res A :=
  match l with
  | [] => Raise IndexError
  | x :: xs => Ok (last xs x)
  end.

(** [l[1:]]; the empty list has an empty slice. *)
Definition slice_from_1 {A : Type} (l : list A) : list A := tl l.

(** [range(n)]. *)
Definition range (n : nat) : list nat := seq 0%nat n.

(** [c.isspace()] on the ASCII range: tab, line feed, vertical tab, form
    feed, carriage return, the four separators 0x1c..0x1f and the space. *)
Definition isspace (c : ascii) : bool :=
  let n := nat_of_ascii c in
  ((9 <=? n) && (n <=? 13) || (28 <=? n) && (n <=? 32))%nat.

(** [s.split()] with no separator: the maximal runs of non-space
    characters, in order; no empty token.  [cur] is the token being
    read, reversed. *)
Fixpoint split_aux (s : string) (cur : list ascii) : list string :=
  let flush (rest : list string) :=
    match cur with
    | [] => rest
    | _ => string_of_list_ascii (rev cur) :: rest
    end in
  match s with
  | EmptyString => flush []
  | String c s' =>
      if isspace c then flush (split_aux s' [])
      else split_aux s' (c :: cur)
  end.

Definition split (s : string) : list string := split_aux s [].

End Py.

(* ------------------------------------------------------------------ *)
(** * pandas timestamps *)

Module Pandas.

(** A [pd.Timestamp] read from a date column, at day granularity: the
    number of days since 1970-01-01 in the proleptic Gregorian calendar. *)
Definition Timestamp := Z.

(** The days whose midnight a timestamp holds: [Timestamp.min] is
    1677-09-21 00:12:43.145224193 and [Timestamp.max] is
    2262-04-11 23:47:16.854775807, so the first is 1677-09-22 and the last
    2262-04-11. *)
Definition min_day : Z := -106751.
Definition max_day : Z := 106751.

(** [ts + pd.DateOffset(days=n)]: pandas raises when the result is not a
    date a timestamp holds. *)
Definition add_days (ts : Timestamp) (n : Z) : res Timestamp :=
  let r := (ts + n)%Z in
  if ((min_day <=? r) && (r <=? max_day))%Z then Ok r else Raise OutOfBounds.

(** Year, month and day of a day number. *)
Definition civil_from_days (z : Z) : Z * Z * Z :=
  (let z := z + 719468 in
   let era := z / 146097 in
   let doe := z - era * 146097 in
   let yoe := (doe - doe / 1460 + doe / 36524 - doe / 146096) / 365 in
   let doy := doe - (365 * yoe + yoe / 4 - yoe / 100) in
   let mp := (5 * doy + 2) / 153 in
   let d := doy - (153 * mp + 2) / 5 + 1 in
   let m := if mp <? 10 then mp + 3 else mp - 9 in
   let y := yoe + era * 400 + (if m <=? 2 then 1 else 0) in
   (y, m, d))%Z.

(** The day number of a year, month and day. *)
Definition days_from_civil (y m d : Z) : Z :=
  (let y := if m <=? 2 then y - 1 else y in
   let era := y / 400 in
   let yoe := y - era * 400 in
   let doy := (153 * (if 2 <? m then m - 3 else m + 9) + 2) / 5 + d - 1 in
   let doe := yoe * 365 + yoe / 4 - yoe / 100 + doy in
   era * 146097 + doe - 719468)%Z.

Definition digit (n : Z) : ascii := ascii_of_nat (48 + Z.to_nat (n mod 10))%nat.

(** The last [w] decimal digits of [n], zero padded. *)
Fixpoint zfill (w : nat) (n : Z) : string :=
  match w with
  | O => EmptyString
  | S w' => (zfill w' (n / 10) ++ String (digit n) EmptyString)%string
  end.

(** [ts.strftime("%Y-%m-%d")].  The years of a timestamp, 1677 to 2262,
    have four digits. *)
Definition strftime (ts : Timestamp) : string :=
  let '(y, m, d) := civil_from_days ts in
  (zfill 4 y ++ "-" ++ zfill 2 m ++ "-" ++ zfill 2 d)%string.

End Pandas.

(* ------------------------------------------------------------------ *)
(** * The week table and the window builder (both scripts) *)

(** A row of the week table: the columns [year], [se] and [fecha_ini]. *)
Record WeekRecord : Set := {
  year : Z;
  se : Z;
  fecha_ini : Pandas.Timestamp
}.

(** [format_timestamps], 01:55-56 and 02:54-55. *)
Definition format_timestamps (timestamps : list Pandas.Timestamp) : list string :=
  map Pandas.strftime timestamps.

(** The names the DATA LOADING section binds. *)
Record Loaded : Set := {
  years : list Z;
  weeks : list Z;
  start_dates : list string;
  end_dates : list string
}.

(** DATA LOADING, 01:85-95 and 02:115-125, from the table as read. *)
Definition data_loading (weeks_df : list WeekRecord) : res Loaded :=
  let years := map year weeks_df in
  let weeks := map se weeks_df in
  let start_dates := map fecha_ini weeks_df in
  let end_dates := Py.slice_from_1 start_dates in
  last_start <- Py.getitem_last start_dates ;;
  last_end <- Pandas.add_days last_start 7 ;;
  let end_dates := end_dates ++ [last_end] in
  let start_dates := format_timestamps start_dates in
  let end_dates := format_timestamps end_dates in
  Ok {| years := years; weeks := weeks;
        start_dates := start_dates; end_dates := end_dates |}.

(* ------------------------------------------------------------------ *)
(** * numpy arrays and pandas tables *)

Module Numpy.

(** A two-dimensional array: its shape and its items in row-major order. *)
Record ndarray (A : Type) : Type := {
  shape : nat * nat;
  items : list A
}.

(** [np.array(values).reshape(rows, cols)]: numpy refuses a shape whose
    size is not the number of items ("cannot reshape array of size n into
    shape (rows, cols)", a [ValueError]). *)
Definition reshape {A : Type} (values : list A) (rows cols : nat)
  : res (ndarray A) :=
  if (List.length values =? rows * cols)%nat
  then Ok {| shape := (rows, cols); items := values |}
  else Raise ValueError.

(** Row [i] of an array. *)
Definition row {A : Type} (m : ndarray A) (i : nat) : list A :=
  firstn (snd (shape m)) (skipn (i * snd (shape m)) (items m)).

Definition rows {A : Type} (m : ndarray A) : list (list A) :=
  map (row m) (seq 0%nat (fst (shape m))).

End Numpy.

Module Frame.

(** A [pd.DataFrame] of the shape the scripts build: an index of week
    ids, column names, and one list of cells for each index entry. *)
Record DataFrame : Set := {
  index : list Z;
  columns : list string;
  values : list (list string)
}.

(** [pd.DataFrame(matrix, index=index, columns=columns)]; pandas raises
    [ValueError] when the shape of [matrix] is not
    [(len(index), len(columns))]. *)
Definition make (matrix : Numpy.ndarray string) (index : list Z)
    (columns : list string) : res DataFrame :=
  if ((fst (Numpy.shape matrix) =? List.length index)
      && (snd (Numpy.shape matrix) =? List.length columns))%nat
  then Ok {| index := index; columns := columns;
             values := Numpy.rows matrix |}
  else Raise ValueError.

(** [df.add_prefix(prefix)]. *)
Definition add_prefix (prefix : string) (df : DataFrame) : DataFrame :=
  {| index := index df;
     columns := map (String.append prefix) (columns df);
     values := values df |}.

(** [pd.concat([a, b], axis=1)] of two tables that carry the same index,
    as the two tables of the temperature script do: the columns of [a],
    then those of [b], row by row. *)
Definition concat_columns (a b : DataFrame) : DataFrame :=
  {| index := index a;
     columns := columns a ++ columns b;
     values := map (fun ab => fst ab ++ snd ab)
                   (combine (values a) (values b)) |}.

(** [df.iloc[i, j]]. *)
Definition cell (df : DataFrame) (i j : nat) : option string :=
  match nth_error (values df) i with
  | Some r => nth_error r j
  | None => None
  end.

End Frame.

(* ------------------------------------------------------------------ *)
(** * The Earth Engine objects the scripts build

    The client builds deferred computations that [getInfo()] evaluates on
    the server; the embedding evaluates each step where the script writes
    it.  Rasters are read on the grid of the reduction scale ([SCALE], the
    only scale the scripts use): a [pixel] is a cell of that grid, and a
    geometry is the list of the cells it covers.  Pixel values are exact
    rationals. *)

Module EE.

Definition pixel : Set := (Z * Z)%type.

Definition pixel_eqb (p q : pixel) : bool :=
  (fst p =? fst q) && (snd p =? snd q).

(** A band: a value for each unmasked pixel, [None] where masked. *)
Definition raster : Type := pixel -> option Q.

(** [system:time_start] is in milliseconds since 1970-01-01; [footprint]
    is [None] for an image without bounds. *)
Record Image : Type := {
  bands : list (string * raster);
  time_start : option Z;
  footprint : option (list pixel)
}.

Definition ImageCollection : Type := list Image.

Record Feature : Set := {
  geometry : list pixel;
  properties : list (string * Q)
}.

Definition FeatureCollection : Set := list Feature.

(** ** Properties *)

Fixpoint get {V : Type} (key : string) (d : list (string * V)) : option V :=
  match d with
  | [] => None
  | (k, v) :: d' => if String.eqb k key then Some v else get key d'
  end.

Fixpoint set {V : Type} (key : string) (v : V) (d : list (string * V))
  : list (string * V) :=
  match d with
  | [] => [(key, v)]
  | (k, w) :: d' =>
      if String.eqb k key then (k, v) :: d' else (k, w) :: set key v d'
  end.

(** ** Images *)

(** [ee.Image.constant(v)]. *)
Definition constant (v : Q) : Image :=
  {| bands := [("constant"%string, fun _ => Some v)];
     time_start := None;
     footprint := None |}.

(** [img.select(names)]: the named bands, in the order asked; a name
    that matches no band is an error. *)
Definition select (names : list string) (img : Image) : res Image :=
  bs <- mapM (fun n => match get n (bands img) with
                       | Some r => Ok (n, r)
                       | None => Raise EEException
                       end) names ;;
  Ok {| bands := bs;
        time_start := time_start img;
        footprint := footprint img |}.

(** A per-pixel operation with a constant operand, on every band.  The
    result does not carry the properties of the operand. *)
Definition pointwise (f : Q -> Q) (img : Image) : Image :=
  {| bands := map (fun b => (fst b, fun p => option_map f (snd b p)))
                  (bands img);
     time_start := None;
     footprint := footprint img |}.

Definition multiply (img : Image) (c : Q) : Image :=
  pointwise (fun v => v * c)%Q img.

Definition subtract (img : Image) (c : Q) : Image :=
  pointwise (fun v => v - c)%Q img.

(** The integer a pixel value stands for in a bitwise operation. *)
Definition Qtrunc (v : Q) : Z := Z.quot (Qnum v) (Z.pos (Qden v)).

Definition of_bool (b : bool) : Q := if b then 1%Q else 0%Q.

Definition bitwiseAnd (img : Image) (n : Z) : Image :=
  pointwise (fun v => inject_Z (Z.land (Qtrunc v) n)) img.

(** [img.eq(c)]: 1 where the value equals [c], 0 elsewhere. *)
Definition eq (img : Image) (c : Q) : Image :=
  pointwise (fun v => of_bool (Qeq_bool v c)) img.

Definition nonzero (v : Q) : bool := negb (Qeq_bool v 0).

(** Bands of two images pair up by position; a single band pairs with
    every band of the other image. *)
Definition match_bands (a b : list (string * raster))
  : res (list (string * (raster * raster))) :=
  match a, b with
  | _, [(_, rb)] => Ok (map (fun x => (fst x, (snd x, rb))) a)
  | [(_, ra)], _ => Ok (map (fun y => (fst y, (ra, snd y))) b)
  | _, _ =>
      if (List.length a =? List.length b)%nat
      then Ok (map (fun xy => (fst (fst xy), (snd (fst xy), snd (snd xy))))
                   (combine a b))
      else Raise EEException
  end.

Definition and_raster (a b : raster) : raster :=
  fun p => match a p, b p with
           | Some x, Some y => Some (of_bool (nonzero x && nonzero y))
           | _, _ => None
           end.

(** [a.And(b)]: 1 where both values are non-zero. *)
Definition And (a b : Image) : res Image :=
  bs <- match_bands (bands a) (bands b) ;;
  Ok {| bands := map (fun x => (fst x, and_raster (fst (snd x)) (snd (snd x)))) bs;
        time_start := None;
        footprint := footprint a |}.

Definition mask_raster (r m : raster) : raster :=
  fun p => match r p, m p with
           | Some v, Some w => if nonzero w then Some v else None
           | _, _ => None
           end.

(** [img.updateMask(mask)]: a pixel stays valid where it was valid and
    the mask is valid and non-zero.  The image keeps its properties. *)
Definition updateMask (img mask : Image) : res Image :=
  bs <- match_bands (bands img) (bands mask) ;;
  Ok {| bands := map (fun x => (fst x, mask_raster (fst (snd x)) (snd (snd x)))) bs;
        time_start := time_start img;
        footprint := footprint img |}.

(** [dest.copyProperties(source, ["system:time_start"])]. *)
Definition copyProperties (dest source : Image) : Image :=
  {| bands := bands dest;
     time_start := match time_start source with
                   | Some t => Some t
                   | None => time_start dest
                   end;
     footprint := footprint dest |}.

Definition covers (g : list pixel) (p : pixel) : bool :=
  existsb (pixel_eqb p) g.

Definition inside (fc : FeatureCollection) (p : pixel) : bool :=
  existsb (fun f => covers (geometry f) p) fc.

Definition cells_of (fc : FeatureCollection) : list pixel :=
  flat_map geometry fc.

(** [img.clip(fc)]: masked outside the geometries of [fc]. *)
Definition clip (img : Image) (fc : FeatureCollection) : Image :=
  {| bands := map (fun b => (fst b,
                             fun p => if inside fc p then snd b p else None))
                  (bands img);
     time_start := time_start img;
     footprint := Some (cells_of fc) |}.

(** ** Reducers *)

Inductive Reducer : Set :=
| count | mean | max | median | min | mode | stdDev | sum | variance.

(** The name of the property (or band) a reducer writes. *)
Definition output_name (r : Reducer) : string :=
  match r with
  | count => "count" | mean => "mean" | max => "max"
  | median => "median" | min => "min" | mode => "mode"
  | stdDev => "stdDev" | sum => "sum" | variance => "variance"
  end.

Definition Qsum (l : list Q) : Q := fold_right Qplus 0%Q l.

Definition Qlen (l : list Q) : Q := inject_Z (Z.of_nat (List.length l)).

Definition Qmean (l : list Q) : Q := (Qsum l / Qlen l)%Q.

(** Population variance: the mean of the squared deviations. *)
Definition Qvariance (l : list Q) : Q :=
  let m := Qmean l in
  Qmean (map (fun x => (x - m) * (x - m))%Q l).

(** Square root, to fifteen decimals. *)
Definition Qsqrt (q : Q) : Q :=
  (Z.sqrt (Qfloor (q * inject_Z (10 ^ 30))%Q) # 10 ^ 15)%Q.

Fixpoint insert_sorted (x : Q) (l : list Q) : list Q :=
  match l with
  | [] => [x]
  | y :: l' => if Qle_bool x y then x :: l else y :: insert_sorted x l'
  end.

Definition sort (l : list Q) : list Q := fold_right insert_sorted [] l.

Definition Qmin (l : list Q) : option Q := hd_error (sort l).

Definition Qmax (l : list Q) : option Q := hd_error (rev (sort l)).

(** The middle value, or the mean of the two middle values. *)
Definition Qmedian (l : list Q) : option Q :=
  let s := sort l in
  let n := List.length s in
  if Nat.even n
  then match nth_error s (n / 2 - 1), nth_error s (n / 2) with
       | Some a, Some b => Some ((a + b) / 2)%Q
       | _, _ => None
       end
  else nth_error s (n / 2).

Definition occurrences (x : Q) (l : list Q) : nat :=
  List.length (filter (Qeq_bool x) l).

(** The most frequent value; the smallest of them when several are. *)
Definition Qmode (l : list Q) : option Q :=
  fold_right (fun x best =>
                match best with
                | None => Some x
                | Some b => if (occurrences b l <=? occurrences x l)%nat
                            then Some x else Some b
                end) None (sort l).

(** [count] and [sum] are defined on no sample at all; the other
    reducers then give no value (null). *)
Definition run (r : Reducer) (samples : list Q) : option Q :=
  option_map Qred
    match r, samples with
    | count, _ => Some (Qlen samples)
    | sum, _ => Some (Qsum samples)
    | _, [] => None
    | mean, _ => Some (Qmean samples)
    | max, _ => Qmax samples
    | median, _ => Qmedian samples
    | min, _ => Qmin samples
    | mode, _ => Qmode samples
    | stdDev, _ => Some (Qsqrt (Qvariance samples))
    | variance, _ => Some (Qvariance samples)
    end.

(** ** Image collections *)

(** [col.select(names)]. *)
Definition select_all (names : list string) (col : ImageCollection)
  : res ImageCollection :=
  mapM (select names) col.

Definition intersects (fc : FeatureCollection) (img : Image) : bool :=
  match footprint img with
  | None => true
  | Some cells => existsb (inside fc) cells
  end.

(** [col.filterBounds(fc)]. *)
Definition filterBounds (fc : FeatureCollection) (col : ImageCollection)
  : ImageCollection :=
  filter (intersects fc) col.

Definition digit_value (c : ascii) : option Z :=
  let n := nat_of_ascii c in
  if ((48 <=? n) && (n <=? 57))%nat
  then Some (Z.of_nat (n - 48)) else None.

Fixpoint number (cs : list ascii) (acc : Z) : option Z :=
  match cs with
  | [] => Some acc
  | c :: cs' => match digit_value c with
                | Some d => number cs' (10 * acc + d)
                | None => None
                end
  end.

(** The day number of a date written YYYY-MM-DD. *)
Definition parse_date (s : string) : res Z :=
  match list_ascii_of_string s with
  | [y1; y2; y3; y4; "-"%char; m1; m2; "-"%char; d1; d2] =>
      match number [y1; y2; y3; y4] 0, number [m1; m2] 0, number [d1; d2] 0 with
      | Some y, Some m, Some d => Ok (Pandas.days_from_civil y m d)
      | _, _, _ => Raise EEException
      end
  | _ => Raise EEException
  end.

Definition ms_per_day : Z := 86400000.

(** [col.filterDate(start, end)]: the images whose [system:time_start] is
    in the half-open range from [start] (kept) to [end] (left out).  The
    scripts call it with the two dates of a window; what the service
    answers to an [end] that is not after its [start] is written nowhere in
    them, and the filter is applied to such a pair like to any other. *)
Definition filterDate (start end_ : string) (col : ImageCollection)
  : res ImageCollection :=
  s <- parse_date start ;;
  e <- parse_date end_ ;;
  Ok (filter (fun img => match time_start img with
                         | Some t => (s * ms_per_day <=? t) && (t <? e * ms_per_day)
                         | None => false
                         end) col).

(** [col.map(f)]. *)
Definition map_images (f : Image -> res Image) (col : ImageCollection)
  : res ImageCollection :=
  mapM f col.

(** [col.size().getInfo()]. *)
Definition size (col : ImageCollection) : nat := List.length col.

(** The value of band [name] at pixel [p]; none where the pixel is masked
    or the image has no such band. *)
Definition value_at (name : string) (img : Image) (p : pixel) : option Q :=
  match get name (bands img) with
  | Some r => r p
  | None => None
  end.

(** The valid values of band [name] at pixel [p], image by image. *)
Definition samples_at (name : string) (p : pixel) (col : ImageCollection)
  : list Q :=
  flat_map (fun img => match value_at name img p with
                       | Some v => [v]
                       | None => []
                       end) col.

(** A per-pixel reduction of a collection, band by band: the bands are
    those of the first image; a pixel no image has a value for stays
    masked. *)
Definition reduce (r : Reducer) (col : ImageCollection) : Image :=
  {| bands := match col with
              | [] => []
              | first :: _ =>
                  map (fun b => (fst b,
                                 fun p => match samples_at (fst b) p col with
                                          | [] => None
                                          | vs => run r vs
                                          end))
                      (bands first)
              end;
     time_start := None;
     footprint := None |}.

(** [col.sum()] and [col.median()]. *)
Definition collection_sum (col : ImageCollection) : Image := reduce sum col.
Definition collection_median (col : ImageCollection) : Image := reduce median col.

(** ** Zonal reduction *)

(** The valid values of a band over the cells of a geometry. *)
Definition samples_over (r : raster) (g : list pixel) : list Q :=
  flat_map (fun p => match r p with Some v => [v] | None => [] end) g.

Definition set_result (name : string) (v : option Q) (f : Feature) : Feature :=
  match v with
  | Some q => {| geometry := geometry f;
                 properties := set name q (properties f) |}
  | None => f
  end.

(** [img.reduceRegions(collection, reducer, scale)]: each feature gets the
    reducer's value over its cells, as the property the reducer names
    when the image has one band and as one property for each band
    otherwise; a null value sets no property. *)
Definition reduceRegions (img : Image) (collection : FeatureCollection)
    (reducer : Reducer) (scale : Z) : FeatureCollection :=
  map (fun f =>
         match bands img with
         | [(_, r)] =>
             set_result (output_name reducer)
                        (run reducer (samples_over r (geometry f))) f
         | bs =>
             fold_left (fun f' b =>
                          set_result (fst b)
                            (run reducer (samples_over (snd b) (geometry f))) f')
                       bs f
         end) collection.

End EE.

(* ------------------------------------------------------------------ *)
(** * geopandas tables *)

Module Geo.

Inductive cell : Set :=
| Geom (g : list EE.pixel)
| Num (q : Q)
| NaN.

(** A [GeoDataFrame]: the column names and, for each feature, one cell
    for each column. *)
Record GeoDataFrame : Set := {
  columns : list string;
  rows : list (list cell)
}.

(** The labels of [l], each once, in the order they first show up. *)
Fixpoint uniq (l : list string) (seen : list string) : list string :=
  match l with
  | [] => []
  | x :: l' =>
      if existsb (String.eqb x) seen then uniq l' seen
      else x :: uniq l' (x :: seen)
  end.

Definition row_keys (f : EE.Feature) : list string :=
  "geometry"%string :: map fst (EE.properties f).

Definition row_cell (f : EE.Feature) (column : string) : cell :=
  match EE.get column (EE.properties f) with
  | Some q => Num q
  | None => if String.eqb column "geometry" then Geom (EE.geometry f) else NaN
  end.

(** [gpd.GeoDataFrame.from_features(stats, crs="EPSG:4326")], for a
    collection that has a feature: a row for each feature, holding its
    geometry and then its properties; a property a feature lacks is NaN in
    its row. *)
Definition from_features (stats : EE.FeatureCollection) : GeoDataFrame :=
  let columns := uniq (flat_map row_keys stats) [] in
  {| columns := columns;
     rows := map (fun f => map (row_cell f) columns) stats |}.

Definition has_column (df : GeoDataFrame) (label : string) : bool :=
  existsb (String.eqb label) (columns df).

Definition keep (labels : list string) (column : string) : bool :=
  negb (existsb (String.eqb column) labels).

(** The cells of a row whose column is kept. *)
Definition drop_cells (labels columns : list string) (r : list cell)
  : list cell :=
  map snd (filter (fun cv => keep labels (fst cv)) (combine columns r)).

(** [df.drop(columns=labels)]: a label that is not a column is a
    [KeyError]. *)
Definition drop (labels : list string) (df : GeoDataFrame)
  : res GeoDataFrame :=
  if forallb (has_column df) labels
  then Ok {| columns := filter (keep labels) (columns df);
             rows := map (drop_cells labels (columns df)) (rows df) |}
  else Raise KeyError.

(** The cell of row [i] under column [label]. *)
Definition at_ (df : GeoDataFrame) (i : nat) (label : string) : option cell :=
  match nth_error (rows df) i with
  | Some r => EE.get label (combine (columns df) r)
  | None => None
  end.

End Geo.

(* ------------------------------------------------------------------ *)
(** * What the two scripts share *)

(** 01:44 and 02:43. *)
Definition SCALE : Z := 1000.

(** 01:46-49 and 02:45-48. *)
Definition STATISTICS : list string :=
  [ "COUNT"; "MINIMUM"; "MEAN"; "MAXIMUM";
    "MEDIAN"; "MODE"; "STD"; "SUM"; "VARIANCE" ]%string.

(** The dictionary of [zonal_stats], 01:60-70 and 02:59-69. *)
Definition reducers : list (string * EE.Reducer) :=
  [ ("COUNT", EE.count); ("MEAN", EE.mean); ("MAXIMUM", EE.max);
    ("MEDIAN", EE.median); ("MINIMUM", EE.min); ("MODE", EE.mode);
    ("STD", EE.stdDev); ("SUM", EE.sum); ("VARIANCE", EE.variance) ]%string.

(** [zonal_stats], 01:59-78 and 02:58-77. *)
Definition zonal_stats (image : EE.Image) (features : EE.FeatureCollection)
    (statistic : string) (scale : Z) : res Geo.GeoDataFrame :=
  reducer <- match EE.get statistic reducers with
             | Some r => Ok r
             | None => Raise KeyError
             end ;;
  let stats := EE.reduceRegions image features reducer scale in
  Ok (Geo.from_features stats).

(** A [for] loop over [l] that threads the state [s] and stops at the
    first exception. *)
Fixpoint for_each {A S : Type} (l : list A) (body : A -> S -> res S) (s : S)
  : res S :=
  match l with
  | [] => Ok s
  | x :: l' => s' <- body x s ;; for_each l' body s'
  end.

(** The post-processing of one list of results: 01:136-143, and
    [reshape_results], 02:189-192.  [str] is the printed form pandas gives
    a table. *)
Definition reshape_results (str : Geo.GeoDataFrame -> string)
    (weeks : list Z) (results : list Geo.GeoDataFrame)
  : res Frame.DataFrame :=
  values <- mapM (fun x => Py.getitem (Py.split x) 2) (map str results) ;;
  matrix <- Numpy.reshape values (List.length weeks) (List.length STATISTICS) ;;
  Frame.make matrix weeks STATISTICS.

(* ------------------------------------------------------------------ *)
(** * 01_precipitation_chirps_weekly.py *)

Module Chirps.

(** [chirps_daily], 01:103-106, over the images of the CHIRPS catalog. *)
Definition chirps_daily (catalog : EE.ImageCollection)
  : res EE.ImageCollection :=
  EE.select_all ["precipitation"%string] catalog.

(** The image of one week, 01:116-125. *)
Definition weekly_image (AOI : EE.FeatureCollection)
    (chirps_daily : EE.ImageCollection) (start end_ : string)
  : res EE.Image :=
  collection <- EE.filterDate start end_ (EE.filterBounds AOI chirps_daily) ;;
  if (EE.size collection =? 0)%nat
  then Ok (EE.clip (EE.constant 0) AOI)
  else Ok (EE.clip (EE.collection_sum collection) AOI).

(** The loop over the statistics, 01:127-130. *)
Definition statistics_loop (AOI : EE.FeatureCollection) (image : EE.Image)
    (results : list Geo.GeoDataFrame) : res (list Geo.GeoDataFrame) :=
  for_each STATISTICS
    (fun stat results =>
       zs <- zonal_stats image AOI stat SCALE ;;
       zs <- Geo.drop ["geometry"; "gid"]%string zs ;;
       Ok (results ++ [zs]))
    results.

(** PROCESSING LOOP, 01:108-130. *)
Definition processing_loop (AOI : EE.FeatureCollection)
    (chirps_daily : EE.ImageCollection) (loaded : Loaded)
  : res (list Geo.GeoDataFrame) :=
  for_each (Py.range (List.length (weeks loaded)))
    (fun i results =>
       start <- Py.getitem (start_dates loaded) i ;;
       end_ <- Py.getitem (end_dates loaded) i ;;
       image <- weekly_image AOI chirps_daily start end_ ;;
       statistics_loop AOI image results)
    [].

(** POST-PROCESSING, 01:136-143. *)
Definition post_processing (str : Geo.GeoDataFrame -> string)
    (weeks : list Z) (results : list Geo.GeoDataFrame)
  : res Frame.DataFrame :=
  reshape_results str weeks results.

(** The script, from the week table to [df_out]. *)
Definition script (str : Geo.GeoDataFrame -> string)
    (weeks_df : list WeekRecord) (AOI : EE.FeatureCollection)
    (catalog : EE.ImageCollection) : res Frame.DataFrame :=
  loaded <- data_loading weeks_df ;;
  chirps <- chirps_daily catalog ;;
  results <- processing_loop AOI chirps loaded ;;
  post_processing str (weeks loaded) results.

End Chirps.

(* ------------------------------------------------------------------ *)
(** * 02_lst_modis_day_night_weekly.py *)

Module Modis.

(** The value [mask] of [mask_day] and [mask_night], 02:82-83 and
    02:89-90, from the quality band [qa]. *)
Definition quality_mask (qa : EE.Image) : res EE.Image :=
  EE.And (EE.eq (EE.bitwiseAnd qa (Z.shiftl 1 2)) 0)
         (EE.eq (EE.bitwiseAnd qa (Z.shiftl 1 3)) 0).

(** [mask_day], 02:80-84. *)
Definition mask_day (image : EE.Image) : res EE.Image :=
  qa <- EE.select ["QC_Day"%string] image ;;
  mask <- quality_mask qa ;;
  EE.updateMask image mask.

(** [mask_night], 02:87-91. *)
Definition mask_night (image : EE.Image) : res EE.Image :=
  qa <- EE.select ["QC_Night"%string] image ;;
  mask <- quality_mask qa ;;
  EE.updateMask image mask.

(** [kelvin_to_celsius_day], 02:94-100. *)
Definition kelvin_to_celsius_day (img : EE.Image) : res EE.Image :=
  lst <- EE.select ["LST_Day_1km"%string] img ;;
  Ok (EE.copyProperties
        (EE.subtract (EE.multiply lst 0.02%Q) 273.15%Q) img).

(** [kelvin_to_celsius_night], 02:103-109. *)
Definition kelvin_to_celsius_night (img : EE.Image) : res EE.Image :=
  lst <- EE.select ["LST_Night_1km"%string] img ;;
  Ok (EE.copyProperties
        (EE.subtract (EE.multiply lst 0.02%Q) 273.15%Q) img).

(** [MODIS_DAY] and [MODIS_NIGHT], 02:133-139, over the images of the
    MOD11A1 catalog. *)
Definition MODIS_DAY (catalog : EE.ImageCollection) : res EE.ImageCollection :=
  EE.select_all ["LST_Day_1km"; "QC_Day"]%string catalog.

Definition MODIS_NIGHT (catalog : EE.ImageCollection) : res EE.ImageCollection :=
  EE.select_all ["LST_Night_1km"; "QC_Night"]%string catalog.

(** [day_col], 02:150-156. *)
Definition day_col (AOI : EE.FeatureCollection) (MODIS_DAY : EE.ImageCollection)
    (start end_ : string) : res EE.ImageCollection :=
  c <- EE.filterDate start end_ (EE.filterBounds AOI MODIS_DAY) ;;
  c <- EE.map_images mask_day c ;;
  EE.map_images kelvin_to_celsius_day c.

(** [night_col], 02:158-164. *)
Definition night_col (AOI : EE.FeatureCollection) (MODIS_NIGHT : EE.ImageCollection)
    (start end_ : string) : res EE.ImageCollection :=
  c <- EE.filterDate start end_ (EE.filterBounds AOI MODIS_NIGHT) ;;
  c <- EE.map_images mask_night c ;;
  EE.map_images kelvin_to_celsius_night c.

(** [day_img] and [night_img], 02:166-176, from the week's collection. *)
Definition weekly_image (AOI : EE.FeatureCollection) (col : EE.ImageCollection)
  : EE.Image :=
  if (EE.size col =? 0)%nat
  then EE.clip (EE.constant 0) AOI
  else EE.clip (EE.collection_median col) AOI.

(** The loop over the statistics, 02:178-183; the state is the pair of
    [results_day] and [results_night]. *)
Definition statistics_loop (AOI : EE.FeatureCollection)
    (day_img night_img : EE.Image)
    (results : list Geo.GeoDataFrame * list Geo.GeoDataFrame)
  : res (list Geo.GeoDataFrame * list Geo.GeoDataFrame) :=
  for_each STATISTICS
    (fun stat results =>
       d <- zonal_stats day_img AOI stat SCALE ;;
       n <- zonal_stats night_img AOI stat SCALE ;;
       d' <- Geo.drop ["geometry"; "gid"]%string d ;;
       n' <- Geo.drop ["geometry"; "gid"]%string n ;;
       Ok (fst results ++ [d'], snd results ++ [n']))
    results.

(** PROCESSING LOOP, 02:141-183. *)
Definition processing_loop (AOI : EE.FeatureCollection)
    (MODIS_DAY MODIS_NIGHT : EE.ImageCollection) (loaded : Loaded)
  : res (list Geo.GeoDataFrame * list Geo.GeoDataFrame) :=
  for_each (Py.range (List.length (weeks loaded)))
    (fun i results =>
       start <- Py.getitem (start_dates loaded) i ;;
       end_ <- Py.getitem (end_dates loaded) i ;;
       day_col <- day_col AOI MODIS_DAY start end_ ;;
       night_col <- night_col AOI MODIS_NIGHT start end_ ;;
       let day_img := weekly_image AOI day_col in
       let night_img := weekly_image AOI night_col in
       statistics_loop AOI day_img night_img results)
    ([], []).

(** POST-PROCESSING, 02:189-200. *)
Definition post_processing (str : Geo.GeoDataFrame -> string)
    (weeks : list Z) (results_day results_night : list Geo.GeoDataFrame)
  : res Frame.DataFrame :=
  df_day <- reshape_results str weeks results_day ;;
  df_night <- reshape_results str weeks results_night ;;
  Ok (Frame.concat_columns (Frame.add_prefix "DAY_" df_day)
                           (Frame.add_prefix "NIGHT_" df_night)).

(** The script, from the week table to [df_out]. *)
Definition script (str : Geo.GeoDataFrame -> string)
    (weeks_df : list WeekRecord) (AOI : EE.FeatureCollection)
    (catalog : EE.ImageCollection) : res Frame.DataFrame :=
  loaded <- data_loading weeks_df ;;
  modis_day <- MODIS_DAY catalog ;;
  modis_night <- MODIS_NIGHT catalog ;;
  results <- processing_loop AOI modis_day modis_night loaded ;;
  post_processing str (weeks loaded) (fst results) (snd results).

End Modis.

(* ------------------------------------------------------------------ *)
(** * Notions the properties are stated with *)

(** The start dates go strictly up. *)
Fixpoint strictly_increasing (dates : list Pandas.Timestamp) : bool :=
  match dates with
  | a :: (b :: _) as rest => (a <? b) && strictly_increasing rest
  | _ => true
  end.

(** The token the post-processing reads off one result. *)
Definition token (str : Geo.GeoDataFrame -> string) (x : Geo.GeoDataFrame)
  : res string :=
  Py.getitem (Py.split (str x)) 2.

(** The table one pass of the loop over the statistics appends. *)
Definition stat_frame (AOI : EE.FeatureCollection) (image : EE.Image)
    (stat : string) : res Geo.GeoDataFrame :=
  zs <- zonal_stats image AOI stat SCALE ;;
  Geo.drop ["geometry"; "gid"]%string zs.

(** The two tables one pass of the temperature loop appends. *)
Definition stat_frames2 (AOI : EE.FeatureCollection)
    (day_img night_img : EE.Image) (stat : string)
  : res (Geo.GeoDataFrame * Geo.GeoDataFrame) :=
  d <- zonal_stats day_img AOI stat SCALE ;;
  n <- zonal_stats night_img AOI stat SCALE ;;
  d' <- Geo.drop ["geometry"; "gid"]%string d ;;
  n' <- Geo.drop ["geometry"; "gid"]%string n ;;
  Ok (d', n').

(** The tables pass [i] of the precipitation loop appends. *)
Definition chirps_week_frames (AOI : EE.FeatureCollection)
    (chirps_daily : EE.ImageCollection) (loaded : Loaded) (i : nat)
  : res (list Geo.GeoDataFrame) :=
  start <- Py.getitem (start_dates loaded) i ;;
  end_ <- Py.getitem (end_dates loaded) i ;;
  image <- Chirps.weekly_image AOI chirps_daily start end_ ;;
  mapM (stat_frame AOI image) STATISTICS.

(** The tables pass [i] of the temperature loop appends. *)
Definition modis_week_frames (AOI : EE.FeatureCollection)
    (MODIS_DAY MODIS_NIGHT : EE.ImageCollection) (loaded : Loaded) (i : nat)
  : res (list (Geo.GeoDataFrame * Geo.GeoDataFrame)) :=
  start <- Py.getitem (start_dates loaded) i ;;
  end_ <- Py.getitem (end_dates loaded) i ;;
  day_col <- Modis.day_col AOI MODIS_DAY start end_ ;;
  night_col <- Modis.night_col AOI MODIS_NIGHT start end_ ;;
  mapM (stat_frames2 AOI (Modis.weekly_image AOI day_col)
                     (Modis.weekly_image AOI night_col)) STATISTICS.

(** A property of a feature. *)
Definition has_property (key : string) (f : EE.Feature) : Prop :=
  In key (map fst (EE.properties f)).

(** The two sub-variables of the temperature script, and the bands and
    functions the script has for each. *)
Inductive SubVariable : Set := DAY | NIGHT.

Definition lst_band (sv : SubVariable) : string :=
  match sv with DAY => "LST_Day_1km" | NIGHT => "LST_Night_1km" end.

Definition qc_band (sv : SubVariable) : string :=
  match sv with DAY => "QC_Day" | NIGHT => "QC_Night" end.

Definition mask (sv : SubVariable) : EE.Image -> res EE.Image :=
  match sv with DAY => Modis.mask_day | NIGHT => Modis.mask_night end.

Definition kelvin_to_celsius (sv : SubVariable) : EE.Image -> res EE.Image :=
  match sv with
  | DAY => Modis.kelvin_to_celsius_day
  | NIGHT => Modis.kelvin_to_celsius_night
  end.

(** The order of the script, [.map(mask).map(kelvin_to_celsius)], on one
    observation. *)
Definition mask_then_convert (sv : SubVariable) (img : EE.Image) : res EE.Image :=
  masked <- mask sv img ;;
  kelvin_to_celsius sv masked.

(** The other order: the observation is converted first, and the mask read
    from its quality band is applied to the converted image. *)
Definition convert_then_mask (sv : SubVariable) (img : EE.Image) : res EE.Image :=
  converted <- kelvin_to_celsius sv img ;;
  qa <- EE.select [qc_band sv] img ;;
  m <- Modis.quality_mask qa ;;
  EE.updateMask converted m.

(** Rasters that agree on every pixel, and images that agree on their
    bands, in order, and on their properties. *)
Definition raster_equiv (a b : EE.raster) : Prop := forall p, a p = b p.

Definition bands_equiv (a b : list (string * EE.raster)) : Prop :=
  Forall2 (fun x y => fst x = fst y /\ raster_equiv (snd x) (snd y)) a b.

Definition image_equiv (a b : EE.Image) : Prop :=
  bands_equiv (EE.bands a) (EE.bands b)
  /\ EE.time_start a = EE.time_start b
  /\ EE.footprint a = EE.footprint b.

Definition res_equiv {A : Type} (R : A -> A -> Prop) (x y : res A) : Prop :=
  match x, y with
  | Ok a, Ok b => R a b
  | Raise e, Raise e' => e = e'
  | _, _ => False
  end.

(** The cell [zonal_stats] gives polygon number [i] for a statistic: the
    cell of row [i] under the column the reducer of the statistic writes. *)
Definition zonal_cell (image : EE.Image) (AOI : EE.FeatureCollection)
    (statistic : string) (i : nat) : res (option Geo.cell) :=
  zs <- zonal_stats image AOI statistic SCALE ;;
  Ok (match EE.get statistic reducers with
      | Some reducer => Geo.at_ zs i (EE.output_name reducer)
      | None => None
      end).

(** The image both scripts put in place of a week without observations. *)
Definition zero_image (AOI : EE.FeatureCollection) : EE.Image :=
  EE.clip (EE.constant 0) AOI.

(** The mask of [mask_day] and [mask_night] at a pixel whose quality value
    is [q]: 1 when [q & 4] and [q & 8] are both 0, and 0 otherwise. *)
Definition mask_value (q : Q) : Q :=
  EE.of_bool
    (EE.nonzero (EE.of_bool (Qeq_bool (inject_Z (Z.land (EE.Qtrunc q) 4)) 0))
     && EE.nonzero (EE.of_bool (Qeq_bool (inject_Z (Z.land (EE.Qtrunc q) 8)) 0))).

(** The value a masked and converted observation has at a pixel, from the
    raw temperature and the quality value there. *)
Definition masked_celsius (r q : EE.raster) (p : EE.pixel) : option Q :=
  match r p, q p with
  | Some v, Some w =>
      if EE.nonzero (mask_value w) then Some (v * 0.02 - 273.15)%Q else None
  | _, _ => None
  end.

(** The state of the temperature loop: the two lists of results. *)
Definition app2 {F : Type} (a b : list F * list F) : list F * list F :=
  (fst a ++ fst b, snd a ++ snd b).

(** The arithmetic of the conversion, 02:97-98, in IEEE binary64, the
    number type of the backend: 0.02 and 273.15 are the doubles nearest to
    them. *)
Module Binary64.
Import PrimFloat.

Definition celsius (raw : float) : float :=
  (raw * 0x1.47ae147ae147bp-6 - 0x1.1126666666666p+8)%float.

End Binary64.

(** The days a [pd.Timestamp] can hold: 1677-09-21 to 2262-04-11. *)
Definition first_day : Z := -106752.
Definition last_day : Z := 106751.

(** A day whose year, month and day have four, two and two digits and give
    the day back. *)
Definition civil_ok (d : Z) : bool :=
  let '(y, m, dd) := Pandas.civil_from_days d in
  (0 <=? y) && (y <? 10000) && (0 <=? m) && (m <? 100)
  && (0 <=? dd) && (dd <? 100)
  && (Pandas.days_from_civil y m dd =? d).

(** [civil_ok] on the [n] days from [d] on. *)
Fixpoint civil_ok_from (n : nat) (d : Z) : bool :=
  match n with
  | O => true
  | S n' => civil_ok d && civil_ok_from n' (d + 1)
  end.

(** An image whose [system:time_start] is on a day from [s] (kept) to [e]
    (left out). *)
Definition in_days (s e : Z) (img : EE.Image) : bool :=
  match EE.time_start img with
  | Some t => (s * EE.ms_per_day <=? t) && (t <? e * EE.ms_per_day)
  | None => false
  end.

(** The end of window [i]: the start of the next week, or seven days after
    the start of the last week, 01:91-92 and 02:121-122. *)
Definition window_end (starts : list Pandas.Timestamp) (i : nat) : option Pandas.Timestamp :=
  match nth_error starts (S i), nth_error starts i with
  | Some next, _ => Some next
  | None, Some last_start => Some (last_start + 7)
  | None, None => None
  end.

(** The collection the loop filters for week [i], 01:116-120 (and the
    filter of 02:150-153 and 02:158-161). *)
Definition week_collection (AOI : EE.FeatureCollection)
    (col : EE.ImageCollection) (loaded : Loaded) (i : nat)
  : res EE.ImageCollection :=
  start <- Py.getitem (start_dates loaded) i ;;
  end_ <- Py.getitem (end_dates loaded) i ;;
  EE.filterDate start end_ (EE.filterBounds AOI col).

(** Every start date of the table is a day a timestamp can hold, and so is
    the day seven days after it. *)
Definition dates_in_range (weeks_df : list WeekRecord) : Prop :=
  Forall (fun w => first_day <= fecha_ini w <= last_day - 7) weeks_df.

(* ------------------------------------------------------------------ *)
(** * Sample data *)

Module Sample.

(** The first three weeks of 2024: 2024-01-01, 2024-01-08, 2024-01-15. *)
Definition jan_2024 : list WeekRecord :=
  [ {| year := 2024; se := 1; fecha_ini := 19723 |};
    {| year := 2024; se := 2; fecha_ini := 19730 |};
    {| year := 2024; se := 3; fecha_ini := 19737 |} ].

(** What DATA LOADING binds for them. *)
Definition loaded_jan_2024 : Loaded :=
  {| years := [2024; 2024; 2024];
     weeks := [1; 2; 3];
     start_dates := ["2024-01-01"; "2024-01-08"; "2024-01-15"]%string;
     end_dates := ["2024-01-08"; "2024-01-15"; "2024-01-22"]%string |}.

(** A week table that goes back in time. *)
Definition backwards : list WeekRecord :=
  [ {| year := 2024; se := 2; fecha_ini := 19730 |};
    {| year := 2024; se := 1; fecha_ini := 19723 |} ].

(** Two weeks at the end of the range of a timestamp: 2262-04-03 and
    2262-04-10. *)
Definition april_2262 : list WeekRecord :=
  [ {| year := 2262; se := 14; fecha_ini := 106743 |};
    {| year := 2262; se := 15; fecha_ini := 106750 |} ].

(** A study area of two polygons, of three and of one cell. *)
Definition AOI : EE.FeatureCollection :=
  [ {| EE.geometry := [(0, 0); (0, 1); (1, 0)];
       EE.properties := [("gid"%string, 1%Q)] |};
    {| EE.geometry := [(5, 5)];
       EE.properties := [("gid"%string, 2%Q)] |} ].

(** A study area of one polygon that covers no grid cell. *)
Definition no_cell : EE.FeatureCollection :=
  [ {| EE.geometry := [];
       EE.properties := [("gid"%string, 1%Q)] |} ].

Definition one_polygon : EE.FeatureCollection :=
  [ {| EE.geometry := [(0, 0); (0, 1); (1, 0)];
       EE.properties := [("gid"%string, 1%Q)] |} ].

(** A daily CHIRPS image without bounds: [mm] millimetres everywhere. *)
Definition rain (day : Z) (mm : Q) : EE.Image :=
  {| EE.bands := [("precipitation"%string, fun _ => Some mm)];
     EE.time_start := Some (day * EE.ms_per_day);
     EE.footprint := None |}.

(** Rain in the first and in the third week, none in the second. *)
Definition chirps : EE.ImageCollection :=
  [ rain 19723 2%Q; rain 19725 (5 # 2)%Q; rain 19738 4%Q ].

(** A daily MOD11A1 image: raw temperature [lst] everywhere, and the
    quality byte [qc] at the cell (0, 0), 0 elsewhere. *)
Definition lst_image (day : Z) (lst : Z) (qc : Z) : EE.Image :=
  {| EE.bands :=
       [ ("LST_Day_1km"%string, fun _ => Some (inject_Z lst));
         ("QC_Day"%string,
          fun p => Some (inject_Z (if EE.pixel_eqb p (0, 0) then qc else 0)));
         ("LST_Night_1km"%string, fun _ => Some (inject_Z (lst - 500)));
         ("QC_Night"%string, fun _ => Some 0%Q) ];
     EE.time_start := Some (day * EE.ms_per_day);
     EE.footprint := None |}.

Definition modis : EE.ImageCollection :=
  [ lst_image 19723 15000 0; lst_image 19724 15100 4;
    lst_image 19726 15200 8; lst_image 19738 14900 0 ].

Definition digits (z : Z) : string :=
  DecimalString.NilZero.string_of_uint (N.to_uint (Z.to_N z)).

(** A number with two decimals. *)
Definition show_Q (q : Q) : string :=
  let h := Qfloor (Qabs q * 100)%Q in
  ((if Qle_bool 0 q then "" else "-")
     ++ digits (h / 100) ++ "." ++ Pandas.zfill 2 h)%string.

Definition show_cell (c : Geo.cell) : string :=
  match c with
  | Geo.Geom _ => "POLYGON"
  | Geo.Num q => show_Q q
  | Geo.NaN => "NaN"
  end.

Definition newline : string := String (ascii_of_nat 10) EmptyString.

(** A stand-in for the printed form of a table: the column names, then a
    line for each row with its position and its cells. *)
Definition show (df : Geo.GeoDataFrame) : string :=
  (String.concat "  " (""%string :: Geo.columns df)
     ++ String.concat ""
          (map (fun ir => newline ++ digits (Z.of_nat (fst ir)) ++ "  "
                            ++ String.concat "  " (map show_cell (snd ir)))
               (combine (seq 0%nat (List.length (Geo.rows df))) (Geo.rows df))))%string.

(** The table of the precipitation script on the sample weeks, over one
    polygon. *)
Definition precipitation_table : Frame.DataFrame :=
  {| Frame.index := [1; 2; 3];
     Frame.columns :=
       [ "COUNT"; "MINIMUM"; "MEAN"; "MAXIMUM"; "MEDIAN"; "MODE"; "STD";
         "SUM"; "VARIANCE" ]%string;
     Frame.values :=
       [ ["3.00"; "4.50"; "4.50"; "4.50"; "4.50"; "4.50"; "0.00"; "13.50"; "0.00"];
         ["3.00"; "0.00"; "0.00"; "0.00"; "0.00"; "0.00"; "0.00"; "0.00"; "0.00"];
         ["3.00"; "4.00"; "4.00"; "4.00"; "4.00"; "4.00"; "0.00"; "12.00"; "0.00"]
       ]%string |}.

(** The table of the temperature script on the sample weeks, over one
    polygon. *)
Definition temperature_table : Frame.DataFrame :=
  {| Frame.index := [1; 2; 3];
     Frame.columns :=
       [ "DAY_COUNT"; "DAY_MINIMUM"; "DAY_MEAN"; "DAY_MAXIMUM"; "DAY_MEDIAN";
         "DAY_MODE"; "DAY_STD"; "DAY_SUM"; "DAY_VARIANCE";
         "NIGHT_COUNT"; "NIGHT_MINIMUM"; "NIGHT_MEAN"; "NIGHT_MAXIMUM";
         "NIGHT_MEDIAN"; "NIGHT_MODE"; "NIGHT_STD"; "NIGHT_SUM";
         "NIGHT_VARIANCE" ]%string;
     Frame.values :=
       [ ["3.00"; "26.85"; "28.18"; "28.85"; "28.85"; "28.85"; "0.94"; "84.55"; "0.88";
          "3.00"; "18.85"; "18.85"; "18.85"; "18.85"; "18.85"; "0.00"; "56.55"; "0.00"];
         ["3.00"; "0.00"; "0.00"; "0.00"; "0.00"; "0.00"; "0.00"; "0.00"; "0.00";
          "3.00"; "0.00"; "0.00"; "0.00"; "0.00"; "0.00"; "0.00"; "0.00"; "0.00"];
         ["3.00"; "24.85"; "24.85"; "24.85"; "24.85"; "24.85"; "0.00"; "74.55"; "0.00";
          "3.00"; "14.85"; "14.85"; "14.85"; "14.85"; "14.85"; "0.00"; "44.55"; "0.00"]
       ]%string |}.

(** The table [zonal_stats] gives for one statistic, less the columns the
    loop drops: the column [name], and a row for each polygon. *)
Definition frame (name : string) (cells : list Q) : Geo.GeoDataFrame :=
  {| Geo.columns := [name];
     Geo.rows := map (fun q => [Geo.Num q]) cells |}.

(** The nine results of a week, on one polygon. *)
Definition week_results (mm : Q) : list Geo.GeoDataFrame :=
  [ frame "count" [3%Q]; frame "min" [mm]; frame "mean" [mm];
    frame "max" [mm]; frame "median" [mm]; frame "mode" [mm];
    frame "stdDev" [0%Q]; frame "sum" [(3 * mm)%Q]; frame "variance" [0%Q] ]%string.

Definition results27 : list Geo.GeoDataFrame :=
  week_results (9 # 2)%Q ++ week_results 0%Q ++ week_results 4%Q.

Definition results26 : list Geo.GeoDataFrame := tl results27.

End Sample.


(* ================================================================== *)
(** * Properties *)

(** ** The error monad *)

Lemma bind_ok {A B : Type} (m : res A) (k : A -> res B) (b : B) :
  bind m k = Ok b -> exists a, m = Ok a /\ k a = Ok b.
Proof.
  destruct m as [a | e]; simpl; intros H; [eauto | discriminate].
Qed.

Ltac inv_bind H :=
  let x := fresh "x" in
  let Hx := fresh "Hx" in
  apply bind_ok in H; destruct H as (x & Hx & H).

Lemma mapM_length {A B : Type} (f : A -> res B) (l : list A) (l' : list B) :
  mapM f l = Ok l' -> List.length l' = List.length l.
Proof.
  revert l'; induction l as [| x xs IH]; simpl; intros l' H.
  - now inversion H.
  - inv_bind H. inv_bind H. inversion H; subst; simpl.
    f_equal; auto.
Qed.

Lemma mapM_nth {A B : Type} (f : A -> res B) (l : list A) (l' : list B) :
  mapM f l = Ok l' ->
  forall i x, nth_error l i = Some x ->
    exists y, nth_error l' i = Some y /\ f x = Ok y.
Proof.
  revert l'; induction l as [| a l IH]; simpl; intros l' H i x Hi.
  - destruct i; discriminate.
  - inv_bind H. inv_bind H. inversion H; subst; clear H.
    destruct i as [| i]; simpl in *.
    + inversion Hi; subst; eauto.
    + eauto.
Qed.

Lemma mapM_ok {A B : Type} (f : A -> res B) (l : list A) :
  (forall x, In x l -> exists y, f x = Ok y) ->
  exists l', mapM f l = Ok l'.
Proof.
  induction l as [| a l IH]; simpl; intros H.
  - eauto.
  - destruct (H a) as (y & Hy); auto.
    destruct IH as (l' & Hl'); [intros; apply H; auto |].
    rewrite Hy, Hl'; simpl; eauto.
Qed.

(** ** The window builder *)

Lemma getitem_last_ok {A : Type} (l : list A) :
  l <> [] -> exists x, Py.getitem_last l = Ok x.
Proof.
  destruct l; [congruence | simpl; eauto].
Qed.

Lemma nth_error_tl {A : Type} (l : list A) (i : nat) :
  nth_error (tl l) i = nth_error l (S i).
Proof.
  destruct l; [destruct i |]; reflexivity.
Qed.

Lemma last_cons {A : Type} (l : list A) (x y : A) :
  last (y :: l) x = last l y.
Proof.
  revert x y; induction l as [| z l IH]; intros x y; [reflexivity |].
  change (last (z :: l) x = last (z :: l) y).
  now rewrite !IH.
Qed.

Lemma last_nth_error {A : Type} (l : list A) (x : A) :
  nth_error (x :: l) (List.length l) = Some (last l x).
Proof.
  revert x; induction l as [| y l IH]; intros x; [reflexivity |].
  rewrite last_cons. exact (IH y).
Qed.

Lemma add_days_ok (ts n : Z) :
  Pandas.min_day <= ts + n <= Pandas.max_day ->
  Pandas.add_days ts n = Ok (ts + n).
Proof.
  intros H. unfold Pandas.add_days.
  destruct (Z.leb_spec Pandas.min_day (ts + n)); [| lia].
  destruct (Z.leb_spec (ts + n) Pandas.max_day); [reflexivity | lia].
Qed.

Lemma add_days_raises (ts n : Z) :
  ~ (Pandas.min_day <= ts + n <= Pandas.max_day) ->
  Pandas.add_days ts n = Raise OutOfBounds.
Proof.
  intros H. unfold Pandas.add_days.
  destruct (Z.leb_spec Pandas.min_day (ts + n)); [| reflexivity].
  destruct (Z.leb_spec (ts + n) Pandas.max_day); [lia | reflexivity].
Qed.

Lemma add_days_inv (ts n r : Z) :
  Pandas.add_days ts n = Ok r ->
  r = ts + n /\ Pandas.min_day <= ts + n <= Pandas.max_day.
Proof.
  unfold Pandas.add_days.
  destruct (Z.leb_spec Pandas.min_day (ts + n)); [| discriminate].
  destruct (Z.leb_spec (ts + n) Pandas.max_day); [| discriminate].
  intros E; inversion E. lia.
Qed.

Lemma getitem_last_nth {A : Type} (l : list A) (x : A) :
  Py.getitem_last l = Ok x -> nth_error l (List.length l - 1) = Some x.
Proof.
  destruct l as [| a l]; simpl; intros H; [discriminate |].
  inversion H; subst. rewrite Nat.sub_0_r. apply last_nth_error.
Qed.

(** The last row of a table that has a row. *)
Lemma last_row (weeks_df : list WeekRecord) :
  weeks_df <> [] ->
  exists w_last,
    nth_error weeks_df (List.length weeks_df - 1) = Some w_last
    /\ Py.getitem_last (map fecha_ini weeks_df) = Ok (fecha_ini w_last).
Proof.
  intros Hne.
  destruct (@getitem_last_ok _ (map fecha_ini weeks_df)) as (x & Hx).
  { destruct weeks_df; [congruence | discriminate]. }
  pose proof (getitem_last_nth _ Hx) as Hn. rewrite length_map in Hn.
  rewrite nth_error_map in Hn.
  destruct (nth_error weeks_df (List.length weeks_df - 1)) as [w |];
    [| discriminate].
  simpl in Hn. inversion Hn; subst x. eauto.
Qed.

(** What DATA LOADING does on a table that has a row: it returns when the
    last start seven days on is a date a timestamp holds, and raises
    otherwise. *)
Lemma data_loading_last (weeks_df : list WeekRecord) (w_last : WeekRecord) :
  nth_error weeks_df (List.length weeks_df - 1) = Some w_last ->
  data_loading weeks_df
  = if (Pandas.min_day <=? fecha_ini w_last + 7)
       && (fecha_ini w_last + 7 <=? Pandas.max_day)
    then Ok {| years := map year weeks_df;
               weeks := map se weeks_df;
               start_dates := map (fun w => Pandas.strftime (fecha_ini w)) weeks_df;
               end_dates :=
                 map Pandas.strftime (tl (map fecha_ini weeks_df))
                   ++ [Pandas.strftime (fecha_ini w_last + 7)] |}
    else Raise OutOfBounds.
Proof.
  intros Hw.
  destruct (@last_row weeks_df) as (w & Hw' & Hx).
  { intros ->. discriminate Hw. }
  rewrite Hw in Hw'. inversion Hw'; subst w; clear Hw'.
  unfold data_loading. rewrite Hx; cbn [bind]. unfold Pandas.add_days.
  destruct ((Pandas.min_day <=? fecha_ini w_last + 7)
            && (fecha_ini w_last + 7 <=? Pandas.max_day)); cbn [bind];
    [| reflexivity].
  unfold format_timestamps, Py.slice_from_1. now rewrite map_map, map_app.
Qed.

(** What DATA LOADING has built when it returns: as many ends as starts,
    each end but the last the next start, and the last end the last start
    seven days on, a date a timestamp holds. *)
Lemma data_loading_windows (weeks_df : list WeekRecord) (loaded : Loaded) :
  data_loading weeks_df = Ok loaded ->
  exists last_start,
    Py.getitem_last (map fecha_ini weeks_df) = Ok last_start
    /\ Pandas.min_day <= last_start + 7 <= Pandas.max_day
    /\ weeks loaded = map se weeks_df
    /\ years loaded = map year weeks_df
    /\ start_dates loaded = map (fun w => Pandas.strftime (fecha_ini w)) weeks_df
    /\ end_dates loaded =
         map Pandas.strftime (tl (map fecha_ini weeks_df))
           ++ [Pandas.strftime (last_start + 7)].
Proof.
  intros Hl.
  destruct (@last_row weeks_df) as (w & Hw & Hx).
  { intros ->. discriminate Hl. }
  rewrite (data_loading_last _ Hw) in Hl.
  destruct (Z.leb_spec Pandas.min_day (fecha_ini w + 7)); [| discriminate].
  destruct (Z.leb_spec (fecha_ini w + 7) Pandas.max_day); [| discriminate].
  cbn [andb] in Hl. inversion Hl; subst loaded; clear Hl.
  exists (fecha_ini w). cbn [weeks years start_dates end_dates].
  repeat split; auto.
Qed.

(** C1, as the code has it. Window Builder: from N >= 2 strictly increasing
    start dates whose last one, seven days on, is still a date a timestamp
    holds, the script builds N windows (N starts and N ends); the end of
    window i is the start of window i+1 for every i < N-1, and the end of the
    last window is the last start date plus exactly 7 calendar days. *)
Theorem window_builder_contiguous (weeks_df : list WeekRecord)
    (w_last : WeekRecord) :
  (2 <= List.length weeks_df)%nat ->
  strictly_increasing (map fecha_ini weeks_df) = true ->
  nth_error weeks_df (List.length weeks_df - 1) = Some w_last ->
  Pandas.min_day <= fecha_ini w_last + 7 <= Pandas.max_day ->
  exists loaded,
    data_loading weeks_df = Ok loaded
    /\ List.length (start_dates loaded) = List.length weeks_df
    /\ List.length (end_dates loaded) = List.length weeks_df
    /\ (forall i w, nth_error weeks_df i = Some w ->
          nth_error (start_dates loaded) i = Some (Pandas.strftime (fecha_ini w)))
    /\ (forall i, (S i < List.length weeks_df)%nat ->
          exists d, nth_error (end_dates loaded) i = Some d
                    /\ nth_error (start_dates loaded) (S i) = Some d)
    /\ nth_error (end_dates loaded) (List.length weeks_df - 1)
       = Some (Pandas.strftime (fecha_ini w_last + 7)).
Proof.
  intros HN _ Hw Hrange.
  pose proof (data_loading_last _ Hw) as Hl.
  destruct (Z.leb_spec Pandas.min_day (fecha_ini w_last + 7)); [| lia].
  destruct (Z.leb_spec (fecha_ini w_last + 7) Pandas.max_day); [| lia].
  cbn [andb] in Hl.
  assert (Hlen : List.length (map Pandas.strftime (tl (map fecha_ini weeks_df)))
                 = (List.length weeks_df - 1)%nat).
  { rewrite length_map. destruct weeks_df; simpl; [reflexivity |].
    rewrite length_map. lia. }
  eexists. split; [exact Hl |]. cbn [start_dates end_dates].
  split; [now rewrite length_map |].
  split; [rewrite length_app, Hlen; simpl; lia |].
  split; [intros i w Hi; now rewrite (map_nth_error _ _ _ Hi) |].
  split.
  - intros i Hi.
    destruct (nth_error weeks_df (S i)) as [w |] eqn:Hn.
    2: { apply nth_error_None in Hn. lia. }
    exists (Pandas.strftime (fecha_ini w)). split.
    + rewrite nth_error_app1 by lia.
      apply map_nth_error. rewrite nth_error_tl.
      now apply map_nth_error.
    + now rewrite (map_nth_error _ _ _ Hn).
  - rewrite nth_error_app2 by lia. rewrite Hlen, Nat.sub_diag. reflexivity.
Qed.

Lemma window_builder_contiguous_witness :
  exists loaded,
    data_loading Sample.jan_2024 = Ok loaded
    /\ List.length (start_dates loaded) = List.length Sample.jan_2024
    /\ List.length (end_dates loaded) = List.length Sample.jan_2024
    /\ (forall i w, nth_error Sample.jan_2024 i = Some w ->
          nth_error (start_dates loaded) i = Some (Pandas.strftime (fecha_ini w)))
    /\ (forall i, (S i < List.length Sample.jan_2024)%nat ->
          exists d, nth_error (end_dates loaded) i = Some d
                    /\ nth_error (start_dates loaded) (S i) = Some d)
    /\ nth_error (end_dates loaded) (List.length Sample.jan_2024 - 1)
       = Some "2024-01-22"%string.
Proof.
  apply (@window_builder_contiguous Sample.jan_2024
           {| year := 2024; se := 3; fecha_ini := 19737 |}).
  - simpl; lia.
  - reflexivity.
  - reflexivity.
  - unfold Pandas.min_day, Pandas.max_day; simpl; lia.
Defined.

(** The windows of the first three weeks of 2024. *)
Example data_loading_jan_2024 :
  data_loading Sample.jan_2024
  = Ok {| years := [2024; 2024; 2024];
          weeks := [1; 2; 3];
          start_dates := ["2024-01-01"; "2024-01-08"; "2024-01-15"]%string;
          end_dates := ["2024-01-08"; "2024-01-15"; "2024-01-22"]%string |}.
Proof. reflexivity. Qed.

(** C1 fails at the end of the range of a timestamp: the start dates
    2262-04-03 and 2262-04-10 are two and strictly increasing, and the
    script builds no window from them, since 2262-04-17 is no timestamp. *)
Lemma window_builder_raises_past_the_last_timestamp :
  (2 <= List.length Sample.april_2262)%nat
  /\ strictly_increasing (map fecha_ini Sample.april_2262) = true
  /\ data_loading Sample.april_2262 = Raise OutOfBounds
  /\ ~ (exists loaded, data_loading Sample.april_2262 = Ok loaded).
Proof.
  split; [simpl; lia |]. split; [reflexivity |]. split; [reflexivity |].
  intros (loaded & H). discriminate H.
Qed.

(** C7, as the code has it. DATA LOADING checks nothing about the order of
    the start dates.  It raises in two cases, and in no other: on the empty
    table, an [IndexError] from [start_dates[-1]], and on a table whose
    last start date, seven days on, is not a date a timestamp holds, the
    error of pandas for that.  It returns the windows of every other table,
    strictly increasing or not. *)
Theorem window_builder_error_conditions (weeks_df : list WeekRecord) :
  (data_loading weeks_df = Raise IndexError <-> weeks_df = [])
  /\ (data_loading weeks_df = Raise OutOfBounds
      <-> exists w_last,
            nth_error weeks_df (List.length weeks_df - 1) = Some w_last
            /\ ~ (Pandas.min_day <= fecha_ini w_last + 7 <= Pandas.max_day))
  /\ ((exists loaded, data_loading weeks_df = Ok loaded)
      <-> exists w_last,
            nth_error weeks_df (List.length weeks_df - 1) = Some w_last
            /\ Pandas.min_day <= fecha_ini w_last + 7 <= Pandas.max_day)
  /\ (forall e, data_loading weeks_df = Raise e ->
        e = IndexError \/ e = OutOfBounds).
Proof.
  destruct weeks_df as [| w0 l].
  - split; [split; reflexivity |].
    split; [split; [discriminate | intros (w & H & _); discriminate H] |].
    split; [split; [intros (x & H); discriminate H
                   | intros (w & H & _); discriminate H] |].
    intros e H. inversion H. now left.
  - destruct (@last_row (w0 :: l)) as (w & Hw & _); [discriminate |].
    rewrite (data_loading_last _ Hw).
    destruct (Z.leb_spec Pandas.min_day (fecha_ini w + 7)) as [H1 | H1];
      destruct (Z.leb_spec (fecha_ini w + 7) Pandas.max_day) as [H2 | H2];
      cbn [andb].
    1: { split; [split; discriminate |].
         split; [split; [discriminate |] |].
         { intros (w' & Hw' & Hn). rewrite Hw in Hw'. inversion Hw'; subst w'.
           lia. }
         split; [split; [intros _; exists w; split; [exact Hw | lia] | eauto] |].
         intros e H. discriminate H. }
    all: split; [split; discriminate |];
      (split; [split; [intros _; exists w; split; [exact Hw | lia] | reflexivity] |]);
      (split; [split; [intros (x & H); discriminate H
                      | intros (w' & Hw' & Hn); rewrite Hw in Hw';
                        inversion Hw'; subst w'; lia] |]);
      intros e H; inversion H; now right.
Qed.

(** C7 fails: a week table that goes back in time is accepted. *)
Lemma window_builder_accepts_decreasing_dates :
  ~ (forall weeks_df,
       strictly_increasing (map fecha_ini weeks_df) = false ->
       exists e, data_loading weeks_df = Raise e).
Proof.
  intros H. destruct (H Sample.backwards) as (e & He); [reflexivity |].
  discriminate He.
Qed.

(** ** The table assembly *)

Lemma mapM_map {A B C : Type} (g : A -> B) (f : B -> res C) (l : list A) :
  mapM f (map g l) = mapM (fun x => f (g x)) l.
Proof.
  induction l as [| a l IH]; simpl; [reflexivity | now rewrite IH].
Qed.

Lemma reshape_inv {A : Type} (values : list A) (rows cols : nat) m :
  Numpy.reshape values rows cols = Ok m ->
  List.length values = (rows * cols)%nat
  /\ m = {| Numpy.shape := (rows, cols); Numpy.items := values |}.
Proof.
  unfold Numpy.reshape.
  destruct (Nat.eqb_spec (List.length values) (rows * cols)); intros H;
    inversion H; auto.
Qed.

Lemma reshape_mismatch {A : Type} (values : list A) (rows cols : nat) :
  List.length values <> (rows * cols)%nat ->
  Numpy.reshape values rows cols = Raise ValueError.
Proof.
  unfold Numpy.reshape.
  destruct (Nat.eqb_spec (List.length values) (rows * cols)); congruence.
Qed.

Lemma reshape_match {A : Type} (values : list A) (rows cols : nat) :
  List.length values = (rows * cols)%nat ->
  Numpy.reshape values rows cols
  = Ok {| Numpy.shape := (rows, cols); Numpy.items := values |}.
Proof.
  unfold Numpy.reshape. intros ->. now rewrite Nat.eqb_refl.
Qed.

(** The cell (i, j) of a reshaped array is the item i * cols + j. *)
Lemma rows_nth {A : Type} (items : list A) (rows cols i j : nat) :
  (i < rows)%nat -> (j < cols)%nat ->
  exists r,
    nth_error (Numpy.rows {| Numpy.shape := (rows, cols); Numpy.items := items |}) i
    = Some r
    /\ nth_error r j = nth_error items (i * cols + j).
Proof.
  intros Hi Hj. unfold Numpy.rows; simpl.
  eexists; split.
  - apply map_nth_error. rewrite nth_error_seq.
    destruct (Nat.ltb_spec i rows); [reflexivity | lia].
  - unfold Numpy.row; simpl.
    rewrite nth_error_firstn, nth_error_skipn.
    destruct (Nat.ltb_spec j cols); [reflexivity | lia].
Qed.

Lemma rows_length {A : Type} (m : Numpy.ndarray A) :
  List.length (Numpy.rows m) = fst (Numpy.shape m).
Proof.
  unfold Numpy.rows. now rewrite length_map, length_seq.
Qed.

(** What [reshape_results] returns when it returns. *)
Lemma reshape_results_inv str weeks results df :
  reshape_results str weeks results = Ok df ->
  exists values,
    mapM (token str) results = Ok values
    /\ List.length results = (List.length weeks * List.length STATISTICS)%nat
    /\ df = {| Frame.index := weeks;
               Frame.columns := STATISTICS;
               Frame.values :=
                 Numpy.rows {| Numpy.shape := (List.length weeks, List.length STATISTICS);
                               Numpy.items := values |} |}.
Proof.
  unfold reshape_results. rewrite mapM_map. intros H.
  inv_bind H. inv_bind H.
  apply reshape_inv in Hx0. destruct Hx0 as (Hlen & ->).
  unfold Frame.make in H; simpl in H. rewrite !Nat.eqb_refl in H; simpl in H.
  inversion H; subst; clear H.
  exists x; repeat split; auto.
  rewrite <- Hlen. symmetry. eapply mapM_length; eauto.
Qed.

(** [reshape_results] returns as soon as every result gives a token and the
    results are as many as the cells of the table. *)
Lemma reshape_results_ok str weeks results values :
  mapM (token str) results = Ok values ->
  List.length results = (List.length weeks * List.length STATISTICS)%nat ->
  reshape_results str weeks results
  = Ok {| Frame.index := weeks;
          Frame.columns := STATISTICS;
          Frame.values :=
            Numpy.rows {| Numpy.shape := (List.length weeks, List.length STATISTICS);
                          Numpy.items := values |} |}.
Proof.
  intros Hv Hlen. unfold reshape_results. rewrite mapM_map.
  fold (token str). rewrite Hv; cbn [bind].
  rewrite reshape_match.
  - cbn [bind]. unfold Frame.make; simpl. now rewrite !Nat.eqb_refl.
  - rewrite <- Hlen. eapply mapM_length; eauto.
Qed.

(** A number of results that is not the number of cells makes
    [reshape_results] raise. *)
Lemma reshape_results_mismatch str weeks results :
  List.length results <> (List.length weeks * List.length STATISTICS)%nat ->
  (exists e, reshape_results str weeks results = Raise e)
  /\ (forall values, mapM (token str) results = Ok values ->
        reshape_results str weeks results = Raise ValueError).
Proof.
  intros Hlen. unfold reshape_results. rewrite mapM_map. fold (token str).
  destruct (mapM (token str) results) as [values | e] eqn:Hv; cbn [bind].
  - assert (Hm : Numpy.reshape values (List.length weeks) (List.length STATISTICS)
                 = Raise ValueError).
    { apply reshape_mismatch. rewrite (mapM_length _ _ Hv). exact Hlen. }
    rewrite Hm; cbn [bind]. split; [eauto | reflexivity].
  - split; [eauto | discriminate].
Qed.

(** C5. Strict shape contract: when the number of collected results is not
    the number of windows times the number of statistics, the table assembly
    raises and builds no table; the exception is numpy's refusal to reshape,
    a [ValueError], whenever every result gave its token.  In the temperature
    script either list of results is assembled this way, so a wrong count in
    either makes the script raise. *)
Theorem shape_mismatch_raises str weeks results :
  List.length results <> (List.length weeks * List.length STATISTICS)%nat ->
  (exists e, reshape_results str weeks results = Raise e)
  /\ (forall values, mapM (token str) results = Ok values ->
        reshape_results str weeks results = Raise ValueError)
  /\ (exists e, Chirps.post_processing str weeks results = Raise e)
  /\ (forall other,
        (exists e, Modis.post_processing str weeks results other = Raise e)
        /\ (exists e, Modis.post_processing str weeks other results = Raise e)).
Proof.
  intros Hlen.
  destruct (reshape_results_mismatch str weeks results Hlen) as ((e & He) & Hv).
  split; [eauto | split; [exact Hv | split; [exact (ex_intro _ e He) |]]].
  intros other. unfold Modis.post_processing. split.
  - rewrite He; simpl; eauto.
  - destruct (reshape_results str weeks other); simpl; [rewrite He |]; simpl; eauto.
Qed.

Lemma shape_mismatch_raises_witness :
  (exists e, reshape_results Sample.show [1; 2; 3] Sample.results26 = Raise e)
  /\ (forall values, mapM (token Sample.show) Sample.results26 = Ok values ->
        reshape_results Sample.show [1; 2; 3] Sample.results26 = Raise ValueError)
  /\ (exists e, Chirps.post_processing Sample.show [1; 2; 3] Sample.results26 = Raise e)
  /\ (forall other,
        (exists e, Modis.post_processing Sample.show [1; 2; 3] Sample.results26 other = Raise e)
        /\ (exists e, Modis.post_processing Sample.show [1; 2; 3] other Sample.results26 = Raise e)).
Proof.
  apply (@shape_mismatch_raises Sample.show [1; 2; 3] Sample.results26).
  simpl. lia.
Defined.

(** Three windows and 26 results: numpy refuses the reshape. *)
Example reshape_26_results :
  reshape_results Sample.show [1; 2; 3] Sample.results26 = Raise ValueError.
Proof. reflexivity. Qed.

(** Three windows and 27 results: the 3 x 9 table. *)
Example reshape_27_results :
  reshape_results Sample.show [1; 2; 3] Sample.results27
  = Ok {| Frame.index := [1; 2; 3];
          Frame.columns := STATISTICS;
          Frame.values :=
            [ ["3.00"; "4.50"; "4.50"; "4.50"; "4.50"; "4.50"; "0.00"; "13.50"; "0.00"];
              ["3.00"; "0.00"; "0.00"; "0.00"; "0.00"; "0.00"; "0.00"; "0.00"; "0.00"];
              ["3.00"; "4.00"; "4.00"; "4.00"; "4.00"; "4.00"; "0.00"; "12.00"; "0.00"]
            ]%string |}.
Proof. reflexivity. Qed.

(** In the temperature script the two lists hold twice the cells of a
    table: a total that is not that number makes the assembly raise. *)
Lemma modis_total_mismatch_raises str weeks results_day results_night :
  (List.length results_day + List.length results_night)%nat
  <> (List.length weeks * List.length STATISTICS * 2)%nat ->
  exists e, Modis.post_processing str weeks results_day results_night = Raise e.
Proof.
  intros H.
  destruct (Nat.eq_dec (List.length results_day)
                       (List.length weeks * List.length STATISTICS)) as [Hd | Hd].
  - assert (Hn : List.length results_night
                 <> (List.length weeks * List.length STATISTICS)%nat) by lia.
    destruct (reshape_results_mismatch str weeks results_night Hn) as ((e & He) & _).
    unfold Modis.post_processing.
    destruct (reshape_results str weeks results_day); simpl; [rewrite He |]; simpl; eauto.
  - destruct (reshape_results_mismatch str weeks results_day Hd) as ((e & He) & _).
    unfold Modis.post_processing. rewrite He; simpl; eauto.
Qed.

(** C9. Positional string-parse reshape: the cell of the table for window i
    and statistic j is the token at position 2 of the whitespace split of
    the printed form of result number i * 9 + j, one token for each result
    whatever the number of its rows. *)
Theorem cell_is_third_token str weeks results df :
  reshape_results str weeks results = Ok df ->
  forall i j, (i < List.length weeks)%nat -> (j < List.length STATISTICS)%nat ->
    exists x t,
      nth_error results (i * List.length STATISTICS + j) = Some x
      /\ nth_error (Py.split (str x)) 2 = Some t
      /\ Frame.cell df i j = Some t.
Proof.
  intros H i j Hi Hj.
  apply reshape_results_inv in H. destruct H as (values & Hv & Hlen & ->).
  destruct (rows_nth values Hi Hj) as (r & Hr & Hrj).
  destruct (nth_error results (i * List.length STATISTICS + j)) as [x |] eqn:Hx.
  2: { apply nth_error_None in Hx. nia. }
  destruct (mapM_nth _ _ Hv _ Hx) as (t & Ht & Htok).
  exists x, t. split; [reflexivity | split].
  - unfold token, Py.getitem in Htok.
    destruct (nth_error (Py.split (str x)) 2); inversion Htok; reflexivity.
  - unfold Frame.cell; cbn [Frame.values]. rewrite Hr, Hrj. exact Ht.
Qed.

Lemma cell_is_third_token_witness :
  exists x t,
    nth_error Sample.results27 (1 * List.length STATISTICS + 7) = Some x
    /\ nth_error (Py.split (Sample.show x)) 2 = Some t
    /\ Frame.cell Sample.precipitation_table 1 7 = Some t.
Proof.
  apply (@cell_is_third_token Sample.show [1; 2; 3] Sample.results27
           Sample.precipitation_table).
  - reflexivity.
  - simpl; lia.
  - simpl; lia.
Defined.

(** A result with two polygons still gives one token, the value of the
    first polygon; the value of the second is not read. *)
Example two_polygons_one_token :
  Sample.show (Sample.frame "sum" [(27 # 2)%Q; (9 # 2)%Q])
  = ("  sum" ++ Sample.newline ++ "0  13.50" ++ Sample.newline ++ "1  4.50")%string
  /\ Py.split (Sample.show (Sample.frame "sum" [(27 # 2)%Q; (9 # 2)%Q]))
     = ["sum"; "0"; "13.50"; "1"; "4.50"]%string
  /\ token Sample.show (Sample.frame "sum" [(27 # 2)%Q; (9 # 2)%Q]) = Ok "13.50"%string.
Proof. repeat split. Qed.

(** ** Loops that append *)

Lemma for_each_ok {A S : Type} (l : list A) (body : A -> S -> res S) :
  (forall x s, In x l -> exists s', body x s = Ok s') ->
  forall s, exists s', for_each l body s = Ok s'.
Proof.
  induction l as [| a l IH]; simpl; intros H s.
  - eauto.
  - destruct (H a s) as (s1 & Hs1); auto.
    rewrite Hs1; simpl. apply IH. intros; apply H; auto.
Qed.

Section Accumulate.

(** The state of the loop is a value of a monoid, and each pass of the
    loop appends to it what [g] gives for the item. *)
Variables (A S : Type) (op : S -> S -> S) (unit : S).
Hypothesis op_assoc : forall a b c, op a (op b c) = op (op a b) c.
Hypothesis op_unit_r : forall a, op a unit = a.

Variables (g : A -> res S) (body : A -> S -> res S).
Hypothesis body_appends : forall x s, body x s = (y <- g x ;; Ok (op s y)).

Lemma for_each_accumulates (l : list A) (s : S) :
  for_each l body s = (ys <- mapM g l ;; Ok (op s (fold_right op unit ys))).
Proof.
  revert s; induction l as [| a l IH]; intros s; simpl.
  - now rewrite op_unit_r.
  - rewrite body_appends.
    destruct (g a) as [y | e]; simpl; [| reflexivity].
    rewrite IH. destruct (mapM g l) as [ys | e]; simpl; [| reflexivity].
    now rewrite op_assoc.
Qed.

End Accumulate.

Lemma app2_assoc {F : Type} (a b c : list F * list F) :
  app2 a (app2 b c) = app2 (app2 a b) c.
Proof.
  unfold app2; simpl. now rewrite !app_assoc.
Qed.

Lemma app2_nil_r {F : Type} (a : list F * list F) : app2 a ([], []) = a.
Proof.
  destruct a; unfold app2; simpl. now rewrite !app_nil_r.
Qed.

(** Blocks of [n] items, one after the other. *)
Lemma concat_length_blocks {F : Type} (n : nat) (blocks : list (list F)) :
  Forall (fun b => List.length b = n) blocks ->
  List.length (List.concat blocks) = (List.length blocks * n)%nat.
Proof.
  induction 1 as [| b bs Hb _ IH]; simpl; [reflexivity |].
  rewrite length_app, IH, Hb. reflexivity.
Qed.

Lemma concat_block {F : Type} (n : nat) (blocks : list (list F)) (i : nat) (b : list F) :
  Forall (fun b => List.length b = n) blocks ->
  nth_error blocks i = Some b ->
  firstn n (skipn (i * n) (List.concat blocks)) = b.
Proof.
  intros H; revert i; induction H as [| b0 bs Hb _ IH]; intros i Hi.
  - destruct i; discriminate.
  - destruct i as [| i]; simpl in *.
    + inversion Hi; subst b0.
      rewrite <- Hb at 1. rewrite firstn_app, Nat.sub_diag, firstn_all.
      simpl. apply app_nil_r.
    + assert (E : (n + i * n = List.length b0 + i * n)%nat) by lia.
      rewrite E, skipn_app, skipn_all2 by lia.
      replace (List.length b0 + i * n - List.length b0)%nat with (i * n)%nat by lia.
      simpl. now apply IH.
Qed.

Lemma mapM_firstn {A B : Type} (f : A -> res B) (n : nat) (l : list A) l' :
  mapM f l = Ok l' -> mapM f (firstn n l) = Ok (firstn n l').
Proof.
  revert l l'; induction n as [| n IH]; intros l l' H; [reflexivity |].
  destruct l as [| a l]; simpl in *.
  - now inversion H.
  - inv_bind H. inv_bind H. inversion H; subst; simpl.
    rewrite Hx, (IH _ _ Hx0). reflexivity.
Qed.

Lemma mapM_skipn {A B : Type} (f : A -> res B) (n : nat) (l : list A) l' :
  mapM f l = Ok l' -> mapM f (skipn n l) = Ok (skipn n l').
Proof.
  revert l l'; induction n as [| n IH]; intros l l' H; [exact H |].
  destruct l as [| a l]; simpl in *.
  - now inversion H.
  - inv_bind H. inv_bind H. inversion H; subst; simpl. now apply IH.
Qed.

(** ** Dates written by [strftime] are dates [filterDate] reads *)

Lemma digit_value_digit (n : Z) :
  EE.digit_value (Pandas.digit n) = Some (n mod 10).
Proof.
  unfold EE.digit_value, Pandas.digit.
  pose proof (Z.mod_pos_bound n 10 eq_refl) as Hn.
  rewrite nat_ascii_embedding by lia.
  destruct (Nat.leb_spec 48 (48 + Z.to_nat (n mod 10))); [| lia].
  destruct (Nat.leb_spec (48 + Z.to_nat (n mod 10)) 57); [| lia].
  simpl. f_equal. lia.
Qed.

Lemma parse_strftime (d : Pandas.Timestamp) :
  exists z, EE.parse_date (Pandas.strftime d) = Ok z.
Proof.
  unfold Pandas.strftime.
  destruct (Pandas.civil_from_days d) as [[y m] dd].
  unfold EE.parse_date.
  cbn [Pandas.zfill String.append list_ascii_of_string].
  cbn [EE.number]. rewrite !digit_value_digit.
  eauto.
Qed.

(** ** The zonal statistics of a study area that carries [gid] *)

Lemma reducers_defined (stat : string) :
  In stat STATISTICS -> exists r, EE.get stat reducers = Some r.
Proof.
  unfold STATISTICS; simpl.
  intros H; repeat (destruct H as [<- | H]; [simpl; eauto |]); contradiction.
Qed.

Lemma existsb_eqb_In (x : string) (l : list string) :
  existsb (String.eqb x) l = true <-> In x l.
Proof.
  rewrite existsb_exists. split.
  - intros (y & Hy & E). apply String.eqb_eq in E. now subst.
  - intros H. exists x. split; [exact H | apply String.eqb_refl].
Qed.

Lemma uniq_In (x : string) (l seen : list string) :
  In x (Geo.uniq l seen) <-> In x l /\ ~ In x seen.
Proof.
  revert seen; induction l as [| a l IH]; intros seen; simpl.
  - tauto.
  - destruct (existsb (String.eqb a) seen) eqn:E.
    + apply existsb_eqb_In in E. rewrite IH.
      split; [tauto |]. intros ([-> | H] & Hs); tauto.
    + assert (Ha : ~ In a seen).
      { intros Ha. apply existsb_eqb_In in Ha. congruence. }
      simpl. rewrite IH. simpl.
      destruct (string_dec a x) as [-> | Hne]; [tauto |].
      split; [tauto |]. intros ([E' | H] & Hs); [congruence |].
      right. split; [exact H |]. intros [E' | Hx]; [congruence | tauto].
Qed.

Lemma from_features_column (stats : EE.FeatureCollection) (label : string) :
  Geo.has_column (Geo.from_features stats) label = true
  <-> exists f, In f stats /\ In label (Geo.row_keys f).
Proof.
  unfold Geo.has_column, Geo.from_features; simpl.
  rewrite existsb_eqb_In, uniq_In, in_flat_map. simpl. tauto.
Qed.

Lemma set_keeps {V : Type} (key k : string) (v : V) (d : list (string * V)) :
  In k (map fst d) -> In k (map fst (EE.set key v d)).
Proof.
  induction d as [| [k0 w] d IH]; simpl; [tauto |].
  destruct (String.eqb k0 key); simpl; tauto.
Qed.

Lemma set_result_keeps (name k : string) (v : option Q) (f : EE.Feature) :
  has_property k f -> has_property k (EE.set_result name v f).
Proof.
  unfold has_property, EE.set_result. destruct v; simpl; [apply set_keeps | tauto].
Qed.

Lemma fold_set_result_keeps (k : string) (h : string * EE.raster -> option Q)
    (bs : list (string * EE.raster)) (f : EE.Feature) :
  has_property k f ->
  has_property k (fold_left (fun f' b => EE.set_result (fst b) (h b) f') bs f).
Proof.
  revert f; induction bs as [| b bs IH]; simpl; intros f H; [exact H |].
  apply IH. now apply set_result_keeps.
Qed.

(** A reduction keeps the features, in order, and their properties. *)
Lemma reduceRegions_keeps img collection reducer scale k f :
  In f collection -> has_property k f ->
  exists f', In f' (EE.reduceRegions img collection reducer scale)
             /\ has_property k f'.
Proof.
  intros Hin Hk. unfold EE.reduceRegions.
  eexists; split; [apply in_map; exact Hin |].
  destruct (EE.bands img) as [| [n r] [| b bs]].
  - exact Hk.
  - now apply set_result_keeps.
  - apply (fold_set_result_keeps k
             (fun b => EE.run reducer (EE.samples_over (snd b) (EE.geometry f)))).
    exact Hk.
Qed.

Lemma stat_frame_ok (AOI : EE.FeatureCollection) (image : EE.Image) (stat : string) :
  (exists f, In f AOI /\ has_property "gid" f) ->
  In stat STATISTICS ->
  exists zs, stat_frame AOI image stat = Ok zs.
Proof.
  intros (f & Hin & Hgid) Hstat. unfold stat_frame, zonal_stats.
  destruct (reducers_defined Hstat) as (r & ->); simpl.
  destruct (@reduceRegions_keeps image AOI r SCALE _ _ Hin Hgid) as (f' & Hin' & Hgid').
  unfold Geo.drop.
  assert (Hcols : forallb (Geo.has_column
                             (Geo.from_features (EE.reduceRegions image AOI r SCALE)))
                          ["geometry"; "gid"]%string = true).
  { cbn [forallb]. rewrite !andb_true_iff. repeat split.
    - apply from_features_column. exists f'. split; [exact Hin' | now left].
    - apply from_features_column. exists f'. split; [exact Hin' | now right]. }
  rewrite Hcols. eauto.
Qed.

(** ** The processing loops, pass by pass *)

Lemma mapM_bind_map {A B C : Type} (h : A -> res B) (k : B -> C) (l : list A) :
  mapM (fun x => y <- h x ;; Ok (k y)) l = (ys <- mapM h l ;; Ok (map k ys)).
Proof.
  induction l as [| a l IH]; simpl; [reflexivity |].
  destruct (h a); simpl; [| reflexivity].
  rewrite IH. destruct (mapM h l); reflexivity.
Qed.

Lemma concat_singletons {F : Type} (l : list F) :
  fold_right (@app F) [] (map (fun y => [y]) l) = l.
Proof.
  induction l as [| a l IH]; simpl; [reflexivity | now rewrite IH].
Qed.

Lemma fold_app_concat {F : Type} (blocks : list (list F)) :
  fold_right (@app F) [] blocks = List.concat blocks.
Proof.
  induction blocks as [| b bs IH]; simpl; [reflexivity | now rewrite IH].
Qed.

Lemma fold_app2_singletons {F : Type} (ps : list (F * F)) :
  fold_right app2 ([], []) (map (fun p => ([fst p], [snd p])) ps)
  = (map fst ps, map snd ps).
Proof.
  induction ps as [| p ps IH]; simpl; [reflexivity |].
  rewrite IH. reflexivity.
Qed.

Lemma fold_app2_concat {F : Type} (blocks : list (list (F * F))) :
  fold_right app2 ([], []) (map (fun ps => (map fst ps, map snd ps)) blocks)
  = (map fst (List.concat blocks), map snd (List.concat blocks)).
Proof.
  induction blocks as [| b bs IH]; simpl; [reflexivity |].
  rewrite IH. unfold app2; simpl. now rewrite !map_app.
Qed.

(** The loop over the statistics appends the nine tables of the image. *)
Lemma chirps_statistics_loop AOI image results :
  Chirps.statistics_loop AOI image results
  = (fs <- mapM (stat_frame AOI image) STATISTICS ;; Ok (results ++ fs)).
Proof.
  unfold Chirps.statistics_loop.
  rewrite (@for_each_accumulates _ _ (@app _) [] (@app_assoc _) (@app_nil_r _)
             (fun stat => f <- stat_frame AOI image stat ;; Ok [f])).
  - rewrite mapM_bind_map.
    destruct (mapM (stat_frame AOI image) STATISTICS); cbn [bind]; [| reflexivity].
    now rewrite concat_singletons.
  - intros stat s. unfold stat_frame.
    destruct (zonal_stats image AOI stat SCALE); cbn [bind]; [| reflexivity].
    destruct (Geo.drop _ _); reflexivity.
Qed.

(** The precipitation loop gives the tables of the weeks, week after week. *)
Lemma chirps_processing_loop AOI chirps loaded :
  Chirps.processing_loop AOI chirps loaded
  = (blocks <- mapM (chirps_week_frames AOI chirps loaded)
                    (Py.range (List.length (weeks loaded))) ;;
     Ok (List.concat blocks)).
Proof.
  unfold Chirps.processing_loop.
  rewrite (@for_each_accumulates _ _ (@app _) [] (@app_assoc _) (@app_nil_r _)
             (chirps_week_frames AOI chirps loaded)).
  - destruct (mapM _ _); cbn [bind]; [| reflexivity].
    now rewrite fold_app_concat.
  - intros i s. unfold chirps_week_frames.
    destruct (Py.getitem (start_dates loaded) i); cbn [bind]; [| reflexivity].
    destruct (Py.getitem (end_dates loaded) i); cbn [bind]; [| reflexivity].
    destruct (Chirps.weekly_image AOI chirps a a0); cbn [bind]; [| reflexivity].
    apply chirps_statistics_loop.
Qed.

Lemma modis_statistics_loop AOI day_img night_img results :
  Modis.statistics_loop AOI day_img night_img results
  = (ps <- mapM (stat_frames2 AOI day_img night_img) STATISTICS ;;
     Ok (fst results ++ map fst ps, snd results ++ map snd ps)).
Proof.
  unfold Modis.statistics_loop.
  rewrite (@for_each_accumulates _ _ (@app2 _) ([], []) (@app2_assoc _) (@app2_nil_r _)
             (fun stat => p <- stat_frames2 AOI day_img night_img stat ;;
                          Ok ([fst p], [snd p]))).
  - rewrite mapM_bind_map.
    destruct (mapM (stat_frames2 AOI day_img night_img) STATISTICS); cbn [bind];
      [| reflexivity].
    now rewrite fold_app2_singletons.
  - intros stat s. unfold stat_frames2.
    destruct (zonal_stats day_img AOI stat SCALE); cbn [bind]; [| reflexivity].
    destruct (zonal_stats night_img AOI stat SCALE); cbn [bind]; [| reflexivity].
    destruct (Geo.drop _ a); cbn [bind]; [| reflexivity].
    destruct (Geo.drop _ a0); reflexivity.
Qed.

(** The temperature loop gives the pairs of tables of the weeks, week after
    week: the day tables in the first list, the night tables in the second. *)
Lemma modis_processing_loop AOI modis_day modis_night loaded :
  Modis.processing_loop AOI modis_day modis_night loaded
  = (blocks <- mapM (modis_week_frames AOI modis_day modis_night loaded)
                    (Py.range (List.length (weeks loaded))) ;;
     Ok (map fst (List.concat blocks), map snd (List.concat blocks))).
Proof.
  unfold Modis.processing_loop.
  rewrite (@for_each_accumulates _ _ (@app2 _) ([], []) (@app2_assoc _) (@app2_nil_r _)
             (fun i => ps <- modis_week_frames AOI modis_day modis_night loaded i ;;
                       Ok (map fst ps, map snd ps))).
  - rewrite mapM_bind_map.
    destruct (mapM _ _); cbn [bind]; [| reflexivity].
    now rewrite fold_app2_concat.
  - intros i s. unfold modis_week_frames.
    destruct (Py.getitem (start_dates loaded) i); cbn [bind]; [| reflexivity].
    destruct (Py.getitem (end_dates loaded) i); cbn [bind]; [| reflexivity].
    destruct (Modis.day_col AOI modis_day a a0); cbn [bind]; [| reflexivity].
    destruct (Modis.night_col AOI modis_night a a0); cbn [bind]; [| reflexivity].
    rewrite modis_statistics_loop.
    destruct (mapM _ STATISTICS); reflexivity.
Qed.

(** ** Bands, masks and the conversion *)

Lemma get_map_snd {V W : Type} (F : V -> W) (name : string) (bs : list (string * V)) :
  EE.get name (map (fun b => (fst b, F (snd b))) bs) = option_map F (EE.get name bs).
Proof.
  induction bs as [| [k v] bs IH]; simpl; [reflexivity |].
  destruct (String.eqb k name); [reflexivity | exact IH].
Qed.

Lemma get_In {V : Type} (name : string) (bs : list (string * V)) :
  In name (map fst bs) -> exists v, EE.get name bs = Some v.
Proof.
  induction bs as [| [k v] bs IH]; simpl; [tauto |].
  intros [-> | H].
  - rewrite String.eqb_refl. eauto.
  - destruct (String.eqb k name); eauto.
Qed.

Lemma select_one (name : string) (img : EE.Image) :
  EE.select [name] img
  = match EE.get name (EE.bands img) with
    | Some r => Ok {| EE.bands := [(name, r)];
                      EE.time_start := EE.time_start img;
                      EE.footprint := EE.footprint img |}
    | None => Raise EEException
    end.
Proof.
  unfold EE.select; simpl. destruct (EE.get name (EE.bands img)); reflexivity.
Qed.

Lemma match_bands_single (a : list (string * EE.raster)) (n : string) (m : EE.raster) :
  EE.match_bands a [(n, m)] = Ok (map (fun x => (fst x, (snd x, m))) a).
Proof.
  destruct a as [| [k r] [| y a]]; reflexivity.
Qed.

Lemma quality_mask_single (n : string) (r : EE.raster) ts fp :
  exists m,
    Modis.quality_mask {| EE.bands := [(n, r)]; EE.time_start := ts; EE.footprint := fp |}
    = Ok {| EE.bands := [(n, m)]; EE.time_start := None; EE.footprint := fp |}
    /\ forall p, m p = option_map mask_value (r p).
Proof.
  eexists; split; [reflexivity |].
  intros p; unfold EE.and_raster; simpl. destruct (r p); reflexivity.
Qed.

Lemma updateMask_single (img : EE.Image) (n : string) (m : EE.raster) ts fp :
  EE.updateMask img {| EE.bands := [(n, m)]; EE.time_start := ts; EE.footprint := fp |}
  = Ok {| EE.bands := map (fun b => (fst b, EE.mask_raster (snd b) m)) (EE.bands img);
          EE.time_start := EE.time_start img;
          EE.footprint := EE.footprint img |}.
Proof.
  unfold EE.updateMask; simpl. rewrite match_bands_single; simpl.
  now rewrite map_map.
Qed.

Lemma mask_spec (sv : SubVariable) (img : EE.Image) (q : EE.raster) :
  EE.get (qc_band sv) (EE.bands img) = Some q ->
  exists m,
    mask sv img
    = Ok {| EE.bands := map (fun b => (fst b, EE.mask_raster (snd b) m)) (EE.bands img);
            EE.time_start := EE.time_start img;
            EE.footprint := EE.footprint img |}
    /\ forall p, m p = option_map mask_value (q p).
Proof.
  intros Hq.
  destruct (quality_mask_single (qc_band sv) q (EE.time_start img) (EE.footprint img))
    as (m & Hm & Hp).
  exists m. split; [| exact Hp].
  destruct sv; unfold mask, Modis.mask_day, Modis.mask_night;
    rewrite select_one; simpl in Hq, Hm; rewrite Hq; cbn [bind];
    rewrite Hm; cbn [bind]; apply updateMask_single.
Qed.

Lemma mask_fails (sv : SubVariable) (img : EE.Image) :
  EE.get (qc_band sv) (EE.bands img) = None ->
  mask sv img = Raise EEException.
Proof.
  intros Hq.
  destruct sv; unfold mask, Modis.mask_day, Modis.mask_night;
    rewrite select_one; simpl in Hq; rewrite Hq; reflexivity.
Qed.

Lemma kelvin_to_celsius_spec (sv : SubVariable) (img : EE.Image) (r : EE.raster) :
  EE.get (lst_band sv) (EE.bands img) = Some r ->
  exists out,
    kelvin_to_celsius sv img = Ok out
    /\ EE.bands out
       = [(lst_band sv,
           fun p => option_map (fun v => v - 273.15)%Q
                      (option_map (fun v => v * 0.02)%Q (r p)))]
    /\ EE.time_start out = EE.time_start img
    /\ EE.footprint out = EE.footprint img.
Proof.
  intros Hr.
  destruct sv; unfold kelvin_to_celsius, Modis.kelvin_to_celsius_day,
    Modis.kelvin_to_celsius_night;
    rewrite select_one; simpl in Hr; rewrite Hr; cbn [bind];
    (eexists; split; [reflexivity |]); simpl;
    (repeat split); destruct (EE.time_start img); reflexivity.
Qed.

Lemma kelvin_to_celsius_fails (sv : SubVariable) (img : EE.Image) :
  EE.get (lst_band sv) (EE.bands img) = None ->
  kelvin_to_celsius sv img = Raise EEException.
Proof.
  intros Hr.
  destruct sv; unfold kelvin_to_celsius, Modis.kelvin_to_celsius_day,
    Modis.kelvin_to_celsius_night;
    rewrite select_one; simpl in Hr; rewrite Hr; reflexivity.
Qed.

Lemma value_at_single (name : string) (r : EE.raster) ts fp (p : EE.pixel) :
  EE.value_at name {| EE.bands := [(name, r)]; EE.time_start := ts; EE.footprint := fp |} p
  = r p.
Proof.
  unfold EE.value_at; simpl. now rewrite String.eqb_refl.
Qed.

(** C4, as the code has it. Unit conversion: the image the conversion
    returns has the temperature band only, and at every pixel its value is
    raw * 0.02 - 273.15 for the raw value of the pixel (a masked pixel stays
    masked); a raw value of 13650 converts to -0.15. *)
Theorem kelvin_to_celsius_per_pixel (sv : SubVariable) (img : EE.Image) (r : EE.raster) :
  EE.get (lst_band sv) (EE.bands img) = Some r ->
  exists out,
    kelvin_to_celsius sv img = Ok out
    /\ map fst (EE.bands out) = [lst_band sv]
    /\ (forall p, EE.value_at (lst_band sv) out p
                  = option_map (fun raw => raw * 0.02 - 273.15)%Q (r p))
    /\ (forall p, r p = Some 13650%Q ->
          exists c, EE.value_at (lst_band sv) out p = Some c
                    /\ (c == - 0.15)%Q).
Proof.
  intros Hr.
  destruct (kelvin_to_celsius_spec sv img Hr) as (out & Hout & Hb & _).
  exists out. split; [exact Hout |].
  assert (Hv : forall p, EE.value_at (lst_band sv) out p
                         = option_map (fun raw => raw * 0.02 - 273.15)%Q (r p)).
  { intros p. unfold EE.value_at. rewrite Hb; simpl.
    rewrite String.eqb_refl. destruct (r p); reflexivity. }
  split; [now rewrite Hb | split; [exact Hv |]].
  intros p Hp. rewrite Hv, Hp; simpl.
  eexists; split; [reflexivity | reflexivity].
Qed.

Lemma kelvin_to_celsius_per_pixel_witness :
  exists out,
    kelvin_to_celsius DAY (Sample.lst_image 19723 13650 0) = Ok out
    /\ map fst (EE.bands out) = [lst_band DAY]
    /\ (forall p, EE.value_at (lst_band DAY) out p
                  = option_map (fun raw => raw * 0.02 - 273.15)%Q (Some 13650%Q))
    /\ (forall p, Some 13650%Q = Some 13650%Q ->
          exists c, EE.value_at (lst_band DAY) out p = Some c
                    /\ (c == - 0.15)%Q).
Proof.
  apply (@kelvin_to_celsius_per_pixel DAY (Sample.lst_image 19723 13650 0)
           (fun _ => Some 13650%Q)).
  reflexivity.
Defined.

Module Binary64Facts.
Import PrimFloat.

(** In binary64 too the raw value 13650 converts to a value below -0.14,
    the double -0.14999999999997726. *)
Example celsius_binary64_13650 :
  Binary64.celsius 13650%float = (-0x1.3333333333p-3)%float
  /\ (Binary64.celsius 13650 <? -0x1.1eb851eb851ecp-3)%float = true.
Proof. split; reflexivity. Qed.

End Binary64Facts.

(** C4 fails at its example: the raw value 13650 converts to -0.15, half a
    degree away from 0.35. *)
Lemma celsius_of_13650_is_not_0_35 :
  exists c,
    (out <- Modis.kelvin_to_celsius_day (Sample.lst_image 19723 13650 0) ;;
     Ok (EE.value_at "LST_Day_1km" out (0, 0))) = Ok (Some c)
    /\ (c == - 0.15)%Q
    /\ (Qabs (c - 0.35) == 1 # 2)%Q.
Proof.
  eexists; split; [reflexivity | split; reflexivity].
Qed.

(** ** The quality bits *)

Lemma land_pow2_eqb (z k : Z) :
  0 <= k -> (Z.land z (2 ^ k) =? 0) = negb (Z.testbit z k).
Proof.
  intros Hk. destruct (Z.testbit z k) eqn:E; simpl.
  - apply Z.eqb_neq. intros H.
    assert (Hb : Z.testbit (Z.land z (2 ^ k)) k = false)
      by (rewrite H; apply Z.bits_0).
    rewrite Z.land_spec, E, Z.pow2_bits_true in Hb by exact Hk.
    discriminate.
  - apply Z.eqb_eq. apply Z.bits_inj'. intros n Hn.
    rewrite Z.land_spec, Z.bits_0.
    destruct (Z.eq_dec n k) as [-> | Hne].
    + now rewrite E.
    + rewrite (Z.pow2_bits_false k n) by congruence. apply andb_false_r.
Qed.

Lemma Qeq_bool_inject_0 (z : Z) : Qeq_bool (inject_Z z) 0 = (z =? 0).
Proof.
  unfold Qeq_bool; simpl. now rewrite Z.mul_1_r.
Qed.

Lemma nonzero_of_bool (b : bool) : EE.nonzero (EE.of_bool b) = b.
Proof.
  destruct b; reflexivity.
Qed.

Lemma Qtrunc_inject (z : Z) : EE.Qtrunc (inject_Z z) = z.
Proof.
  unfold EE.Qtrunc; simpl. apply Z.quot_1_r.
Qed.

(** The mask is non-zero exactly when bits 2 and 3 of the quality byte are
    clear. *)
Lemma mask_value_bits (qc : Z) :
  EE.nonzero (mask_value (inject_Z qc))
  = negb (Z.testbit qc 2 || Z.testbit qc 3).
Proof.
  unfold mask_value.
  rewrite !nonzero_of_bool, Qtrunc_inject, !Qeq_bool_inject_0.
  change 4 with (2 ^ 2). change 8 with (2 ^ 3).
  rewrite !land_pow2_eqb by lia.
  now rewrite negb_orb.
Qed.

Lemma value_at_get (name : string) (img : EE.Image) (p : EE.pixel) (v : Q) :
  EE.value_at name img p = Some v ->
  exists r, EE.get name (EE.bands img) = Some r /\ r p = Some v.
Proof.
  unfold EE.value_at. destruct (EE.get name (EE.bands img)); [eauto | discriminate].
Qed.

(** The value the script's order leaves at a pixel: the converted value when
    the mask is valid and non-zero there, and no value otherwise. *)
Lemma mask_then_convert_value (sv : SubVariable) (img : EE.Image) (r q : EE.raster) :
  EE.get (lst_band sv) (EE.bands img) = Some r ->
  EE.get (qc_band sv) (EE.bands img) = Some q ->
  exists out,
    mask_then_convert sv img = Ok out
    /\ map fst (EE.bands out) = [lst_band sv]
    /\ EE.time_start out = EE.time_start img
    /\ EE.footprint out = EE.footprint img
    /\ forall p,
         EE.value_at (lst_band sv) out p
         = match r p, q p with
           | Some v, Some w =>
               if EE.nonzero (mask_value w)
               then Some (v * 0.02 - 273.15)%Q else None
           | _, _ => None
           end.
Proof.
  intros Hr Hq. unfold mask_then_convert.
  destruct (mask_spec sv img Hq) as (m & Hm & Hmp). rewrite Hm; cbn [bind].
  match goal with |- context [kelvin_to_celsius sv ?masked] =>
    destruct (@kelvin_to_celsius_spec sv masked (EE.mask_raster r m))
      as (out & Hout & Hb & Hts & Hfp)
  end.
  { cbn [EE.bands].
    rewrite (get_map_snd (fun r0 => EE.mask_raster r0 m)), Hr. reflexivity. }
  exists out. split; [exact Hout |]. rewrite Hb. repeat split; auto.
  intros p. unfold EE.value_at. rewrite Hb; simpl. rewrite String.eqb_refl.
  unfold EE.mask_raster. rewrite Hmp.
  destruct (r p), (q p); simpl; try reflexivity.
  destruct (EE.nonzero (mask_value q1)); reflexivity.
Qed.

(** C3. Quality masking: an observation whose pixel has a raw temperature
    and the quality byte [qc] gives the weekly median no sample at that pixel
    if and only if bit 2 or bit 3 of [qc] is set; with both bits clear it
    gives its converted value. *)
Theorem quality_mask_excludes_flagged (sv : SubVariable) (img : EE.Image)
    (p : EE.pixel) (lst : Q) (qc : Z) :
  EE.value_at (lst_band sv) img p = Some lst ->
  EE.value_at (qc_band sv) img p = Some (inject_Z qc) ->
  exists out,
    mask_then_convert sv img = Ok out
    /\ EE.samples_at (lst_band sv) p [out]
       = (if Z.testbit qc 2 || Z.testbit qc 3
          then [] else [(lst * 0.02 - 273.15)%Q])
    /\ (EE.value_at (lst_band sv) out p = None
        <-> Z.testbit qc 2 = true \/ Z.testbit qc 3 = true).
Proof.
  intros Hl Hq.
  apply value_at_get in Hl. destruct Hl as (r & Hr & Hrp).
  apply value_at_get in Hq. destruct Hq as (q & Hq & Hqp).
  destruct (mask_then_convert_value sv img Hr Hq) as (out & Hout & _ & _ & _ & Hv).
  exists out. split; [exact Hout |].
  specialize (Hv p). rewrite Hrp, Hqp, mask_value_bits in Hv.
  unfold EE.samples_at; cbn [flat_map]. rewrite Hv.
  destruct (Z.testbit qc 2), (Z.testbit qc 3); simpl; split; try reflexivity;
    split; intros H; try discriminate; auto; destruct H; discriminate.
Qed.

Lemma quality_mask_excludes_flagged_witness :
  exists out,
    mask_then_convert DAY (Sample.lst_image 19724 15100 4) = Ok out
    /\ EE.samples_at (lst_band DAY) (0, 0) [out]
       = (if Z.testbit 4 2 || Z.testbit 4 3
          then [] else [(15100 * 0.02 - 273.15)%Q])
    /\ (EE.value_at (lst_band DAY) out (0, 0) = None
        <-> Z.testbit 4 2 = true \/ Z.testbit 4 3 = true).
Proof.
  apply (@quality_mask_excludes_flagged DAY (Sample.lst_image 19724 15100 4)
           (0, 0) 15100%Q 4); reflexivity.
Defined.

(** ** The order of the mask and the conversion *)

Lemma mask_then_convert_bands (sv : SubVariable) (img : EE.Image) (r q : EE.raster) :
  EE.get (lst_band sv) (EE.bands img) = Some r ->
  EE.get (qc_band sv) (EE.bands img) = Some q ->
  exists out ras,
    mask_then_convert sv img = Ok out
    /\ EE.bands out = [(lst_band sv, ras)]
    /\ raster_equiv ras (masked_celsius r q)
    /\ EE.time_start out = EE.time_start img
    /\ EE.footprint out = EE.footprint img.
Proof.
  intros Hr Hq. unfold mask_then_convert.
  destruct (mask_spec sv img Hq) as (m & Hm & Hmp). rewrite Hm; cbn [bind].
  match goal with |- context [kelvin_to_celsius sv ?masked] =>
    destruct (@kelvin_to_celsius_spec sv masked (EE.mask_raster r m))
      as (out & Hout & Hb & Hts & Hfp)
  end.
  { cbn [EE.bands].
    rewrite (get_map_snd (fun r0 => EE.mask_raster r0 m)), Hr. reflexivity. }
  exists out. eexists. split; [exact Hout |]. split; [exact Hb |].
  repeat split; auto.
  intros p. unfold masked_celsius, EE.mask_raster. rewrite Hmp.
  destruct (r p), (q p); simpl; try reflexivity.
  destruct (EE.nonzero (mask_value q1)); reflexivity.
Qed.

Lemma convert_then_mask_bands (sv : SubVariable) (img : EE.Image) (r q : EE.raster) :
  EE.get (lst_band sv) (EE.bands img) = Some r ->
  EE.get (qc_band sv) (EE.bands img) = Some q ->
  exists out ras,
    convert_then_mask sv img = Ok out
    /\ EE.bands out = [(lst_band sv, ras)]
    /\ raster_equiv ras (masked_celsius r q)
    /\ EE.time_start out = EE.time_start img
    /\ EE.footprint out = EE.footprint img.
Proof.
  intros Hr Hq. unfold convert_then_mask.
  destruct (kelvin_to_celsius_spec sv img Hr) as (c & Hc & Hb & Hts & Hfp).
  rewrite Hc; cbn [bind]. rewrite select_one, Hq; cbn [bind].
  destruct (quality_mask_single (qc_band sv) q (EE.time_start img) (EE.footprint img))
    as (m & Hm & Hmp).
  rewrite Hm; cbn [bind]. rewrite updateMask_single, Hb.
  eexists; eexists. split; [reflexivity |]. cbn [EE.bands map fst snd].
  split; [reflexivity |]. repeat split; auto.
  intros p. unfold masked_celsius, EE.mask_raster. rewrite Hmp.
  destruct (r p), (q p); reflexivity.
Qed.

Lemma mask_then_convert_fails (sv : SubVariable) (img : EE.Image) :
  EE.get (lst_band sv) (EE.bands img) = None
  \/ EE.get (qc_band sv) (EE.bands img) = None ->
  mask_then_convert sv img = Raise EEException.
Proof.
  intros H. unfold mask_then_convert.
  destruct (EE.get (qc_band sv) (EE.bands img)) as [q |] eqn:Hq.
  - destruct H as [Hr | H]; [| discriminate].
    destruct (mask_spec sv img Hq) as (m & Hm & _). rewrite Hm; cbn [bind].
    apply kelvin_to_celsius_fails. cbn [EE.bands].
    rewrite (get_map_snd (fun r0 => EE.mask_raster r0 m)), Hr. reflexivity.
  - now rewrite (mask_fails sv img Hq).
Qed.

Lemma convert_then_mask_fails (sv : SubVariable) (img : EE.Image) :
  EE.get (lst_band sv) (EE.bands img) = None
  \/ EE.get (qc_band sv) (EE.bands img) = None ->
  convert_then_mask sv img = Raise EEException.
Proof.
  intros H. unfold convert_then_mask.
  destruct (EE.get (lst_band sv) (EE.bands img)) as [r |] eqn:Hr.
  - destruct H as [H | Hq]; [discriminate |].
    destruct (kelvin_to_celsius_spec sv img Hr) as (c & Hc & _).
    rewrite Hc; cbn [bind]. now rewrite select_one, Hq.
  - now rewrite (kelvin_to_celsius_fails sv img Hr).
Qed.

(** On one observation the two orders give the same image, or both raise. *)
Lemma orders_agree_on_observation (sv : SubVariable) (img : EE.Image) :
  res_equiv image_equiv (mask_then_convert sv img) (convert_then_mask sv img).
Proof.
  destruct (EE.get (lst_band sv) (EE.bands img)) as [r |] eqn:Hr.
  - destruct (EE.get (qc_band sv) (EE.bands img)) as [q |] eqn:Hq.
    + destruct (mask_then_convert_bands sv img Hr Hq)
        as (o1 & r1 & H1 & Hb1 & He1 & Hts1 & Hfp1).
      destruct (convert_then_mask_bands sv img Hr Hq)
        as (o2 & r2 & H2 & Hb2 & He2 & Hts2 & Hfp2).
      rewrite H1, H2. simpl. unfold image_equiv, bands_equiv.
      rewrite Hb1, Hb2, Hts1, Hts2, Hfp1, Hfp2. repeat split.
      constructor; [| constructor]. split; [reflexivity |].
      intros p. simpl. now rewrite He1, He2.
    + rewrite mask_then_convert_fails, convert_then_mask_fails by auto.
      reflexivity.
  - rewrite mask_then_convert_fails, convert_then_mask_fails by auto.
    reflexivity.
Qed.

Lemma mask_raises (sv : SubVariable) (img : EE.Image) (e : exn) :
  mask sv img = Raise e -> e = EEException.
Proof.
  destruct (EE.get (qc_band sv) (EE.bands img)) as [q |] eqn:Hq.
  - destruct (mask_spec sv img Hq) as (m & Hm & _). rewrite Hm. discriminate.
  - rewrite (mask_fails sv img Hq). congruence.
Qed.

Lemma kelvin_to_celsius_raises (sv : SubVariable) (img : EE.Image) (e : exn) :
  kelvin_to_celsius sv img = Raise e -> e = EEException.
Proof.
  destruct (EE.get (lst_band sv) (EE.bands img)) as [r |] eqn:Hr.
  - destruct (kelvin_to_celsius_spec sv img Hr) as (c & Hc & _). rewrite Hc.
    discriminate.
  - rewrite (kelvin_to_celsius_fails sv img Hr). congruence.
Qed.

Lemma mapM_raises {A B : Type} (f : A -> res B) (E : exn) (l : list A) (e : exn) :
  (forall x e, f x = Raise e -> e = E) ->
  mapM f l = Raise e -> e = E.
Proof.
  intros Hf. induction l as [| a l IH]; simpl; [discriminate |].
  destruct (f a) eqn:Ha; simpl.
  - destruct (mapM f l); simpl; [discriminate |].
    intros H; inversion H; subst. now apply IH.
  - intros H; inversion H; subst. eapply Hf; eauto.
Qed.

(** Two maps one after the other are one map of the two steps, when the
    steps raise one and the same exception. *)
Lemma mapM_fusion {A B C : Type} (f : A -> res B) (g : B -> res C) (E : exn)
    (l : list A) :
  (forall x e, f x = Raise e -> e = E) ->
  (forall y e, g y = Raise e -> e = E) ->
  (c <- mapM f l ;; mapM g c) = mapM (fun x => y <- f x ;; g y) l.
Proof.
  intros Hf Hg. induction l as [| a l IH]; simpl; [reflexivity |].
  destruct (f a) as [y | e] eqn:Ha; simpl.
  - rewrite <- IH.
    destruct (mapM f l) as [ys | e1] eqn:Hl; simpl.
    + reflexivity.
    + apply (mapM_raises f l Hf) in Hl. subst e1.
      destruct (g y) as [z | e2] eqn:Hy; simpl; [reflexivity |].
      now rewrite (Hg _ _ Hy).
  - reflexivity.
Qed.

Lemma mapM_equiv {A B : Type} (R : B -> B -> Prop) (f g : A -> res B) (l : list A) :
  (forall x, res_equiv R (f x) (g x)) ->
  res_equiv (Forall2 R) (mapM f l) (mapM g l).
Proof.
  intros H. induction l as [| a l IH]; simpl; [constructor |].
  specialize (H a).
  destruct (f a), (g a); simpl in *; try contradiction; [| exact H].
  destruct (mapM f l), (mapM g l); simpl in *; try contradiction; auto.
Qed.

Lemma get_equiv (name : string) (a b : list (string * EE.raster)) :
  bands_equiv a b ->
  match EE.get name a, EE.get name b with
  | Some r1, Some r2 => raster_equiv r1 r2
  | None, None => True
  | _, _ => False
  end.
Proof.
  induction 1 as [| [k1 r1] [k2 r2] a b (Hk & Hr) _ IH]; simpl; [exact I |].
  simpl in Hk; subst k2.
  destruct (String.eqb k1 name); [exact Hr | exact IH].
Qed.

Lemma value_at_equiv (name : string) (a b : EE.Image) (p : EE.pixel) :
  image_equiv a b -> EE.value_at name a p = EE.value_at name b p.
Proof.
  intros (Hb & _). unfold EE.value_at.
  pose proof (get_equiv name Hb) as H.
  destruct (EE.get name (EE.bands a)), (EE.get name (EE.bands b));
    try contradiction; [apply H | reflexivity].
Qed.

Lemma samples_at_equiv (name : string) (p : EE.pixel) (c1 c2 : EE.ImageCollection) :
  Forall2 image_equiv c1 c2 ->
  EE.samples_at name p c1 = EE.samples_at name p c2.
Proof.
  unfold EE.samples_at.
  induction 1 as [| a b c1 c2 Hab _ IH]; simpl; [reflexivity |].
  now rewrite (value_at_equiv name p Hab), IH.
Qed.

Lemma reduce_equiv (r : EE.Reducer) (c1 c2 : EE.ImageCollection) :
  Forall2 image_equiv c1 c2 -> image_equiv (EE.reduce r c1) (EE.reduce r c2).
Proof.
  intros H. unfold image_equiv, EE.reduce.
  cbn [EE.bands EE.time_start EE.footprint]. split; [| split; reflexivity].
  destruct H as [| a b c1 c2 Hab Hc]; [constructor |].
  assert (Hall : Forall2 image_equiv (a :: c1) (b :: c2)) by (constructor; auto).
  destruct Hab as (Hb & _). unfold bands_equiv in *.
  set (col1 := a :: c1) in *. set (col2 := b :: c2) in *.
  induction Hb as [| x y xs ys (Hn & _) _ IH]; cbn [map]; constructor;
    [| exact IH].
  cbn [fst snd]. split; [exact Hn |]. intros p.
  rewrite Hn, (samples_at_equiv (fst y) p Hall). reflexivity.
Qed.

Lemma clip_equiv (a b : EE.Image) (fc : EE.FeatureCollection) :
  image_equiv a b -> image_equiv (EE.clip a fc) (EE.clip b fc).
Proof.
  intros (Hb & Hts & _). unfold image_equiv, EE.clip; simpl.
  repeat split; [| exact Hts].
  unfold bands_equiv in *.
  induction Hb as [| x y xs ys (Hn & Hr) _ IH]; simpl; constructor; [| exact IH].
  simpl. split; [exact Hn |]. intros p.
  destruct (EE.inside fc p); [apply Hr | reflexivity].
Qed.

Lemma Forall2_length_eq {A B : Type} (R : A -> B -> Prop) (l1 : list A) (l2 : list B) :
  Forall2 R l1 l2 -> List.length l1 = List.length l2.
Proof.
  induction 1; simpl; congruence.
Qed.

Lemma weekly_image_equiv (AOI : EE.FeatureCollection) (c1 c2 : EE.ImageCollection) :
  Forall2 image_equiv c1 c2 ->
  image_equiv (Modis.weekly_image AOI c1) (Modis.weekly_image AOI c2).
Proof.
  intros H. unfold Modis.weekly_image, EE.size.
  rewrite (Forall2_length_eq H).
  destruct (List.length c2 =? 0)%nat.
  - repeat split. constructor; [| constructor]. split; [reflexivity |].
    intros p; reflexivity.
  - apply clip_equiv. now apply reduce_equiv.
Qed.

Lemma samples_over_equiv (r1 r2 : EE.raster) (g : list EE.pixel) :
  raster_equiv r1 r2 -> EE.samples_over r1 g = EE.samples_over r2 g.
Proof.
  intros H. unfold EE.samples_over.
  induction g as [| p g IH]; simpl; [reflexivity |].
  now rewrite (H p), IH.
Qed.

Lemma reduceRegions_equiv (a b : EE.Image) (fc : EE.FeatureCollection)
    (r : EE.Reducer) (scale : Z) :
  image_equiv a b ->
  EE.reduceRegions a fc r scale = EE.reduceRegions b fc r scale.
Proof.
  intros (Hb & _). unfold EE.reduceRegions. apply map_ext. intros f.
  assert (Hfold : forall f0,
            fold_left (fun f' b0 => EE.set_result (fst b0)
                         (EE.run r (EE.samples_over (snd b0) (EE.geometry f))) f')
                      (EE.bands a) f0
            = fold_left (fun f' b0 => EE.set_result (fst b0)
                           (EE.run r (EE.samples_over (snd b0) (EE.geometry f))) f')
                        (EE.bands b) f0).
  { unfold bands_equiv in Hb.
    induction Hb as [| x y xs ys (Hn & Hr) _ IH]; intros f0; simpl; [reflexivity |].
    now rewrite Hn, (samples_over_equiv (EE.geometry f) Hr), IH. }
  unfold bands_equiv in Hb.
  destruct Hb as [| [n1 r1] [n2 r2] xs ys (Hn & Hr) Hrest].
  - reflexivity.
  - destruct Hrest as [| x2 y2 xs ys Hxy Hrest].
    + simpl in Hr. now rewrite (samples_over_equiv (EE.geometry f) Hr).
    + apply Hfold.
Qed.

Lemma zonal_stats_equiv (a b : EE.Image) (fc : EE.FeatureCollection)
    (stat : string) (scale : Z) :
  image_equiv a b -> zonal_stats a fc stat scale = zonal_stats b fc stat scale.
Proof.
  intros H. unfold zonal_stats.
  destruct (EE.get stat reducers) as [r |]; simpl; [| reflexivity].
  now rewrite (reduceRegions_equiv fc r scale H).
Qed.

Lemma bind_assoc {A B C : Type} (m : res A) (f : A -> res B) (g : B -> res C) :
  (y <- (x <- m ;; f x) ;; g y) = (x <- m ;; y <- f x ;; g y).
Proof.
  destruct m; reflexivity.
Qed.

(** C8. Mask/convert order independence: on every observation, converting
    before masking gives the image that masking before converting gives
    (or both raise), the mask being read from the quality band of the
    observation; so the weekly image and every zonal statistic of a
    collection of observations are the same in both orders. *)
Theorem mask_convert_order_independent (sv : SubVariable) :
  (forall img,
      res_equiv image_equiv (mask_then_convert sv img) (convert_then_mask sv img))
  /\ (forall (col : EE.ImageCollection) (AOI : EE.FeatureCollection) (stat : string),
        (c <- EE.map_images (mask sv) col ;;
         c <- EE.map_images (kelvin_to_celsius sv) c ;;
         zonal_stats (Modis.weekly_image AOI c) AOI stat SCALE)
        = (c <- EE.map_images (convert_then_mask sv) col ;;
           zonal_stats (Modis.weekly_image AOI c) AOI stat SCALE)).
Proof.
  split; [apply orders_agree_on_observation |].
  intros col AOI stat. unfold EE.map_images.
  transitivity
    (c' <- (c <- mapM (mask sv) col ;; mapM (kelvin_to_celsius sv) c) ;;
     zonal_stats (Modis.weekly_image AOI c') AOI stat SCALE).
  { symmetry. apply bind_assoc. }
  rewrite (@mapM_fusion _ _ _ (mask sv) (kelvin_to_celsius sv) EEException col
             (mask_raises sv) (kelvin_to_celsius_raises sv)).
  fold (mask_then_convert sv).
  pose proof (mapM_equiv image_equiv (mask_then_convert sv) (convert_then_mask sv)
                col (orders_agree_on_observation sv)) as H.
  change (fun x => mask_then_convert sv x) with (mask_then_convert sv).
  destruct (mapM (mask_then_convert sv) col) as [c1 | e1],
           (mapM (convert_then_mask sv) col) as [c2 | e2];
    simpl in H; try contradiction; cbn [bind].
  - apply zonal_stats_equiv. now apply weekly_image_equiv.
  - now subst.
Qed.

(** The two orders on the sample observations of the first week. *)
Example orders_agree_on_sample :
  (c <- EE.map_images Modis.mask_day Sample.modis ;;
   c <- EE.map_images Modis.kelvin_to_celsius_day c ;;
   d <- zonal_stats (Modis.weekly_image Sample.one_polygon c)
                    Sample.one_polygon "MEAN" SCALE ;;
   Ok (Sample.show d))
  = (c <- EE.map_images (convert_then_mask DAY) Sample.modis ;;
     d <- zonal_stats (Modis.weekly_image Sample.one_polygon c)
                      Sample.one_polygon "MEAN" SCALE ;;
     Ok (Sample.show d)).
Proof. reflexivity. Qed.

(** ** The result count of the loops *)

Lemma mapM_Forall {A B : Type} (P : A -> Prop) (Q : B -> Prop) (f : A -> res B)
    (l : list A) (l' : list B) :
  Forall P l ->
  (forall x y, P x -> f x = Ok y -> Q y) ->
  mapM f l = Ok l' -> Forall Q l'.
Proof.
  intros HP Hf; revert l'; induction HP as [| a l Ha _ IH]; simpl; intros l' H.
  - inversion H; constructor.
  - inv_bind H. inv_bind H. inversion H; subst. constructor; eauto.
Qed.

Lemma mapM_ok_Forall {A B : Type} (P : A -> Prop) (f : A -> res B) (l : list A) :
  Forall P l ->
  (forall x, P x -> exists y, f x = Ok y) ->
  exists l', mapM f l = Ok l'.
Proof.
  intros HP Hf. apply mapM_ok. intros x Hx.
  apply Hf. rewrite Forall_forall in HP. now apply HP.
Qed.

Lemma mapM_all {A B : Type} (Q : B -> Prop) (f : A -> res B)
    (l : list A) (l' : list B) :
  (forall x y, f x = Ok y -> Q y) ->
  mapM f l = Ok l' -> Forall Q l'.
Proof.
  intros Hf. apply (@mapM_Forall _ _ (fun _ => True)); [| eauto].
  apply Forall_forall. trivial.
Qed.

(** The nine tables of an image. *)
Lemma stat_frames_ok (AOI : EE.FeatureCollection) (image : EE.Image) :
  (exists f, In f AOI /\ has_property "gid" f) ->
  exists fs, mapM (stat_frame AOI image) STATISTICS = Ok fs.
Proof.
  intros Hgid. apply mapM_ok. intros stat Hstat. now apply stat_frame_ok.
Qed.

Lemma stat_frames2_ok (AOI : EE.FeatureCollection) (day_img night_img : EE.Image) :
  (exists f, In f AOI /\ has_property "gid" f) ->
  exists ps, mapM (stat_frames2 AOI day_img night_img) STATISTICS = Ok ps.
Proof.
  intros Hgid. apply mapM_ok. intros stat Hstat.
  destruct (@stat_frame_ok AOI day_img stat Hgid Hstat) as (d & Hd).
  destruct (@stat_frame_ok AOI night_img stat Hgid Hstat) as (n & Hn).
  unfold stat_frame in Hd, Hn. unfold stat_frames2.
  destruct (zonal_stats day_img AOI stat SCALE); [| discriminate].
  destruct (zonal_stats night_img AOI stat SCALE); [| discriminate].
  cbn [bind] in *. rewrite Hd, Hn. cbn [bind]. eauto.
Qed.

(** The dates of the windows are dates written by [strftime]. *)
Lemma loaded_dates (weeks_df : list WeekRecord) (loaded : Loaded) :
  data_loading weeks_df = Ok loaded ->
  List.length (weeks loaded) = List.length weeks_df
  /\ forall i, (i < List.length weeks_df)%nat ->
       exists ds de,
         Py.getitem (start_dates loaded) i = Ok (Pandas.strftime ds)
         /\ Py.getitem (end_dates loaded) i = Ok (Pandas.strftime de).
Proof.
  intros Hl.
  destruct (data_loading_windows _ Hl) as (x & _ & _ & Hw & _ & Hs & He).
  split; [rewrite Hw; apply length_map |].
  intros i Hi. unfold Py.getitem. rewrite Hs, He.
  destruct (nth_error weeks_df i) as [w |] eqn:Hwi.
  2: { apply nth_error_None in Hwi. lia. }
  exists (fecha_ini w).
  rewrite (map_nth_error (fun w => Pandas.strftime (fecha_ini w)) _ _ Hwi).
  assert (Hlen : List.length (tl (map fecha_ini weeks_df))
                 = (List.length weeks_df - 1)%nat).
  { destruct weeks_df; simpl; [reflexivity | rewrite length_map; lia]. }
  destruct (Nat.lt_ge_cases i (List.length weeks_df - 1)) as [Hlt | Hge].
  - destruct (nth_error (tl (map fecha_ini weeks_df)) i) as [d |] eqn:Hd.
    2: { apply nth_error_None in Hd. lia. }
    exists d. split; [reflexivity |].
    rewrite nth_error_app1 by (rewrite length_map; lia).
    now rewrite (map_nth_error _ _ _ Hd).
  - exists (x + 7). split; [reflexivity |].
    rewrite nth_error_app2 by (rewrite length_map; lia).
    rewrite length_map, Hlen.
    replace (i - (List.length weeks_df - 1))%nat with 0%nat by lia.
    reflexivity.
Qed.

Lemma filterDate_ok (ds de : Pandas.Timestamp) (col : EE.ImageCollection) :
  exists c, EE.filterDate (Pandas.strftime ds) (Pandas.strftime de) col = Ok c
            /\ incl c col.
Proof.
  unfold EE.filterDate.
  destruct (parse_strftime ds) as (s & ->). destruct (parse_strftime de) as (e & ->).
  cbn [bind]. eexists; split; [reflexivity |].
  intros x Hx. apply filter_In in Hx. tauto.
Qed.

Lemma chirps_week_frames_ok weeks_df loaded AOI chirps i :
  data_loading weeks_df = Ok loaded ->
  (exists f, In f AOI /\ has_property "gid" f) ->
  (i < List.length weeks_df)%nat ->
  exists fs, chirps_week_frames AOI chirps loaded i = Ok fs.
Proof.
  intros Hl Hgid Hi.
  destruct (@loaded_dates weeks_df loaded Hl) as (_ & Hd).
  destruct (Hd i Hi) as (ds & de & Hs & He).
  unfold chirps_week_frames. rewrite Hs, He; cbn [bind].
  unfold Chirps.weekly_image.
  destruct (filterDate_ok ds de (EE.filterBounds AOI chirps)) as (c & Hc & _).
  rewrite Hc; cbn [bind].
  destruct (EE.size c =? 0)%nat; cbn [bind]; now apply stat_frames_ok.
Qed.

(** Whenever the precipitation loop returns, it returns nine results for
    each week. *)
Lemma chirps_loop_count AOI chirps loaded results :
  Chirps.processing_loop AOI chirps loaded = Ok results ->
  List.length results
  = (List.length (weeks loaded) * List.length STATISTICS)%nat.
Proof.
  rewrite chirps_processing_loop. intros H. inv_bind H.
  inversion H; subst; clear H.
  rewrite (@concat_length_blocks _ (List.length STATISTICS)).
  - rewrite (mapM_length _ _ Hx). unfold Py.range. now rewrite length_seq.
  - refine (@mapM_all _ _ _ _ _ _ _ Hx).
    intros i fs Hfs. unfold chirps_week_frames in Hfs.
    inv_bind Hfs. inv_bind Hfs. inv_bind Hfs.
    apply (mapM_length _ _ Hfs).
Qed.

Lemma select_names (names : list string) (img out : EE.Image) :
  EE.select names img = Ok out -> map fst (EE.bands out) = names.
Proof.
  unfold EE.select. intros H. inv_bind H. inversion H; subst; clear H. simpl.
  revert x Hx. induction names as [| n names IH]; simpl; intros x Hx.
  - now inversion Hx.
  - inv_bind Hx. inv_bind Hx. inversion Hx; subst; clear Hx. simpl.
    destruct (EE.get n (EE.bands img)); inversion Hx0; subst. simpl.
    f_equal. now apply IH.
Qed.

Lemma select_all_names (names : list string) (catalog col : EE.ImageCollection) :
  EE.select_all names catalog = Ok col ->
  Forall (fun img => map fst (EE.bands img) = names) col.
Proof.
  unfold EE.select_all. apply mapM_all. intros x y. apply select_names.
Qed.

(** The collection of a week, with the two maps as one. *)
Lemma day_col_fused AOI modis_day start end_ :
  Modis.day_col AOI modis_day start end_
  = (c <- EE.filterDate start end_ (EE.filterBounds AOI modis_day) ;;
     mapM (mask_then_convert DAY) c).
Proof.
  unfold Modis.day_col, EE.map_images.
  destruct (EE.filterDate _ _ _) as [c |]; cbn [bind]; [| reflexivity].
  apply (@mapM_fusion _ _ _ (mask DAY) (kelvin_to_celsius DAY) EEException c
           (mask_raises DAY) (kelvin_to_celsius_raises DAY)).
Qed.

Lemma night_col_fused AOI modis_night start end_ :
  Modis.night_col AOI modis_night start end_
  = (c <- EE.filterDate start end_ (EE.filterBounds AOI modis_night) ;;
     mapM (mask_then_convert NIGHT) c).
Proof.
  unfold Modis.night_col, EE.map_images.
  destruct (EE.filterDate _ _ _) as [c |]; cbn [bind]; [| reflexivity].
  apply (@mapM_fusion _ _ _ (mask NIGHT) (kelvin_to_celsius NIGHT) EEException c
           (mask_raises NIGHT) (kelvin_to_celsius_raises NIGHT)).
Qed.

Lemma observation_ok (sv : SubVariable) (img : EE.Image) :
  In (lst_band sv) (map fst (EE.bands img)) ->
  In (qc_band sv) (map fst (EE.bands img)) ->
  exists out, mask_then_convert sv img = Ok out.
Proof.
  intros Hl Hq.
  destruct (get_In _ _ Hl) as (r & Hr). destruct (get_In _ _ Hq) as (q & Hq').
  destruct (mask_then_convert_bands sv img Hr Hq') as (out & _ & H & _).
  eauto.
Qed.

Lemma week_col_ok (sv : SubVariable) AOI (modis : EE.ImageCollection) ds de :
  Forall (fun img => map fst (EE.bands img) = [lst_band sv; qc_band sv]) modis ->
  exists col,
    (c <- EE.filterDate (Pandas.strftime ds) (Pandas.strftime de)
                        (EE.filterBounds AOI modis) ;;
     mapM (mask_then_convert sv) c) = Ok col.
Proof.
  intros Hb.
  destruct (filterDate_ok ds de (EE.filterBounds AOI modis)) as (c & Hc & Hincl).
  rewrite Hc; cbn [bind].
  apply mapM_ok. intros img Himg.
  apply Hincl in Himg. apply filter_In in Himg. destruct Himg as (Himg & _).
  rewrite Forall_forall in Hb. specialize (Hb img Himg).
  apply observation_ok; rewrite Hb; simpl; auto.
Qed.

Lemma modis_week_frames_ok weeks_df loaded AOI modis_day modis_night i :
  data_loading weeks_df = Ok loaded ->
  (exists f, In f AOI /\ has_property "gid" f) ->
  Forall (fun img => map fst (EE.bands img) = [lst_band DAY; qc_band DAY]) modis_day ->
  Forall (fun img => map fst (EE.bands img) = [lst_band NIGHT; qc_band NIGHT]) modis_night ->
  (i < List.length weeks_df)%nat ->
  exists ps, modis_week_frames AOI modis_day modis_night loaded i = Ok ps.
Proof.
  intros Hl Hgid Hd Hn Hi.
  destruct (@loaded_dates weeks_df loaded Hl) as (_ & Hdates).
  destruct (Hdates i Hi) as (ds & de & Hs & He).
  unfold modis_week_frames. rewrite Hs, He; cbn [bind].
  rewrite day_col_fused, night_col_fused.
  destruct (@week_col_ok DAY AOI modis_day ds de Hd) as (dc & ->).
  destruct (@week_col_ok NIGHT AOI modis_night ds de Hn) as (nc & ->).
  cbn [bind]. now apply stat_frames2_ok.
Qed.

(** Whenever the temperature loop returns, each of its two lists has nine
    results for each week. *)
Lemma modis_loop_count AOI modis_day modis_night loaded results :
  Modis.processing_loop AOI modis_day modis_night loaded = Ok results ->
  List.length (fst results)
  = (List.length (weeks loaded) * List.length STATISTICS)%nat
  /\ List.length (snd results)
     = (List.length (weeks loaded) * List.length STATISTICS)%nat.
Proof.
  rewrite modis_processing_loop. intros H. inv_bind H.
  inversion H; subst; clear H. cbn [fst snd]. rewrite !length_map.
  assert (Hc : List.length (List.concat x)
               = (List.length (weeks loaded) * List.length STATISTICS)%nat).
  { rewrite (@concat_length_blocks _ (List.length STATISTICS)).
    - rewrite (mapM_length _ _ Hx). unfold Py.range. now rewrite length_seq.
    - refine (@mapM_all _ _ _ _ _ _ _ Hx).
      intros i ps Hps. unfold modis_week_frames in Hps.
      inv_bind Hps. inv_bind Hps. inv_bind Hps. inv_bind Hps.
      apply (mapM_length _ _ Hps). }
  now rewrite Hc.
Qed.

Lemma reshape_receives_count str (results : list Geo.GeoDataFrame) (n : nat) values :
  List.length results = (n * List.length STATISTICS)%nat ->
  mapM (token str) results = Ok values ->
  Numpy.reshape values n (List.length STATISTICS)
  = Ok {| Numpy.shape := (n, List.length STATISTICS); Numpy.items := values |}.
Proof.
  intros Hlen Hv. apply reshape_match.
  now rewrite (mapM_length _ _ Hv).
Qed.

(** C10. Result-count loop invariant: over a week table of N weeks and a
    study area that carries [gid], with any number of polygons, the
    processing loop returns, and what it returns has exactly N * 9 results
    (in the temperature script, N * 9 in each of the two lists); the tokens
    of these results are as many as the reshape to (N, 9) asks for. *)
Theorem result_count_invariant (weeks_df : list WeekRecord) (loaded : Loaded)
    (AOI : EE.FeatureCollection) :
  data_loading weeks_df = Ok loaded ->
  (exists f, In f AOI /\ has_property "gid" f) ->
  (forall chirps,
      exists results,
        Chirps.processing_loop AOI chirps loaded = Ok results
        /\ List.length results = (List.length weeks_df * 9)%nat
        /\ forall str values,
             mapM (token str) results = Ok values ->
             Numpy.reshape values (List.length (weeks loaded)) (List.length STATISTICS)
             = Ok {| Numpy.shape := (List.length weeks_df, 9%nat);
                     Numpy.items := values |})
  /\ (forall catalog modis_day modis_night,
        Modis.MODIS_DAY catalog = Ok modis_day ->
        Modis.MODIS_NIGHT catalog = Ok modis_night ->
        exists results_day results_night,
          Modis.processing_loop AOI modis_day modis_night loaded
          = Ok (results_day, results_night)
          /\ List.length results_day = (List.length weeks_df * 9)%nat
          /\ List.length results_night = (List.length weeks_df * 9)%nat
          /\ forall str results values,
               results = results_day \/ results = results_night ->
               mapM (token str) results = Ok values ->
               Numpy.reshape values (List.length (weeks loaded)) (List.length STATISTICS)
               = Ok {| Numpy.shape := (List.length weeks_df, 9%nat);
                       Numpy.items := values |}).
Proof.
  intros Hl Hgid.
  destruct (@loaded_dates weeks_df loaded Hl) as (HN & _).
  split.
  - intros chirps.
    destruct (@mapM_ok _ _ (chirps_week_frames AOI chirps loaded)
                (Py.range (List.length (weeks loaded)))) as (blocks & Hb).
    { intros i Hi. apply in_seq in Hi.
      apply (@chirps_week_frames_ok weeks_df); auto. lia. }
    assert (Hloop : Chirps.processing_loop AOI chirps loaded
                    = Ok (List.concat blocks))
      by (rewrite chirps_processing_loop, Hb; reflexivity).
    exists (List.concat blocks). split; [exact Hloop |].
    pose proof (@chirps_loop_count _ _ _ _ Hloop) as Hc.
    split; [rewrite Hc, HN; reflexivity |].
    intros str values Hv. rewrite <- HN.
    exact (@reshape_receives_count str _ _ _ Hc Hv).
  - intros catalog modis_day modis_night Hd Hn.
    apply select_all_names in Hd. apply select_all_names in Hn.
    destruct (@mapM_ok _ _ (modis_week_frames AOI modis_day modis_night loaded)
                (Py.range (List.length (weeks loaded)))) as (blocks & Hb).
    { intros i Hi. apply in_seq in Hi.
      apply (@modis_week_frames_ok weeks_df); auto. lia. }
    assert (Hloop : Modis.processing_loop AOI modis_day modis_night loaded
                    = Ok (map fst (List.concat blocks), map snd (List.concat blocks)))
      by (rewrite modis_processing_loop, Hb; reflexivity).
    exists (map fst (List.concat blocks)), (map snd (List.concat blocks)).
    split; [exact Hloop |].
    destruct (@modis_loop_count _ _ _ _ _ Hloop) as (Hc1 & Hc2). cbn [fst snd] in Hc1, Hc2.
    split; [rewrite Hc1, HN; reflexivity |].
    split; [rewrite Hc2, HN; reflexivity |].
    intros str results values [-> | ->] Hv; rewrite <- HN.
    + exact (@reshape_receives_count str _ _ _ Hc1 Hv).
    + exact (@reshape_receives_count str _ _ _ Hc2 Hv).
Qed.

Lemma result_count_invariant_witness :
  exists results,
    Chirps.processing_loop Sample.AOI Sample.chirps Sample.loaded_jan_2024
    = Ok results
    /\ List.length results = 27%nat.
Proof.
  destruct (@result_count_invariant Sample.jan_2024 Sample.loaded_jan_2024 Sample.AOI)
    as (H & _).
  - reflexivity.
  - eexists; split; [left; reflexivity | left; reflexivity].
  - destruct (H Sample.chirps) as (results & Hloop & Hlen & _).
    exists results. split; [exact Hloop | exact Hlen].
Defined.

(** One polygon or two: 27 results for three weeks. *)
Example result_count_one_or_two_polygons :
  (r <- Chirps.processing_loop Sample.one_polygon Sample.chirps Sample.loaded_jan_2024 ;;
   Ok (List.length r)) = Ok 27%nat
  /\ (r <- Chirps.processing_loop Sample.AOI Sample.chirps Sample.loaded_jan_2024 ;;
      Ok (List.length r)) = Ok 27%nat.
Proof. split; vm_compute; reflexivity. Qed.

(** ** The order of the output table *)

Lemma Forall_nth_error {A : Type} (P : A -> Prop) (l : list A) (i : nat) (x : A) :
  Forall P l -> nth_error l i = Some x -> P x.
Proof.
  intros H Hi. rewrite Forall_forall in H. apply H. eapply nth_error_In; eauto.
Qed.

(** Row [i] of the table holds the tokens of block [i] of the results. *)
Lemma table_row str weeks (blocks : list (list Geo.GeoDataFrame)) df i b :
  reshape_results str weeks (List.concat blocks) = Ok df ->
  Forall (fun b => List.length b = List.length STATISTICS) blocks ->
  nth_error blocks i = Some b ->
  exists row, mapM (token str) b = Ok row
              /\ nth_error (Frame.values df) i = Some row.
Proof.
  intros H Hall Hb.
  apply reshape_results_inv in H. destruct H as (values & Hv & Hlen & ->).
  rewrite (concat_length_blocks Hall) in Hlen.
  assert (Hi : (i < List.length weeks)%nat).
  { assert (i < List.length blocks)%nat
      by (apply nth_error_Some; congruence).
    change (List.length STATISTICS) with 9%nat in Hlen. lia. }
  exists (firstn (List.length STATISTICS) (skipn (i * List.length STATISTICS) values)).
  split.
  - rewrite <- (concat_block i Hall Hb).
    apply mapM_firstn. now apply mapM_skipn.
  - cbn [Frame.values]. unfold Numpy.rows; cbn [Numpy.shape fst].
    assert (Hseq : nth_error (seq 0 (List.length weeks)) i = Some i).
    { rewrite nth_error_seq.
      destruct (Nat.ltb_spec i (List.length weeks)); [reflexivity | lia]. }
    rewrite (map_nth_error _ _ _ Hseq). reflexivity.
Qed.

Lemma range_nth (n i : nat) : (i < n)%nat -> nth_error (Py.range n) i = Some i.
Proof.
  intros Hi. unfold Py.range. rewrite nth_error_seq.
  destruct (Nat.ltb_spec i n); [reflexivity | lia].
Qed.

(** The results of the precipitation loop, week by week. *)
Lemma chirps_blocks AOI chirps loaded results :
  Chirps.processing_loop AOI chirps loaded = Ok results ->
  exists blocks,
    results = List.concat blocks
    /\ Forall (fun b => List.length b = List.length STATISTICS) blocks
    /\ forall i, (i < List.length (weeks loaded))%nat ->
         exists frames, chirps_week_frames AOI chirps loaded i = Ok frames
                        /\ nth_error blocks i = Some frames.
Proof.
  rewrite chirps_processing_loop. intros H. inv_bind H.
  inversion H; subst; clear H. exists x. split; [reflexivity | split].
  - refine (@mapM_all _ _ _ _ _ _ _ Hx).
    intros i fs Hfs. unfold chirps_week_frames in Hfs.
    inv_bind Hfs. inv_bind Hfs. inv_bind Hfs.
    apply (mapM_length _ _ Hfs).
  - intros i Hi.
    destruct (mapM_nth _ _ Hx _ (range_nth Hi)) as (fs & Hn & Hfs). eauto.
Qed.

(** The results of the temperature loop, week by week. *)
Lemma modis_blocks AOI modis_day modis_night loaded results :
  Modis.processing_loop AOI modis_day modis_night loaded = Ok results ->
  exists blocks,
    fst results = List.concat (map (map fst) blocks)
    /\ snd results = List.concat (map (map snd) blocks)
    /\ Forall (fun b => List.length b = List.length STATISTICS) blocks
    /\ forall i, (i < List.length (weeks loaded))%nat ->
         exists ps, modis_week_frames AOI modis_day modis_night loaded i = Ok ps
                    /\ nth_error blocks i = Some ps.
Proof.
  rewrite modis_processing_loop. intros H. inv_bind H.
  inversion H; subst; clear H. exists x. cbn [fst snd].
  rewrite !concat_map. split; [reflexivity | split; [reflexivity | split]].
  - refine (@mapM_all _ _ _ _ _ _ _ Hx).
    intros i ps Hps. unfold modis_week_frames in Hps.
    inv_bind Hps. inv_bind Hps. inv_bind Hps. inv_bind Hps.
    apply (mapM_length _ _ Hps).
  - intros i Hi.
    destruct (mapM_nth _ _ Hx _ (range_nth Hi)) as (ps & Hn & Hps). eauto.
Qed.

Lemma Forall_map_length {A B : Type} (f : A -> B) (n : nat) (blocks : list (list A)) :
  Forall (fun b => List.length b = n) blocks ->
  Forall (fun b => List.length b = n) (map (map f) blocks).
Proof.
  induction 1; simpl; constructor; auto. now rewrite length_map.
Qed.

(** C6. Output table ordering: the table either script writes has the week
    ids of the week table as its index, in the order of the week table; its
    columns are COUNT, MINIMUM, MEAN, MAXIMUM, MEDIAN, MODE, STD, SUM,
    VARIANCE in this order, in the temperature script once with the prefix
    DAY_ and then once with the prefix NIGHT_; and row i holds the tokens of
    the tables of week i, statistic after statistic (day before night). *)
Theorem output_table_order str (weeks_df : list WeekRecord)
    (AOI : EE.FeatureCollection) (catalog : EE.ImageCollection) :
  (forall df,
      Chirps.script str weeks_df AOI catalog = Ok df ->
      Frame.index df = map se weeks_df
      /\ Frame.columns df
         = [ "COUNT"; "MINIMUM"; "MEAN"; "MAXIMUM"; "MEDIAN"; "MODE"; "STD";
             "SUM"; "VARIANCE" ]%string
      /\ exists loaded chirps,
           data_loading weeks_df = Ok loaded
           /\ Chirps.chirps_daily catalog = Ok chirps
           /\ forall i, (i < List.length weeks_df)%nat ->
                exists frames row,
                  chirps_week_frames AOI chirps loaded i = Ok frames
                  /\ mapM (token str) frames = Ok row
                  /\ nth_error (Frame.values df) i = Some row)
  /\ (forall df,
        Modis.script str weeks_df AOI catalog = Ok df ->
        Frame.index df = map se weeks_df
        /\ Frame.columns df
           = [ "DAY_COUNT"; "DAY_MINIMUM"; "DAY_MEAN"; "DAY_MAXIMUM";
               "DAY_MEDIAN"; "DAY_MODE"; "DAY_STD"; "DAY_SUM"; "DAY_VARIANCE";
               "NIGHT_COUNT"; "NIGHT_MINIMUM"; "NIGHT_MEAN"; "NIGHT_MAXIMUM";
               "NIGHT_MEDIAN"; "NIGHT_MODE"; "NIGHT_STD"; "NIGHT_SUM";
               "NIGHT_VARIANCE" ]%string
        /\ exists loaded modis_day modis_night,
             data_loading weeks_df = Ok loaded
             /\ Modis.MODIS_DAY catalog = Ok modis_day
             /\ Modis.MODIS_NIGHT catalog = Ok modis_night
             /\ forall i, (i < List.length weeks_df)%nat ->
                  exists ps day_row night_row,
                    modis_week_frames AOI modis_day modis_night loaded i = Ok ps
                    /\ mapM (token str) (map fst ps) = Ok day_row
                    /\ mapM (token str) (map snd ps) = Ok night_row
                    /\ nth_error (Frame.values df) i = Some (day_row ++ night_row)).
Proof.
  split; intros df H.
  - unfold Chirps.script in H.
    inv_bind H. rename x into loaded, Hx into Hl.
    inv_bind H. rename x into chirps, Hx into Hc.
    inv_bind H. rename x into results, Hx into Hloop.
    unfold Chirps.post_processing in H.
    destruct (@loaded_dates weeks_df loaded Hl) as (HN & _).
    destruct (data_loading_windows _ Hl) as (_ & _ & _ & Hw & _).
    destruct (chirps_blocks _ _ _ Hloop) as (blocks & -> & Hall & Hblocks).
    pose proof (reshape_results_inv _ _ _ H) as (values & _ & _ & Hdf).
    split; [rewrite Hdf, Hw; reflexivity |].
    split; [rewrite Hdf; reflexivity |].
    exists loaded, chirps. split; [exact Hl | split; [exact Hc |]].
    intros i Hi. rewrite <- HN in Hi.
    destruct (Hblocks i Hi) as (frames & Hf & Hn).
    destruct (table_row _ _ _ H Hall Hn) as (row & Hrow & Hnth).
    exists frames, row. auto.
  - unfold Modis.script in H.
    inv_bind H. rename x into loaded, Hx into Hl.
    inv_bind H. rename x into modis_day, Hx into Hd.
    inv_bind H. rename x into modis_night, Hx into Hn.
    inv_bind H. rename x into results, Hx into Hloop.
    unfold Modis.post_processing in H.
    inv_bind H. rename x into df_day, Hx into Hday.
    inv_bind H. rename x into df_night, Hx into Hnight.
    inversion H; subst df; clear H.
    destruct (@loaded_dates weeks_df loaded Hl) as (HN & _).
    destruct (data_loading_windows _ Hl) as (_ & _ & _ & Hw & _).
    destruct (modis_blocks _ _ _ _ Hloop) as (blocks & Hfst & Hsnd & Hall & Hblocks).
    rewrite Hfst in Hday. rewrite Hsnd in Hnight.
    pose proof (reshape_results_inv _ _ _ Hday) as (vd & _ & _ & Hdfd).
    pose proof (reshape_results_inv _ _ _ Hnight) as (vn & _ & _ & Hdfn).
    split; [rewrite Hdfd, Hw; reflexivity |].
    split; [rewrite Hdfd, Hdfn; reflexivity |].
    exists loaded, modis_day, modis_night.
    split; [exact Hl | split; [exact Hd | split; [exact Hn |]]].
    intros i Hi. rewrite <- HN in Hi.
    destruct (Hblocks i Hi) as (ps & Hps & Hnth).
    destruct (table_row _ _ _ Hday (Forall_map_length fst Hall)
                (map_nth_error (map fst) _ _ Hnth)) as (day_row & Hdr & Hdn).
    destruct (table_row _ _ _ Hnight (Forall_map_length snd Hall)
                (map_nth_error (map snd) _ _ Hnth)) as (night_row & Hnr & Hnn).
    exists ps, day_row, night_row.
    split; [exact Hps | split; [exact Hdr | split; [exact Hnr |]]].
    unfold Frame.concat_columns, Frame.add_prefix; cbn [Frame.values].
    assert (Hc : nth_error (combine (Frame.values df_day) (Frame.values df_night)) i
                 = Some (day_row, night_row)).
    { clear - Hdn Hnn. revert i Hdn Hnn.
      generalize (Frame.values df_day) (Frame.values df_night).
      induction l as [| a l IH]; intros l0 i Ha Hb; destruct i, l0; simpl in *;
        try discriminate.
      - now inversion Ha; inversion Hb.
      - now apply IH. }
    now rewrite (map_nth_error _ _ _ Hc).
Qed.

Lemma output_table_order_witness :
  (Frame.index Sample.precipitation_table = map se Sample.jan_2024
   /\ Frame.columns Sample.precipitation_table
      = [ "COUNT"; "MINIMUM"; "MEAN"; "MAXIMUM"; "MEDIAN"; "MODE"; "STD";
          "SUM"; "VARIANCE" ]%string)
  /\ Frame.index Sample.temperature_table = map se Sample.jan_2024.
Proof.
  split.
  - destruct (proj1 (output_table_order Sample.show Sample.jan_2024
                       Sample.one_polygon Sample.chirps)
                Sample.precipitation_table) as (H1 & H2 & _).
    + vm_compute; reflexivity.
    + split; assumption.
  - destruct (proj2 (output_table_order Sample.show Sample.jan_2024
                       Sample.one_polygon Sample.modis)
                Sample.temperature_table) as (H1 & _).
    + vm_compute; reflexivity.
    + assumption.
Defined.

(** The two scripts on the sample data. *)
Example chirps_script_sample :
  Chirps.script Sample.show Sample.jan_2024 Sample.one_polygon Sample.chirps
  = Ok Sample.precipitation_table.
Proof. vm_compute; reflexivity. Qed.

Example modis_script_sample :
  Modis.script Sample.show Sample.jan_2024 Sample.one_polygon Sample.modis
  = Ok Sample.temperature_table.
Proof. vm_compute; reflexivity. Qed.

(** ** The week without observations *)

Lemma Qred_zero (q : Q) : (q == 0)%Q -> Qred q = 0%Q.
Proof.
  intros H. now rewrite (Qred_complete _ _ H).
Qed.

Lemma Qred_inject_Z (z : Z) : Qred (inject_Z z) = inject_Z z.
Proof.
  apply Qcanon.Qred_identity. simpl. apply Z.gcd_1_r.
Qed.

Lemma Qsum_zero (l : list Q) : Forall (fun x => x == 0)%Q l -> (EE.Qsum l == 0)%Q.
Proof.
  induction 1 as [| x l Hx _ IH]; simpl; [reflexivity |].
  rewrite Hx, IH. reflexivity.
Qed.

Lemma Qmean_zero (l : list Q) : Forall (fun x => x == 0)%Q l -> (EE.Qmean l == 0)%Q.
Proof.
  intros H. unfold EE.Qmean. rewrite (Qsum_zero H).
  unfold Qdiv. apply Qmult_0_l.
Qed.

Lemma Qvariance_zero (l : list Q) :
  Forall (fun x => x == 0)%Q l -> (EE.Qvariance l == 0)%Q.
Proof.
  intros H. unfold EE.Qvariance. apply Qmean_zero.
  apply Forall_map. rewrite Forall_forall in *. intros x Hx.
  rewrite (H x Hx), (Qmean_zero (proj2 (Forall_forall _ l) H)).
  reflexivity.
Qed.

Lemma Qsqrt_zero (q : Q) : (q == 0)%Q -> (EE.Qsqrt q == 0)%Q.
Proof.
  intros H. unfold EE.Qsqrt.
  assert (E : Qfloor (q * inject_Z (10 ^ 30)) = 0).
  { rewrite H, Qmult_0_l. reflexivity. }
  rewrite E. reflexivity.
Qed.

(** The statistics of a geometry over which every sample is 0. *)
Lemma run_zeros (l : list Q) :
  Forall (fun x => x == 0)%Q l ->
  EE.run EE.count l = Some (inject_Z (Z.of_nat (List.length l)))
  /\ EE.run EE.sum l = Some 0%Q
  /\ (l <> [] ->
      EE.run EE.mean l = Some 0%Q
      /\ EE.run EE.stdDev l = Some 0%Q
      /\ EE.run EE.variance l = Some 0%Q).
Proof.
  intros H. unfold EE.run. split; [| split].
  - cbv beta iota delta [option_map EE.Qlen]. now rewrite Qred_inject_Z.
  - cbv beta iota delta [option_map]. now rewrite (Qred_zero (Qsum_zero H)).
  - intros Hne. destruct l as [| x l]; [congruence |].
    cbv beta iota delta [option_map].
    rewrite (Qred_zero (Qmean_zero H)).
    rewrite (Qred_zero (Qvariance_zero H)).
    rewrite (Qred_zero (Qsqrt_zero (Qvariance_zero H))).
    auto.
Qed.

Lemma pixel_eqb_refl (p : EE.pixel) : EE.pixel_eqb p p = true.
Proof.
  unfold EE.pixel_eqb. now rewrite !Z.eqb_refl.
Qed.

Lemma inside_member (AOI : EE.FeatureCollection) (f : EE.Feature) (p : EE.pixel) :
  In f AOI -> In p (EE.geometry f) -> EE.inside AOI p = true.
Proof.
  intros Hf Hp. unfold EE.inside. apply existsb_exists. exists f. split; [exact Hf |].
  unfold EE.covers. apply existsb_exists. exists p. split; [exact Hp |].
  apply pixel_eqb_refl.
Qed.

(** Over a polygon of the study area the zero image has a sample, 0, for
    each cell of the polygon. *)
Lemma zero_samples (AOI : EE.FeatureCollection) (g : list EE.pixel) :
  (forall p, In p g -> EE.inside AOI p = true) ->
  EE.samples_over (fun p => if EE.inside AOI p then Some 0%Q else None) g
  = map (fun _ => 0%Q) g.
Proof.
  unfold EE.samples_over. induction g as [| p g IH]; intros H; simpl; [reflexivity |].
  rewrite (H p) by (now left). simpl. f_equal. apply IH. intros; apply H; now right.
Qed.

Lemma get_set_same {V : Type} (key : string) (v : V) (d : list (string * V)) :
  EE.get key (EE.set key v d) = Some v.
Proof.
  induction d as [| [k w] d IH]; simpl.
  - now rewrite String.eqb_refl.
  - destruct (String.eqb k key) eqn:E; simpl; rewrite E; [reflexivity | exact IH].
Qed.

Lemma get_Some_In {V : Type} (key : string) (v : V) (d : list (string * V)) :
  EE.get key d = Some v -> In key (map fst d).
Proof.
  induction d as [| [k w] d IH]; simpl; [discriminate |].
  destruct (String.eqb k key) eqn:E; [| auto].
  apply String.eqb_eq in E. auto.
Qed.

Lemma get_combine_map {V : Type} (g : string -> V) (key : string) (l : list string) :
  In key l -> EE.get key (combine l (map g l)) = Some (g key).
Proof.
  induction l as [| a l IH]; simpl; [tauto |].
  intros H. destruct (String.eqb a key) eqn:E.
  - apply String.eqb_eq in E. now subst.
  - destruct H as [-> | H]; [| auto]. rewrite String.eqb_refl in E. discriminate.
Qed.

(** The cell of a feature under a property it has. *)
Lemma at_from_features (stats : EE.FeatureCollection) (i : nat) (f : EE.Feature)
    (label : string) (q : Q) :
  nth_error stats i = Some f ->
  EE.get label (EE.properties f) = Some q ->
  Geo.at_ (Geo.from_features stats) i label = Some (Geo.Num q).
Proof.
  intros Hi Hq. unfold Geo.at_, Geo.from_features; cbn [Geo.rows Geo.columns].
  rewrite (map_nth_error _ _ _ Hi).
  rewrite get_combine_map.
  - unfold Geo.row_cell. now rewrite Hq.
  - apply uniq_In. split; [| tauto].
    apply in_flat_map. exists f. split; [eapply nth_error_In; eauto |].
    right. eapply get_Some_In; eauto.
Qed.

(** The cell of a polygon of the study area, for the zero image. *)
Lemma zonal_cell_zero (AOI : EE.FeatureCollection) (stat : string)
    (r : EE.Reducer) (i : nat) (f : EE.Feature) (q : Q) :
  EE.get stat reducers = Some r ->
  nth_error AOI i = Some f ->
  EE.run r (map (fun _ => 0%Q) (EE.geometry f)) = Some q ->
  zonal_cell (zero_image AOI) AOI stat i = Ok (Some (Geo.Num q)).
Proof.
  intros Hr Hi Hq. unfold zonal_cell, zonal_stats. rewrite Hr; cbn [bind].
  f_equal.
  apply at_from_features with
    (f := EE.set_result (EE.output_name r) (Some q) f).
  - unfold EE.reduceRegions, zero_image, EE.clip, EE.constant.
    cbn [EE.bands map fst snd].
    rewrite (map_nth_error _ _ _ Hi). f_equal.
    rewrite zero_samples, Hq; [reflexivity |].
    intros p Hp. eapply inside_member; eauto. eapply nth_error_In; eauto.
  - unfold EE.set_result; cbn [EE.properties]. apply get_set_same.
Qed.

Lemma zeros_Forall {A : Type} (l : list A) :
  Forall (fun x => x == 0)%Q (map (fun _ => 0%Q) l).
Proof.
  apply Forall_map. apply Forall_forall. intros; reflexivity.
Qed.

(** C2, as the code has it. Empty-window substitution: when no observation
    of the collection falls in the window over the study area, each script
    takes the constant 0 image clipped to the study area as the image of the
    week, and does not raise; that image is 0 on the cells of the study area
    and masked everywhere else.  For it the zonal statistics of a polygon of
    the study area are COUNT = the number of grid cells of the polygon and
    SUM = 0, and, when the polygon covers a cell at least, MEAN = 0, STD = 0
    and VARIANCE = 0. *)
Theorem empty_window_substitution (AOI : EE.FeatureCollection)
    (col : EE.ImageCollection) (start end_ : string) (i : nat) (f : EE.Feature) :
  EE.filterDate start end_ (EE.filterBounds AOI col) = Ok [] ->
  nth_error AOI i = Some f ->
  Chirps.weekly_image AOI col start end_ = Ok (zero_image AOI)
  /\ (exists day_col,
        Modis.day_col AOI col start end_ = Ok day_col
        /\ Modis.weekly_image AOI day_col = zero_image AOI)
  /\ (exists night_col,
        Modis.night_col AOI col start end_ = Ok night_col
        /\ Modis.weekly_image AOI night_col = zero_image AOI)
  /\ (forall p, EE.value_at "constant" (zero_image AOI) p
                = if EE.inside AOI p then Some 0%Q else None)
  /\ EE.footprint (zero_image AOI) = Some (EE.cells_of AOI)
  /\ zonal_cell (zero_image AOI) AOI "COUNT" i
     = Ok (Some (Geo.Num (inject_Z (Z.of_nat (List.length (EE.geometry f))))))
  /\ zonal_cell (zero_image AOI) AOI "SUM" i = Ok (Some (Geo.Num 0))
  /\ (EE.geometry f <> [] ->
      zonal_cell (zero_image AOI) AOI "MEAN" i = Ok (Some (Geo.Num 0))
      /\ zonal_cell (zero_image AOI) AOI "STD" i = Ok (Some (Geo.Num 0))
      /\ zonal_cell (zero_image AOI) AOI "VARIANCE" i = Ok (Some (Geo.Num 0))).
Proof.
  intros Hempty Hi.
  destruct (run_zeros (zeros_Forall (EE.geometry f))) as (Hcount & Hsum & Hrest).
  rewrite length_map in Hcount.
  split; [unfold Chirps.weekly_image; rewrite Hempty; reflexivity |].
  split; [exists []; unfold Modis.day_col; rewrite Hempty; split; reflexivity |].
  split; [exists []; unfold Modis.night_col; rewrite Hempty; split; reflexivity |].
  split; [intros p; reflexivity |].
  split; [reflexivity |].
  split; [apply (@zonal_cell_zero AOI "COUNT" EE.count i f _ eq_refl Hi Hcount) |].
  split; [apply (@zonal_cell_zero AOI "SUM" EE.sum i f _ eq_refl Hi Hsum) |].
  intros Hne.
  assert (Hne' : map (fun _ : EE.pixel => 0%Q) (EE.geometry f) <> []).
  { destruct (EE.geometry f); [congruence | discriminate]. }
  destruct (Hrest Hne') as (Hmean & Hstd & Hvar).
  split; [apply (@zonal_cell_zero AOI "MEAN" EE.mean i f _ eq_refl Hi Hmean) |].
  split; [apply (@zonal_cell_zero AOI "STD" EE.stdDev i f _ eq_refl Hi Hstd) |].
  apply (@zonal_cell_zero AOI "VARIANCE" EE.variance i f _ eq_refl Hi Hvar).
Qed.

Lemma empty_window_substitution_witness :
  Chirps.weekly_image Sample.AOI Sample.chirps "2024-01-08" "2024-01-15"
  = Ok (zero_image Sample.AOI)
  /\ EE.value_at "constant" (zero_image Sample.AOI) (9, 9) = None
  /\ zonal_cell (zero_image Sample.AOI) Sample.AOI "COUNT" 0
     = Ok (Some (Geo.Num 3))
  /\ zonal_cell (zero_image Sample.AOI) Sample.AOI "STD" 0
     = Ok (Some (Geo.Num 0)).
Proof.
  destruct (@empty_window_substitution Sample.AOI Sample.chirps
              "2024-01-08" "2024-01-15" 0
              {| EE.geometry := [(0, 0); (0, 1); (1, 0)];
                 EE.properties := [("gid"%string, 1%Q)] |})
    as (H1 & _ & _ & H3 & _ & H4 & _ & H6).
  - reflexivity.
  - reflexivity.
  - split; [exact H1 | split; [exact (H3 (9, 9)) | split; [exact H4 |]]].
    apply H6. discriminate.
Defined.

(** C2 fails on a polygon that covers no grid cell: in an empty window its
    COUNT is 0 and its SUM is 0, and it has no MEAN, STD or VARIANCE at all
    (the table of the statistic has no such column), where the claim has
    0 for each. *)
Lemma empty_window_no_cell_has_no_mean :
  Chirps.weekly_image Sample.no_cell Sample.chirps "2024-01-08" "2024-01-15"
  = Ok (zero_image Sample.no_cell)
  /\ zonal_cell (zero_image Sample.no_cell) Sample.no_cell "COUNT" 0
     = Ok (Some (Geo.Num 0))
  /\ zonal_cell (zero_image Sample.no_cell) Sample.no_cell "MEAN" 0 = Ok None
  /\ zonal_cell (zero_image Sample.no_cell) Sample.no_cell "STD" 0 = Ok None
  /\ zonal_cell (zero_image Sample.no_cell) Sample.no_cell "VARIANCE" 0 = Ok None
  /\ zonal_cell (zero_image Sample.no_cell) Sample.no_cell "MEAN" 0
     <> Ok (Some (Geo.Num 0)).
Proof.
  repeat split; try reflexivity. discriminate.
Qed.

(** The second sample week has no rain image: its row of the table is the
    row of the zero image. *)
Example empty_week_row :
  nth_error (Frame.values Sample.precipitation_table) 1
  = Some ["3.00"; "0.00"; "0.00"; "0.00"; "0.00"; "0.00"; "0.00"; "0.00"; "0.00"]%string.
Proof. reflexivity. Qed.

(** ** Remarks on the temperature pipeline *)

(** X15. The two functions of the script compose in one order only:
    [kelvin_to_celsius_day] keeps the temperature band alone, so [mask_day]
    finds no quality band in what it returns. *)
Remark mask_after_conversion_raises (sv : SubVariable) (img converted : EE.Image) :
  kelvin_to_celsius sv img = Ok converted ->
  mask sv converted = Raise EEException.
Proof.
  intros H.
  destruct (EE.get (lst_band sv) (EE.bands img)) as [r |] eqn:Hr.
  - destruct (kelvin_to_celsius_spec sv img Hr) as (out & Hout & Hb & _).
    rewrite Hout in H. inversion H; subst out; clear H.
    apply mask_fails. rewrite Hb. destruct sv; reflexivity.
  - rewrite (kelvin_to_celsius_fails sv img Hr) in H. discriminate.
Qed.

Lemma get_map_key {V W : Type} (G : string -> W) (name : string)
    (bs : list (string * V)) :
  EE.get name (map (fun b => (fst b, G (fst b))) bs)
  = option_map (fun _ => G name) (EE.get name bs).
Proof.
  induction bs as [| [k v] bs IH]; simpl; [reflexivity |].
  destruct (String.eqb k name) eqn:E; [| exact IH].
  apply String.eqb_eq in E. now subst.
Qed.

(** The weekly median at a pixel is the median of the samples the
    observations of the week have there; it is masked when they have none. *)
Lemma median_of_samples (name : string) (first : EE.Image)
    (rest : EE.ImageCollection) (p : EE.pixel) :
  In name (map fst (EE.bands first)) ->
  EE.value_at name (EE.collection_median (first :: rest)) p
  = match EE.samples_at name p (first :: rest) with
    | [] => None
    | vs => EE.run EE.median vs
    end.
Proof.
  intros Hin. destruct (get_In _ _ Hin) as (r & Hr).
  unfold EE.value_at, EE.collection_median, EE.reduce. cbn [EE.bands].
  rewrite (get_map_key
             (fun n q => match EE.samples_at n q (first :: rest) with
                         | [] => None
                         | vs => EE.run EE.median vs
                         end)).
  now rewrite Hr.
Qed.

(* ================================================================== *)
(** * Further properties of the scripts *)

(** ** The dates of the windows, written and read back *)

Lemma four_digits (y : Z) :
  0 <= y < 10000 ->
  10 * (10 * (10 * (10 * 0 + (y / 10 / 10 / 10) mod 10) + (y / 10 / 10) mod 10)
        + (y / 10) mod 10) + y mod 10 = y.
Proof.
  intros H. Z.div_mod_to_equations. lia.
Qed.

Lemma two_digits (m : Z) :
  0 <= m < 100 -> 10 * (10 * 0 + (m / 10) mod 10) + m mod 10 = m.
Proof.
  intros H. Z.div_mod_to_equations. lia.
Qed.

Lemma parse_strftime_civil (d : Pandas.Timestamp) :
  civil_ok d = true -> EE.parse_date (Pandas.strftime d) = Ok d.
Proof.
  unfold civil_ok, Pandas.strftime.
  destruct (Pandas.civil_from_days d) as [[y m] dd].
  rewrite !andb_true_iff. intros ((((((Hy0 & Hy1) & Hm0) & Hm1) & Hd0) & Hd1) & Hr).
  apply Z.leb_le in Hy0, Hm0, Hd0. apply Z.ltb_lt in Hy1, Hm1, Hd1.
  apply Z.eqb_eq in Hr.
  unfold EE.parse_date.
  cbn [Pandas.zfill String.append list_ascii_of_string].
  cbn [EE.number]. rewrite !digit_value_digit.
  rewrite four_digits, !two_digits by lia.
  now rewrite Hr.
Qed.

Lemma civil_ok_from_sound (n : nat) (d : Z) :
  civil_ok_from n d = true ->
  forall k, d <= k < d + Z.of_nat n -> civil_ok k = true.
Proof.
  revert d; induction n as [| n IH]; intros d H k Hk; [lia |].
  cbn [civil_ok_from] in H. apply andb_true_iff in H. destruct H as (Hd & Hn).
  destruct (Z.eq_dec k d) as [-> | Hne]; [exact Hd |].
  apply (IH (d + 1) Hn). lia.
Qed.

Lemma timestamp_days_ok (d : Z) :
  first_day <= d <= last_day + 7 -> civil_ok d = true.
Proof.
  intros H.
  apply (@civil_ok_from_sound (Z.to_nat (last_day + 7 - first_day + 1)) first_day).
  - vm_compute. reflexivity.
  - rewrite Z2Nat.id by (unfold first_day, last_day; lia). lia.
Qed.

(** The round trip of a date through [strftime] and the date parser of
    [filterDate]. *)
Lemma strftime_round_trip (d : Pandas.Timestamp) :
  first_day <= d <= last_day + 7 ->
  EE.parse_date (Pandas.strftime d) = Ok d.
Proof.
  intros H. apply parse_strftime_civil. now apply timestamp_days_ok.
Qed.

(** Formatted windows filter day ranges: with the two dates of a window
    written by [format_timestamps], [filterDate] keeps the images whose
    time is from the start day on and before the end day. *)
Lemma formatted_window_filters_days (ds de : Pandas.Timestamp)
    (col : EE.ImageCollection) :
  first_day <= ds <= last_day + 7 ->
  first_day <= de <= last_day + 7 ->
  EE.filterDate (Pandas.strftime ds) (Pandas.strftime de) col
  = Ok (filter (in_days ds de) col).
Proof.
  intros Hs He. unfold EE.filterDate.
  rewrite (strftime_round_trip Hs), (strftime_round_trip He). reflexivity.
Qed.

(** ** The windows of the loop *)

(** The two dates of window [i]. *)
Lemma loaded_window (weeks_df : list WeekRecord) (loaded : Loaded) (i : nat)
    (w : WeekRecord) :
  data_loading weeks_df = Ok loaded ->
  nth_error weeks_df i = Some w ->
  exists e,
    window_end (map fecha_ini weeks_df) i = Some e
    /\ Py.getitem (start_dates loaded) i = Ok (Pandas.strftime (fecha_ini w))
    /\ Py.getitem (end_dates loaded) i = Ok (Pandas.strftime e).
Proof.
  intros Hl Hw.
  destruct (data_loading_windows _ Hl) as (x & Hx & _ & _ & _ & Hs & He).
  apply getitem_last_nth in Hx. rewrite length_map in Hx.
  assert (Hi : (i < List.length weeks_df)%nat)
    by (apply nth_error_Some; congruence).
  unfold window_end, Py.getitem. rewrite Hs, He.
  rewrite (map_nth_error fecha_ini _ _ Hw).
  rewrite (map_nth_error (fun w => Pandas.strftime (fecha_ini w)) _ _ Hw).
  assert (Hlen : List.length (tl (map fecha_ini weeks_df))
                 = (List.length weeks_df - 1)%nat).
  { destruct weeks_df; simpl; [reflexivity | rewrite length_map; lia]. }
  destruct (nth_error (map fecha_ini weeks_df) (S i)) as [next |] eqn:Hn.
  - exists next. split; [reflexivity | split; [reflexivity |]].
    assert (S i < List.length (map fecha_ini weeks_df))%nat
      by (apply nth_error_Some; congruence).
    rewrite length_map in H.
    rewrite nth_error_app1 by (rewrite length_map; lia).
    rewrite <- nth_error_tl in Hn.
    now rewrite (map_nth_error _ _ _ Hn).
  - apply nth_error_None in Hn. rewrite length_map in Hn.
    assert (Hlast : i = (List.length weeks_df - 1)%nat) by lia.
    exists (fecha_ini w + 7).
    split; [reflexivity | split; [reflexivity |]].
    rewrite nth_error_app2 by (rewrite length_map; lia).
    rewrite length_map, Hlen.
    replace (i - (List.length weeks_df - 1))%nat with 0%nat by lia.
    subst i. rewrite (map_nth_error fecha_ini _ _ Hw) in Hx.
    inversion Hx; subst x. reflexivity.
Qed.

Lemma in_range_tight (weeks_df : list WeekRecord) (i : nat) (w : WeekRecord) :
  dates_in_range weeks_df -> nth_error weeks_df i = Some w ->
  first_day <= fecha_ini w <= last_day - 7.
Proof.
  intros H Hw. unfold dates_in_range in H. rewrite Forall_forall in H.
  apply H. eapply nth_error_In; eauto.
Qed.

Lemma in_range_nth (weeks_df : list WeekRecord) (i : nat) (w : WeekRecord) :
  dates_in_range weeks_df -> nth_error weeks_df i = Some w ->
  first_day <= fecha_ini w <= last_day.
Proof.
  intros H Hw. unfold dates_in_range in H. rewrite Forall_forall in H.
  assert (Hin : In w weeks_df) by (eapply nth_error_In; eauto).
  specialize (H w Hin). lia.
Qed.

Lemma window_end_in_range (weeks_df : list WeekRecord) (i : nat) (e : Z) :
  dates_in_range weeks_df ->
  window_end (map fecha_ini weeks_df) i = Some e ->
  first_day <= e <= last_day + 7.
Proof.
  intros H. unfold window_end.
  destruct (nth_error (map fecha_ini weeks_df) (S i)) as [next |] eqn:Hn.
  - intros E; inversion E; subst e.
    rewrite nth_error_map in Hn.
    destruct (nth_error weeks_df (S i)) as [w |] eqn:Hw; simpl in Hn; [| discriminate].
    inversion Hn; subst. pose proof (@in_range_nth _ _ _ H Hw). lia.
  - destruct (nth_error (map fecha_ini weeks_df) i) as [d |] eqn:Hd; [| discriminate].
    intros E; inversion E; subst e.
    rewrite nth_error_map in Hd.
    destruct (nth_error weeks_df i) as [w |] eqn:Hw; simpl in Hd; [| discriminate].
    inversion Hd; subst. pose proof (@in_range_nth _ _ _ H Hw).
    lia.
Qed.

(** The collection of week [i] holds the images of the study area from the
    start day of the week on and before its end day. *)
Lemma week_collection_days (weeks_df : list WeekRecord) (loaded : Loaded)
    (AOI : EE.FeatureCollection) (col : EE.ImageCollection) (i : nat)
    (w : WeekRecord) :
  data_loading weeks_df = Ok loaded ->
  dates_in_range weeks_df ->
  nth_error weeks_df i = Some w ->
  exists e,
    window_end (map fecha_ini weeks_df) i = Some e
    /\ week_collection AOI col loaded i
       = Ok (filter (in_days (fecha_ini w) e) (EE.filterBounds AOI col)).
Proof.
  intros Hl Hr Hw.
  destruct (@loaded_window weeks_df loaded i w Hl Hw) as (e & He & Hs & Hen).
  exists e. split; [exact He |].
  unfold week_collection. rewrite Hs, Hen; cbn [bind].
  apply formatted_window_filters_days.
  - pose proof (@in_range_nth _ _ _ Hr Hw). lia.
  - eapply window_end_in_range; eauto.
Qed.

Lemma increasing_nth (l : list Z) (i j : nat) (a b : Z) :
  strictly_increasing l = true ->
  (i < j)%nat -> nth_error l i = Some a -> nth_error l j = Some b -> a < b.
Proof.
  revert i j a b. induction l as [| x l IH]; intros i j a b H Hij Ha Hb.
  - destruct i; discriminate.
  - assert (Htail : strictly_increasing l = true).
    { destruct l as [| y l]; [reflexivity |].
      cbn [strictly_increasing] in H. apply andb_true_iff in H. tauto. }
    assert (Hhead : forall k c, nth_error l k = Some c -> x < c).
    { clear - H IH Htail. intros k c Hk.
      destruct l as [| y l]; [destruct k; discriminate |].
      cbn [strictly_increasing] in H. apply andb_true_iff in H.
      destruct H as (Hxy & _). apply Z.ltb_lt in Hxy.
      destruct k as [| k]; [simpl in Hk; inversion Hk; subst; exact Hxy |].
      assert (y < c); [| lia].
      apply (IH 0%nat (S k) y c Htail); [lia | reflexivity | exact Hk]. }
    destruct j as [| j]; [lia |]. destruct i as [| i].
    + simpl in Ha. inversion Ha; subst. apply (Hhead j b Hb).
    + apply (IH i j a b Htail); [lia | exact Ha | exact Hb].
Qed.

Lemma in_days_true (s e : Z) (img : EE.Image) :
  in_days s e img = true ->
  exists t, EE.time_start img = Some t
            /\ s * EE.ms_per_day <= t < e * EE.ms_per_day.
Proof.
  unfold in_days. destruct (EE.time_start img) as [t |]; [| discriminate].
  rewrite andb_true_iff, Z.leb_le, Z.ltb_lt. eauto.
Qed.

(** X3. With strictly increasing start dates no image is in the collections of
    two weeks: an observation is counted in one week at most. *)
Theorem windows_disjoint (weeks_df : list WeekRecord) (loaded : Loaded)
    (AOI : EE.FeatureCollection) (col : EE.ImageCollection)
    (i j : nat) (ci cj : EE.ImageCollection) (img : EE.Image) :
  data_loading weeks_df = Ok loaded ->
  dates_in_range weeks_df ->
  strictly_increasing (map fecha_ini weeks_df) = true ->
  (i < j)%nat ->
  week_collection AOI col loaded i = Ok ci ->
  week_collection AOI col loaded j = Ok cj ->
  In img ci -> ~ In img cj.
Proof.
  intros Hl Hr Hinc Hij Hci Hcj Hi Hj.
  destruct (data_loading_windows _ Hl) as (_ & _ & _ & _ & _ & Hs & _).
  assert (Hlen : forall k c, week_collection AOI col loaded k = Ok c ->
                   exists w, nth_error weeks_df k = Some w).
  { intros k c Hc. unfold week_collection, Py.getitem in Hc. rewrite Hs in Hc.
    rewrite nth_error_map in Hc.
    destruct (nth_error weeks_df k) as [w |]; [eauto | discriminate]. }
  destruct (Hlen _ _ Hci) as (wi & Hwi). destruct (Hlen _ _ Hcj) as (wj & Hwj).
  destruct (@week_collection_days weeks_df loaded AOI col i wi Hl Hr Hwi)
    as (ei & Hei & Ei).
  destruct (@week_collection_days weeks_df loaded AOI col j wj Hl Hr Hwj)
    as (ej & Hej & Ej).
  rewrite Ei in Hci. rewrite Ej in Hcj.
  inversion Hci; subst ci. inversion Hcj; subst cj.
  apply filter_In in Hi. apply filter_In in Hj.
  destruct Hi as (_ & Hi). destruct Hj as (_ & Hj).
  apply in_days_true in Hi. apply in_days_true in Hj.
  destruct Hi as (t & Ht & Hti). destruct Hj as (t' & Ht' & Htj).
  rewrite Ht in Ht'. inversion Ht'; subst t'.
  assert (Hnext : ei <= fecha_ini wj).
  { unfold window_end in Hei.
    destruct (nth_error (map fecha_ini weeks_df) (S i)) as [next |] eqn:Hn.
    - inversion Hei; subst ei.
      destruct (Nat.eq_dec (S i) j) as [<- | Hne].
      + rewrite (map_nth_error fecha_ini _ _ Hwj) in Hn. inversion Hn. lia.
      + assert (next < fecha_ini wj); [| lia].
        apply (@increasing_nth (map fecha_ini weeks_df) (S i) j); auto; [lia |].
        now apply map_nth_error.
    - apply nth_error_None in Hn. rewrite length_map in Hn.
      assert (j < List.length weeks_df)%nat by (apply nth_error_Some; congruence).
      lia. }
  unfold EE.ms_per_day in *. nia.
Qed.

Lemma windows_disjoint_witness :
  ~ In (Sample.rain 19723 2%Q) [Sample.rain 19738 4%Q].
Proof.
  apply (@windows_disjoint Sample.jan_2024 Sample.loaded_jan_2024 Sample.AOI
           Sample.chirps 0 2
           [Sample.rain 19723 2%Q; Sample.rain 19725 (5 # 2)%Q]
           [Sample.rain 19738 4%Q]).
  - reflexivity.
  - unfold dates_in_range, first_day, last_day.
    repeat constructor; simpl; lia.
  - reflexivity.
  - lia.
  - reflexivity.
  - reflexivity.
  - left; reflexivity.
Defined.

Lemma some_window_holds (l : list Z) (first last_start t : Z) :
  nth_error l 0 = Some first ->
  Py.getitem_last l = Ok last_start ->
  first * EE.ms_per_day <= t < (last_start + 7) * EE.ms_per_day ->
  exists i s e,
    nth_error l i = Some s /\ window_end l i = Some e
    /\ s * EE.ms_per_day <= t < e * EE.ms_per_day.
Proof.
  revert first. induction l as [| a l IH]; intros first Hf Hlast Ht;
    [discriminate |].
  simpl in Hf. inversion Hf; subst a; clear Hf.
  destruct l as [| b l].
  - simpl in Hlast. inversion Hlast; subst last_start.
    exists 0%nat, first, (first + 7).
    split; [reflexivity | split; [reflexivity | exact Ht]].
  - destruct (Z_lt_le_dec t (b * EE.ms_per_day)) as [Hlt | Hge].
    + exists 0%nat, first, b. split; [reflexivity | split; [reflexivity | lia]].
    + destruct (IH b eq_refl) as (i & s & e & Hs & He & Hse).
      * unfold Py.getitem_last in Hlast |- *. rewrite last_cons in Hlast.
        exact Hlast.
      * lia.
      * exists (S i), s, e. split; [exact Hs | split; [| exact Hse]].
        unfold window_end in *. exact He.
Qed.

(** X4. Every image of the study area dated from the first start day on and
    before seven days after the last start day is in the collection of some
    week, whatever the order of the start dates: no observation of the
    period is left out. *)
Theorem windows_cover (weeks_df : list WeekRecord) (loaded : Loaded)
    (AOI : EE.FeatureCollection) (col : EE.ImageCollection)
    (first last_start : WeekRecord) (img : EE.Image) (t : Z) :
  data_loading weeks_df = Ok loaded ->
  dates_in_range weeks_df ->
  nth_error weeks_df 0 = Some first ->
  nth_error weeks_df (List.length weeks_df - 1) = Some last_start ->
  In img (EE.filterBounds AOI col) ->
  EE.time_start img = Some t ->
  fecha_ini first * EE.ms_per_day <= t
    < (fecha_ini last_start + 7) * EE.ms_per_day ->
  exists i c, week_collection AOI col loaded i = Ok c /\ In img c.
Proof.
  intros Hl Hr Hf Hlast Himg Ht Hrange.
  assert (H0 : nth_error (map fecha_ini weeks_df) 0 = Some (fecha_ini first))
    by (now apply map_nth_error).
  assert (H1 : Py.getitem_last (map fecha_ini weeks_df)
               = Ok (fecha_ini last_start)).
  { destruct (@getitem_last_ok _ (map fecha_ini weeks_df)) as (x & Hx).
    { destruct weeks_df; [discriminate Hf | discriminate]. }
    pose proof (getitem_last_nth _ Hx) as Hn.
    rewrite length_map, (map_nth_error fecha_ini _ _ Hlast) in Hn.
    inversion Hn; subst x. exact Hx. }
  destruct (some_window_holds _ H0 H1 Hrange) as (i & s & e & Hs & He & Hse).
  - rewrite nth_error_map in Hs.
    destruct (nth_error weeks_df i) as [w |] eqn:Hw; [| discriminate].
    simpl in Hs. inversion Hs; subst s.
    destruct (@week_collection_days weeks_df loaded AOI col i w Hl Hr Hw)
      as (e' & He' & Hc).
    rewrite He in He'. inversion He'; subst e'.
    exists i. eexists. split; [exact Hc |].
    apply filter_In. split; [exact Himg |].
    unfold in_days. rewrite Ht.
    apply andb_true_iff. rewrite Z.leb_le, Z.ltb_lt. exact Hse.
Qed.

Lemma windows_cover_witness :
  exists i c,
    week_collection Sample.AOI Sample.chirps Sample.loaded_jan_2024 i = Ok c
    /\ In (Sample.rain 19738 4%Q) c.
Proof.
  apply (@windows_cover Sample.jan_2024 Sample.loaded_jan_2024 Sample.AOI
           Sample.chirps
           {| year := 2024; se := 1; fecha_ini := 19723 |}
           {| year := 2024; se := 3; fecha_ini := 19737 |}
           (Sample.rain 19738 4%Q) (19738 * EE.ms_per_day)).
  - reflexivity.
  - unfold dates_in_range, first_day, last_day.
    repeat constructor; simpl; lia.
  - reflexivity.
  - reflexivity.
  - simpl. auto.
  - reflexivity.
  - unfold EE.ms_per_day; simpl; lia.
Defined.

(** ** The dictionary of reducers and the results of the loop *)

Lemma get_None {V : Type} (key : string) (d : list (string * V)) :
  ~ In key (map fst d) -> EE.get key d = None.
Proof.
  induction d as [| [k v] d IH]; simpl; [reflexivity |].
  intros H. destruct (String.eqb k key) eqn:E.
  - apply String.eqb_eq in E. tauto.
  - apply IH. tauto.
Qed.

(** X5. [zonal_stats] returns a table for the nine names of [STATISTICS] and
    raises [KeyError] for every other name, whatever the image and the
    features. *)
Theorem zonal_stats_key_error (image : EE.Image) (features : EE.FeatureCollection)
    (statistic : string) (scale : Z) :
  (In statistic STATISTICS ->
   exists zs, zonal_stats image features statistic scale = Ok zs)
  /\ (~ In statistic STATISTICS ->
      zonal_stats image features statistic scale = Raise KeyError).
Proof.
  unfold zonal_stats. split.
  - intros H. destruct (reducers_defined H) as (r & ->). cbn [bind]. eauto.
  - intros H. rewrite get_None; [reflexivity |].
    intros Hin. apply H. unfold STATISTICS. simpl in Hin |- *. tauto.
Qed.

Lemma combine_filter_fst {C : Type} (keep : string -> bool)
    (columns : list string) (r : list C) :
  List.length r = List.length columns ->
  List.length (filter (fun cv => keep (fst cv)) (combine columns r))
  = List.length (filter keep columns).
Proof.
  revert r; induction columns as [| c columns IH]; intros r H; [reflexivity |].
  destruct r as [| x r]; [discriminate |]. simpl in *.
  destruct (keep c); simpl; rewrite IH by lia; reflexivity.
Qed.

Lemma filter_keep_In (labels : list string) (columns : list string) (c : string) :
  In c (filter (Geo.keep labels) columns) -> ~ In c labels.
Proof.
  intros H Hc. apply filter_In in H. destruct H as (_ & H).
  unfold Geo.keep in H. apply negb_true_iff in H.
  apply existsb_eqb_In in Hc. congruence.
Qed.

(** X7. Each table the loop appends has one row for each polygon of the study
    area, in every row one cell for each column, and neither the geometry
    column nor the [gid] column. *)
Theorem stat_frame_rows (AOI : EE.FeatureCollection) (image : EE.Image)
    (stat : string) (zs : Geo.GeoDataFrame) :
  stat_frame AOI image stat = Ok zs ->
  List.length (Geo.rows zs) = List.length AOI
  /\ Forall (fun r => List.length r = List.length (Geo.columns zs)) (Geo.rows zs)
  /\ ~ In "geometry"%string (Geo.columns zs)
  /\ ~ In "gid"%string (Geo.columns zs).
Proof.
  unfold stat_frame, zonal_stats. intros H.
  inv_bind H. inv_bind Hx. inversion Hx; subst x; clear Hx.
  unfold Geo.drop in H.
  destruct (forallb _ _); [| discriminate]. inversion H; subst zs; clear H.
  cbn [Geo.rows Geo.columns Geo.from_features].
  split; [| split; [| split]].
  - rewrite !length_map. unfold EE.reduceRegions. now rewrite length_map.
  - apply Forall_map. apply Forall_map. apply Forall_forall. intros f _.
    unfold Geo.drop_cells. rewrite length_map.
    apply combine_filter_fst. now rewrite length_map.
  - intros Hc. apply filter_keep_In in Hc. apply Hc. now left.
  - intros Hc. apply filter_keep_In in Hc. apply Hc. right; now left.
Qed.

Lemma stat_frame_rows_witness :
  exists zs,
    stat_frame Sample.AOI (zero_image Sample.AOI) "SUM" = Ok zs
    /\ List.length (Geo.rows zs) = 2%nat.
Proof.
  eexists. split; [reflexivity |].
  apply (@stat_frame_rows Sample.AOI (zero_image Sample.AOI) "SUM").
  reflexivity.
Defined.

(** ** A study area without [gid] *)

Lemma set_keys {V : Type} (key k : string) (v : V) (d : list (string * V)) :
  In k (map fst (EE.set key v d)) -> In k (map fst d) \/ k = key.
Proof.
  induction d as [| [k0 w] d IH]; simpl.
  - intros [<- | []]. now right.
  - destruct (String.eqb k0 key); simpl; tauto.
Qed.

Lemma set_result_keys (name k : string) (v : option Q) (f : EE.Feature) :
  has_property k (EE.set_result name v f) -> has_property k f \/ k = name.
Proof.
  unfold has_property, EE.set_result. destruct v; simpl; [apply set_keys | tauto].
Qed.

Lemma output_name_not_gid (r : EE.Reducer) : EE.output_name r <> "gid"%string.
Proof.
  destruct r; discriminate.
Qed.

(** On an image of one band, over a study area none of whose polygons has
    the property [gid], the [drop] of the loop raises [KeyError]: no table
    is appended. *)
Lemma missing_gid_raises_KeyError (AOI : EE.FeatureCollection)
    (image : EE.Image) (name : string) (r : EE.raster) (stat : string) :
  AOI <> [] ->
  (forall f, In f AOI -> ~ has_property "gid" f) ->
  EE.bands image = [(name, r)] ->
  In stat STATISTICS ->
  stat_frame AOI image stat = Raise KeyError.
Proof.
  intros Hne Hgid Hband Hstat. unfold stat_frame, zonal_stats.
  destruct (reducers_defined Hstat) as (red & ->). cbn [bind].
  unfold Geo.drop.
  assert (Hno : Geo.has_column
                  (Geo.from_features (EE.reduceRegions image AOI red SCALE))
                  "gid" = false).
  { apply not_true_is_false. intros Hc.
    apply from_features_column in Hc. destruct Hc as (f' & Hin & Hkey).
    unfold EE.reduceRegions in Hin. rewrite Hband in Hin.
    apply in_map_iff in Hin. destruct Hin as (f & <- & Hf).
    destruct Hkey as [Hkey | Hkey]; [discriminate |].
    apply set_result_keys in Hkey. destruct Hkey as [Hkey | Hkey].
    - exact (Hgid f Hf Hkey).
    - symmetry in Hkey. exact (output_name_not_gid red Hkey). }
  cbn [forallb]. rewrite Hno, andb_false_r. reflexivity.
Qed.

Lemma filterDate_incl (start end_ : string) (col c : EE.ImageCollection) :
  EE.filterDate start end_ col = Ok c -> incl c col.
Proof.
  unfold EE.filterDate. intros H. inv_bind H. inv_bind H.
  inversion H; subst c. intros y Hy. apply filter_In in Hy. tauto.
Qed.

Lemma chirps_weekly_image_one_band (AOI : EE.FeatureCollection)
    (chirps : EE.ImageCollection) (start end_ : string) (image : EE.Image) :
  Forall (fun img => map fst (EE.bands img) = ["precipitation"%string]) chirps ->
  Chirps.weekly_image AOI chirps start end_ = Ok image ->
  exists n r, EE.bands image = [(n, r)].
Proof.
  intros Hb H. unfold Chirps.weekly_image in H. inv_bind H.
  pose proof (filterDate_incl _ _ _ Hx) as Hincl.
  destruct x as [| first rest]; simpl in H; inversion H; subst image; clear H.
  - simpl. eauto.
  - assert (Hf : In first chirps).
    { assert (Hin : In first (EE.filterBounds AOI chirps))
        by (apply Hincl; now left).
      unfold EE.filterBounds in Hin. apply filter_In in Hin. tauto. }
    rewrite Forall_forall in Hb. specialize (Hb first Hf).
    unfold EE.clip, EE.collection_sum, EE.reduce. cbn [EE.bands].
    destruct (EE.bands first) as [| [n r] [| b bs]]; try discriminate.
    simpl. eauto.
Qed.

Lemma mask_then_convert_one_band (sv : SubVariable) (img out : EE.Image) :
  mask_then_convert sv img = Ok out -> exists n r, EE.bands out = [(n, r)].
Proof.
  intros H.
  destruct (EE.get (lst_band sv) (EE.bands img)) as [r |] eqn:Hr.
  - destruct (EE.get (qc_band sv) (EE.bands img)) as [q |] eqn:Hq.
    + destruct (mask_then_convert_bands sv img Hr Hq) as (o & ras & Ho & Hb & _).
      rewrite Ho in H. inversion H; subst o. eauto.
    + rewrite mask_then_convert_fails in H by auto. discriminate.
  - rewrite mask_then_convert_fails in H by auto. discriminate.
Qed.

Lemma modis_weekly_image_one_band (sv : SubVariable) (AOI : EE.FeatureCollection)
    (c col : EE.ImageCollection) :
  mapM (mask_then_convert sv) c = Ok col ->
  exists n r, EE.bands (Modis.weekly_image AOI col) = [(n, r)].
Proof.
  intros H. unfold Modis.weekly_image.
  destruct col as [| first rest]; simpl; [eauto |].
  assert (Hone : exists n r, EE.bands first = [(n, r)]).
  { pose proof (@mapM_all _ _ (fun out => exists n r, EE.bands out = [(n, r)])
                  (mask_then_convert sv) c (first :: rest)
                  (mask_then_convert_one_band sv) H) as Hall.
    now inversion Hall. }
  destruct Hone as (n & r & ->). simpl. eauto.
Qed.

Lemma range_S (n : nat) : Py.range (S n) = 0%nat :: seq 1 n.
Proof. reflexivity. Qed.

(** DATA LOADING returns on a table that has a row and whose dates, seven
    days on, are dates a timestamp holds. *)
Lemma data_loading_in_range (weeks_df : list WeekRecord) :
  weeks_df <> [] -> dates_in_range weeks_df ->
  exists loaded, data_loading weeks_df = Ok loaded.
Proof.
  intros Hne Hr.
  destruct (last_row Hne) as (w & Hw & _).
  pose proof (@in_range_tight _ _ _ Hr Hw) as Hb.
  rewrite (data_loading_last _ Hw).
  unfold first_day, last_day in Hb. unfold Pandas.min_day, Pandas.max_day.
  destruct (Z.leb_spec (-106751) (fecha_ini w + 7)); [| lia].
  destruct (Z.leb_spec (fecha_ini w + 7) 106751); [| lia].
  cbn [andb]. eauto.
Qed.

(** X8. Over a study area none of whose polygons has the property [gid], both
    scripts raise [KeyError] in the first pass of the loop and write no
    table, whatever the catalog holds, for every week table that has a row
    and whose dates are strictly increasing and, seven days on, still dates
    a timestamp holds. *)
Theorem scripts_need_gid (str : Geo.GeoDataFrame -> string)
    (weeks_df : list WeekRecord) (AOI : EE.FeatureCollection)
    (catalog : EE.ImageCollection) :
  weeks_df <> [] ->
  dates_in_range weeks_df ->
  strictly_increasing (map fecha_ini weeks_df) = true ->
  AOI <> [] ->
  (forall f, In f AOI -> ~ has_property "gid" f) ->
  (forall chirps, Chirps.chirps_daily catalog = Ok chirps ->
     Chirps.script str weeks_df AOI catalog = Raise KeyError)
  /\ (forall modis_day modis_night,
        Modis.MODIS_DAY catalog = Ok modis_day ->
        Modis.MODIS_NIGHT catalog = Ok modis_night ->
        Modis.script str weeks_df AOI catalog = Raise KeyError).
Proof.
  intros Hw Hdates_ok _ Hne Hgid.
  destruct (data_loading_in_range Hw Hdates_ok) as (loaded & Hl).
  destruct (@loaded_dates weeks_df loaded Hl) as (HN & Hdates).
  assert (Hpos : (0 < List.length weeks_df)%nat)
    by (destruct weeks_df; [congruence | simpl; lia]).
  destruct (Hdates 0%nat Hpos) as (ds & de & Hs & He).
  assert (Hrange : Py.range (List.length (weeks loaded))
                   = 0%nat :: seq 1 (List.length weeks_df - 1)).
  { rewrite HN. destruct (List.length weeks_df); [lia |].
    rewrite range_S. f_equal. f_equal. lia. }
  assert (Hcount : In "COUNT"%string STATISTICS) by (now left).
  split.
  - intros chirps Hc. unfold Chirps.script. rewrite Hl, Hc; cbn [bind].
    rewrite chirps_processing_loop, Hrange. cbn [mapM].
    assert (Hweek : chirps_week_frames AOI chirps loaded 0 = Raise KeyError).
    { unfold chirps_week_frames. rewrite Hs, He; cbn [bind].
      destruct (Chirps.weekly_image AOI chirps (Pandas.strftime ds)
                  (Pandas.strftime de)) as [image |] eqn:Hi.
      2: { unfold Chirps.weekly_image in Hi.
           destruct (filterDate_ok ds de (EE.filterBounds AOI chirps))
             as (c & Hfd & _).
           rewrite Hfd in Hi. cbn [bind] in Hi.
           destruct (EE.size c =? 0)%nat; discriminate. }
      cbn [bind].
      destruct (@chirps_weekly_image_one_band AOI chirps _ _ image
                  (@select_all_names _ _ _ Hc) Hi) as (n & r & Hb).
      unfold STATISTICS. cbn [mapM].
      now rewrite (@missing_gid_raises_KeyError AOI image n r _ Hne Hgid Hb Hcount). }
    now rewrite Hweek.
  - intros modis_day modis_night Hd Hn. unfold Modis.script.
    rewrite Hl, Hd, Hn; cbn [bind].
    rewrite modis_processing_loop, Hrange. cbn [mapM].
    assert (Hweek : modis_week_frames AOI modis_day modis_night loaded 0
                    = Raise KeyError).
    { unfold modis_week_frames. rewrite Hs, He; cbn [bind].
      rewrite day_col_fused, night_col_fused.
      destruct (@week_col_ok DAY AOI modis_day ds de (@select_all_names _ _ _ Hd))
        as (dc & Hdc).
      destruct (@week_col_ok NIGHT AOI modis_night ds de (@select_all_names _ _ _ Hn))
        as (nc & Hnc).
      rewrite Hdc, Hnc; cbn [bind].
      assert (Hdc' : exists c, mapM (mask_then_convert DAY) c = Ok dc).
      { destruct (EE.filterDate _ _ (EE.filterBounds AOI modis_day));
          [eauto | discriminate]. }
      destruct Hdc' as (c & Hc).
      destruct (@modis_weekly_image_one_band DAY AOI c dc Hc) as (n & r & Hb).
      pose proof (@missing_gid_raises_KeyError AOI _ n r _ Hne Hgid Hb Hcount) as Hraise.
      unfold STATISTICS. cbn [mapM]. unfold stat_frames2.
      unfold stat_frame in Hraise.
      unfold zonal_stats in Hraise |- *.
      destruct (reducers_defined Hcount) as (red & Hred).
      rewrite Hred in Hraise |- *. cbn [bind] in Hraise |- *.
      now rewrite Hraise. }
    now rewrite Hweek.
Qed.

Lemma scripts_need_gid_witness :
  Chirps.script Sample.show Sample.jan_2024
    [ {| EE.geometry := [(0, 0)]; EE.properties := [("name"%string, 7%Q)] |} ]
    Sample.chirps = Raise KeyError.
Proof.
  refine (proj1 (@scripts_need_gid Sample.show Sample.jan_2024
                   [ {| EE.geometry := [(0, 0)];
                        EE.properties := [("name"%string, 7%Q)] |} ]
                   Sample.chirps _ _ _ _ _) Sample.chirps _).
  - discriminate.
  - unfold dates_in_range, Sample.jan_2024, first_day, last_day.
    repeat constructor; simpl; lia.
  - reflexivity.
  - discriminate.
  - intros f [<- | []] [H | []]. discriminate H.
  - reflexivity.
Defined.

(** ** What the mask and the weekly sum do to a pixel *)

(** X9. The quality mask keeps the bands and the properties of an observation,
    and at every pixel of every band it either leaves the value as it is or
    masks it: it never changes a value and never unmasks a pixel. *)
Theorem mask_only_removes (sv : SubVariable) (img masked : EE.Image) :
  mask sv img = Ok masked ->
  map fst (EE.bands masked) = map fst (EE.bands img)
  /\ EE.time_start masked = EE.time_start img
  /\ EE.footprint masked = EE.footprint img
  /\ forall name p v,
       EE.value_at name masked p = Some v -> EE.value_at name img p = Some v.
Proof.
  intros H.
  destruct (EE.get (qc_band sv) (EE.bands img)) as [q |] eqn:Hq.
  2: { rewrite (mask_fails sv img Hq) in H. discriminate. }
  destruct (mask_spec sv img Hq) as (m & Hm & _).
  rewrite Hm in H. inversion H; subst masked; clear H. cbn [EE.bands EE.time_start EE.footprint].
  split; [| split; [reflexivity | split; [reflexivity |]]].
  - rewrite map_map. apply map_ext. reflexivity.
  - intros name p v. unfold EE.value_at. cbn [EE.bands].
    rewrite (get_map_snd (fun r0 => EE.mask_raster r0 m)).
    destruct (EE.get name (EE.bands img)) as [r |]; simpl; [| discriminate].
    unfold EE.mask_raster. destruct (r p); [| discriminate].
    destruct (m p) as [w |]; [| discriminate].
    destruct (EE.nonzero w); [auto | discriminate].
Qed.

Lemma mask_only_removes_witness :
  exists masked,
    mask DAY (Sample.lst_image 19724 15100 4) = Ok masked
    /\ map fst (EE.bands masked)
       = ["LST_Day_1km"; "QC_Day"; "LST_Night_1km"; "QC_Night"]%string
    /\ (forall name p v,
          EE.value_at name masked p = Some v ->
          EE.value_at name (Sample.lst_image 19724 15100 4) p = Some v).
Proof.
  eexists. split; [reflexivity |].
  refine (let H := @mask_only_removes DAY (Sample.lst_image 19724 15100 4) _ eq_refl in _).
  destruct H as (H1 & _ & _ & H4). split; [exact H1 | exact H4].
Defined.

(** X10. The image of a week of rain: at a pixel of the study area where some
    daily image of the window has a value, the sum of the values the daily
    images have there; masked outside the study area and where no daily
    image has a value. *)
Theorem weekly_precipitation_is_sum (AOI : EE.FeatureCollection)
    (chirps c : EE.ImageCollection) (start end_ : string) (p : EE.pixel) :
  Forall (fun img => map fst (EE.bands img) = ["precipitation"%string]) chirps ->
  EE.filterDate start end_ (EE.filterBounds AOI chirps) = Ok c ->
  c <> [] ->
  exists image,
    Chirps.weekly_image AOI chirps start end_ = Ok image
    /\ match EE.value_at "precipitation" image p with
       | Some v =>
           EE.inside AOI p = true
           /\ EE.samples_at "precipitation" p c <> []
           /\ (v == EE.Qsum (EE.samples_at "precipitation" p c))%Q
       | None =>
           EE.inside AOI p = false \/ EE.samples_at "precipitation" p c = []
       end.
Proof.
  intros Hb Hc Hne. unfold Chirps.weekly_image. rewrite Hc; cbn [bind].
  destruct c as [| first rest]; [congruence |]. cbn [EE.size List.length Nat.eqb].
  eexists; split; [reflexivity |].
  assert (Hf : In first chirps).
  { assert (Hin : In first (EE.filterBounds AOI chirps))
      by (apply (filterDate_incl _ _ _ Hc); now left).
    unfold EE.filterBounds in Hin. apply filter_In in Hin. tauto. }
  rewrite Forall_forall in Hb. specialize (Hb first Hf).
  assert (Hin : In "precipitation"%string (map fst (EE.bands first)))
    by (rewrite Hb; now left).
  destruct (get_In _ _ Hin) as (r & Hr).
  unfold EE.value_at, EE.clip, EE.collection_sum, EE.reduce. cbn [EE.bands].
  rewrite (get_map_snd (fun (r0 : EE.raster) (q : EE.pixel) =>
                          if EE.inside AOI q then r0 q else None)).
  rewrite (get_map_key
             (fun n q => match EE.samples_at n q (first :: rest) with
                         | [] => None
                         | vs => EE.run EE.sum vs
                         end)).
  rewrite Hr. cbn [option_map].
  destruct (EE.inside AOI p); [| now left].
  destruct (EE.samples_at "precipitation" p (first :: rest)) as [| v vs] eqn:Hs;
    [now right |].
  unfold EE.run. cbv beta iota delta [option_map].
  split; [reflexivity | split; [discriminate | apply Qred_correct]].
Qed.

Lemma weekly_precipitation_is_sum_witness :
  exists image,
    Chirps.weekly_image Sample.AOI Sample.chirps "2024-01-01" "2024-01-08" = Ok image
    /\ match EE.value_at "precipitation" image (0, 1) with
       | Some v =>
           EE.inside Sample.AOI (0, 1) = true
           /\ EE.samples_at "precipitation" (0, 1)
                [Sample.rain 19723 2%Q; Sample.rain 19725 (5 # 2)%Q] <> []
           /\ Qeq v (EE.Qsum (EE.samples_at "precipitation" (0, 1)
                                 [Sample.rain 19723 2%Q; Sample.rain 19725 (5 # 2)%Q]))
       | None =>
           EE.inside Sample.AOI (0, 1) = false
           \/ EE.samples_at "precipitation" (0, 1)
                [Sample.rain 19723 2%Q; Sample.rain 19725 (5 # 2)%Q] = []
       end.
Proof.
  apply (@weekly_precipitation_is_sum Sample.AOI Sample.chirps
           [Sample.rain 19723 2%Q; Sample.rain 19725 (5 # 2)%Q]
           "2024-01-01" "2024-01-08" (0, 1)).
  - repeat constructor.
  - reflexivity.
  - discriminate.
Defined.

(** ** A week whose observations are all flagged *)

Lemma mapM_In {A B : Type} (f : A -> res B) (l : list A) (l' : list B) (y : B) :
  mapM f l = Ok l' -> In y l' -> exists x, In x l /\ f x = Ok y.
Proof.
  revert l'; induction l as [| a l IH]; simpl; intros l' H Hy.
  - inversion H; subst. destruct Hy.
  - inv_bind H. inv_bind H. inversion H; subst; clear H.
    destruct Hy as [<- | Hy]; [eauto |].
    destruct (IH _ Hx0 Hy) as (z & Hz & Hfz). eauto.
Qed.

Lemma flat_map_nil {A B : Type} (f : A -> list B) (l : list A) :
  (forall x, In x l -> f x = []) -> flat_map f l = [].
Proof.
  induction l as [| a l IH]; simpl; intros H; [reflexivity |].
  rewrite (H a) by (now left). apply IH. intros; apply H; now right.
Qed.

Lemma get_combine_map_inv {V : Type} (g : string -> V) (key : string)
    (l : list string) (v : V) :
  EE.get key (combine l (map g l)) = Some v -> v = g key.
Proof.
  induction l as [| a l IH]; simpl; [discriminate |].
  destruct (String.eqb a key) eqn:E; [| exact IH].
  apply String.eqb_eq in E. subst a. congruence.
Qed.

(** The cell of a polygon, for an image of one band. *)
Lemma zonal_cell_one_band (image : EE.Image) (AOI : EE.FeatureCollection)
    (stat : string) (red : EE.Reducer) (i : nat) (f : EE.Feature)
    (n : string) (r : EE.raster) (q : Q) :
  EE.bands image = [(n, r)] ->
  EE.get stat reducers = Some red ->
  nth_error AOI i = Some f ->
  EE.run red (EE.samples_over r (EE.geometry f)) = Some q ->
  zonal_cell image AOI stat i = Ok (Some (Geo.Num q)).
Proof.
  intros Hb Hr Hi Hq. unfold zonal_cell, zonal_stats. rewrite Hr; cbn [bind].
  f_equal.
  apply at_from_features with
    (f := EE.set_result (EE.output_name red) (Some q) f).
  - unfold EE.reduceRegions. rewrite Hb.
    rewrite (map_nth_error _ _ _ Hi). now rewrite Hq.
  - unfold EE.set_result; cbn [EE.properties]. apply get_set_same.
Qed.

(** A pixel whose quality value is flagged in every observation of the
    week has no sample in the masked and converted collection. *)
Lemma flagged_pixel_no_sample (sv : SubVariable) (c col : EE.ImageCollection)
    (p : EE.pixel) :
  mapM (mask_then_convert sv) c = Ok col ->
  (forall img, In img c ->
     exists qc, EE.value_at (qc_band sv) img p = Some (inject_Z qc)
                /\ (Z.testbit qc 2 = true \/ Z.testbit qc 3 = true)) ->
  EE.samples_at (lst_band sv) p col = [].
Proof.
  intros Hcol Hflag. unfold EE.samples_at. apply flat_map_nil. intros out Hout.
  destruct (@mapM_In _ _ _ _ _ _ Hcol Hout) as (img & Himg & Hmc).
  destruct (Hflag img Himg) as (qc & Hqc & Hbits).
  destruct (@value_at_get _ _ _ _ Hqc) as (q & Hq & Hqp).
  destruct (EE.get (lst_band sv) (EE.bands img)) as [r |] eqn:Hr.
  2: { rewrite mask_then_convert_fails in Hmc by auto. discriminate. }
  destruct (@mask_then_convert_value sv img _ _ Hr Hq) as (out' & Hout' & _ & _ & _ & Hv).
  rewrite Hout' in Hmc. inversion Hmc; subst out'; clear Hmc.
  rewrite Hv, Hqp. destruct (r p); [| reflexivity].
  rewrite mask_value_bits.
  destruct Hbits as [-> | ->]; [reflexivity | now rewrite orb_true_r].
Qed.

(** X11. When every observation of the week is flagged on every cell of a
    polygon, the week is not taken for an empty one: its image is the
    median image, with no valid pixel on the polygon.  The polygon then gets
    COUNT = 0 and SUM = 0, and no mean at all (the cell is missing, or NaN),
    where a week without observations gets COUNT = the number of cells and
    MEAN = 0. *)
Theorem flagged_week_has_no_samples (sv : SubVariable) (AOI : EE.FeatureCollection)
    (c : EE.ImageCollection) (i : nat) (f : EE.Feature) :
  c <> [] ->
  nth_error AOI i = Some f ->
  (forall img, In img c -> In (lst_band sv) (map fst (EE.bands img))) ->
  (forall img p, In img c -> In p (EE.geometry f) ->
     exists qc, EE.value_at (qc_band sv) img p = Some (inject_Z qc)
                /\ (Z.testbit qc 2 = true \/ Z.testbit qc 3 = true)) ->
  (forall img, In img c -> In (qc_band sv) (map fst (EE.bands img))) ->
  exists col,
    mapM (mask_then_convert sv) c = Ok col
    /\ col <> []
    /\ zonal_cell (Modis.weekly_image AOI col) AOI "COUNT" i = Ok (Some (Geo.Num 0))
    /\ zonal_cell (Modis.weekly_image AOI col) AOI "SUM" i = Ok (Some (Geo.Num 0))
    /\ (~ has_property "mean" f ->
        zonal_cell (Modis.weekly_image AOI col) AOI "MEAN" i = Ok None
        \/ zonal_cell (Modis.weekly_image AOI col) AOI "MEAN" i = Ok (Some Geo.NaN)).
Proof.
  intros Hne Hi Hlst Hflag Hqc.
  destruct (@mapM_ok _ _ (mask_then_convert sv) c) as (col & Hcol).
  { intros img Himg. apply observation_ok; auto. }
  exists col. split; [exact Hcol |].
  assert (Hcne : col <> []).
  { apply mapM_length in Hcol. destruct col; [| discriminate].
    destruct c; [congruence | discriminate]. }
  split; [exact Hcne |].
  destruct col as [| first rest]; [congruence |].
  assert (Hfirst : exists ras, EE.bands first = [(lst_band sv, ras)]).
  { destruct (@mapM_In _ _ _ _ _ first Hcol (or_introl eq_refl)) as (img & Himg & Hmc).
    destruct (@get_In _ _ _ (Hlst img Himg)) as (r & Hr).
    destruct (@get_In _ _ _ (Hqc img Himg)) as (q & Hq).
    destruct (@mask_then_convert_bands sv img _ _ Hr Hq) as (o & ras & Ho & Hb & _).
    rewrite Ho in Hmc. inversion Hmc; subst o. eauto. }
  destruct Hfirst as (ras & Hras).
  set (weekly := fun p : EE.pixel =>
         if EE.inside AOI p
         then match EE.samples_at (lst_band sv) p (first :: rest) with
              | [] => None
              | vs => EE.run EE.median vs
              end
         else None).
  assert (Hb : EE.bands (Modis.weekly_image AOI (first :: rest))
               = [(lst_band sv, weekly)]).
  { unfold Modis.weekly_image, EE.clip, EE.collection_median, EE.reduce.
    cbn [EE.size List.length Nat.eqb EE.bands]. rewrite Hras. reflexivity. }
  assert (Hs : EE.samples_over weekly (EE.geometry f) = []).
  { unfold EE.samples_over. apply flat_map_nil. intros p Hp. unfold weekly.
    rewrite (@flagged_pixel_no_sample sv c (first :: rest) p Hcol)
      by (intros img Himg; apply Hflag; assumption).
    now destruct (EE.inside AOI p). }
  split; [| split].
  - apply (@zonal_cell_one_band _ AOI "COUNT" EE.count i f _ _ 0%Q Hb eq_refl Hi).
    now rewrite Hs.
  - apply (@zonal_cell_one_band _ AOI "SUM" EE.sum i f _ _ 0%Q Hb eq_refl Hi).
    now rewrite Hs.
  - intros Hmean.
    assert (Hi' : nth_error (EE.reduceRegions (Modis.weekly_image AOI (first :: rest))
                               AOI EE.mean SCALE) i = Some f).
    { unfold EE.reduceRegions. rewrite Hb.
      rewrite (map_nth_error _ _ _ Hi). now rewrite Hs. }
    assert (Hz : exists o,
               zonal_cell (Modis.weekly_image AOI (first :: rest)) AOI "MEAN" i = Ok o
               /\ (o = None \/ o = Some Geo.NaN)).
    { unfold zonal_cell, zonal_stats.
      change (EE.get "MEAN" reducers) with (Some EE.mean). cbn [bind].
      eexists; split; [reflexivity |].
      unfold Geo.at_, Geo.from_features; cbn [Geo.rows Geo.columns].
      rewrite (map_nth_error _ _ _ Hi').
      match goal with
      | |- context [EE.get ?k (combine ?l (map ?g ?l))] =>
          destruct (EE.get k (combine l (map g l))) as [v |] eqn:Hv
      end; [right | now left].
      apply get_combine_map_inv in Hv. subst v. unfold Geo.row_cell.
      change (EE.output_name EE.mean) with "mean"%string.
      rewrite (@get_None _ _ _ Hmean). reflexivity. }
    destruct Hz as (o & Ho & [-> | ->]); [now left | now right].
Qed.

Lemma flagged_week_has_no_samples_witness :
  exists col,
    mapM (mask_then_convert DAY)
         [Sample.lst_image 19724 15100 4; Sample.lst_image 19726 15200 8] = Ok col
    /\ col <> []
    /\ zonal_cell (Modis.weekly_image
                     [ {| EE.geometry := [(0, 0)];
                          EE.properties := [("gid"%string, 1%Q)] |} ] col)
                  [ {| EE.geometry := [(0, 0)];
                       EE.properties := [("gid"%string, 1%Q)] |} ] "COUNT" 0
       = Ok (Some (Geo.Num 0)).
Proof.
  destruct (@flagged_week_has_no_samples DAY
              [ {| EE.geometry := [(0, 0)];
                   EE.properties := [("gid"%string, 1%Q)] |} ]
              [Sample.lst_image 19724 15100 4; Sample.lst_image 19726 15200 8]
              0%nat
              {| EE.geometry := [(0, 0)];
                 EE.properties := [("gid"%string, 1%Q)] |})
    as (col & H1 & H2 & H3 & _).
  - discriminate.
  - reflexivity.
  - intros img [<- | [<- | []]]; simpl; auto.
  - intros img p [<- | [<- | []]] [<- | []].
    + exists 4. split; [reflexivity | left; reflexivity].
    + exists 8. split; [reflexivity | right; reflexivity].
  - intros img [<- | [<- | []]]; simpl; auto.
  - exists col. split; [exact H1 | split; [exact H2 | exact H3]].
Defined.

(** ** The table of one statistic *)

Lemma filter_uniq (P : string -> bool) (l seen : list string) :
  filter P (Geo.uniq l seen) = Geo.uniq (filter P l) (filter P seen).
Proof.
  revert seen; induction l as [| x l IH]; intros seen; [reflexivity |].
  cbn [Geo.uniq filter]. destruct (P x) eqn:Px.
  - cbn [Geo.uniq].
    assert (E : existsb (String.eqb x) (filter P seen) = existsb (String.eqb x) seen).
    { induction seen as [| s seen IHs]; [reflexivity |]. cbn [filter existsb].
      destruct (P s) eqn:Ps; cbn [existsb]; rewrite IHs; [reflexivity |].
      destruct (String.eqb x s) eqn:Exs; [| reflexivity].
      apply String.eqb_eq in Exs. congruence. }
    rewrite E. destruct (existsb (String.eqb x) seen); [apply IH |].
    cbn [filter]. rewrite Px. f_equal. rewrite IH. cbn [filter]. now rewrite Px.
  - destruct (existsb (String.eqb x) seen); [apply IH |].
    cbn [filter]. rewrite Px. rewrite IH. cbn [filter]. now rewrite Px.
Qed.

Lemma uniq_repeat (x : string) (l : list string) :
  Forall (eq x) l ->
  Geo.uniq l [] = match l with [] => [] | _ => [x] end
  /\ Geo.uniq l [x] = [].
Proof.
  induction 1 as [| y l <- _ IH]; [split; reflexivity |].
  destruct IH as (_ & IH). cbn [Geo.uniq existsb]. rewrite String.eqb_refl.
  cbn [orb]. now rewrite IH.
Qed.

Lemma drop_cells_map (labels columns : list string) (g : string -> Geo.cell) :
  Geo.drop_cells labels columns (map g columns)
  = map g (filter (Geo.keep labels) columns).
Proof.
  unfold Geo.drop_cells.
  induction columns as [| c columns IH]; [reflexivity |].
  cbn [map combine filter fst]. destruct (Geo.keep labels c); cbn [map snd]; now rewrite IH.
Qed.

(** X12. The table of a statistic, over a study area whose polygons carry the
    property [gid] alone and for an image of one band.  When the statistic
    has a value on some polygon, the table is one column, named as the
    reducer names its output, with one row for each polygon in the order of
    the study area: the value of the polygon, or NaN where it has none.
    When no polygon has a value the table has its rows but no column. *)
Theorem stat_frame_layout (AOI : EE.FeatureCollection) (image : EE.Image)
    (n : string) (r : EE.raster) (stat : string) (red : EE.Reducer) :
  EE.bands image = [(n, r)] ->
  EE.get stat reducers = Some red ->
  AOI <> [] ->
  (forall f, In f AOI -> map fst (EE.properties f) = ["gid"%string]) ->
  let value f := EE.run red (EE.samples_over r (EE.geometry f)) in
  let some :=
    existsb (fun f => match value f with Some _ => true | None => false end) AOI in
  stat_frame AOI image stat
  = Ok {| Geo.columns := if some then [EE.output_name red] else [];
          Geo.rows :=
            map (fun f => if some
                          then [match value f with
                                | Some q => Geo.Num q
                                | None => Geo.NaN
                                end]
                          else []) AOI |}.
Proof.
  intros Hb Hred Hne Hgid value some.
  set (name := EE.output_name red).
  set (labels := ["geometry"; "gid"]%string).
  assert (Hstats : EE.reduceRegions image AOI red SCALE
                   = map (fun f => EE.set_result name (value f) f) AOI).
  { unfold EE.reduceRegions. now rewrite Hb. }
  assert (Hkeep : Geo.keep labels name = true) by (destruct red; reflexivity).
  assert (Hgeo : String.eqb name "geometry" = false) by (destruct red; reflexivity).
  assert (Hng : String.eqb "gid" name = false) by (destruct red; reflexivity).
  assert (Hkeys : forall l : EE.FeatureCollection,
             (forall f, In f l -> map fst (EE.properties f) = ["gid"%string]) ->
             filter (Geo.keep labels)
                    (flat_map Geo.row_keys
                       (map (fun f => EE.set_result name (value f) f) l))
             = flat_map (fun f => match value f with
                                  | Some _ => [name]
                                  | None => []
                                  end) l).
  { induction l as [| a l IH]; intros Hl; [reflexivity |].
    cbn [map flat_map]. rewrite filter_app, IH by (intros; apply Hl; now right).
    f_equal. pose proof (Hl a (or_introl eq_refl)) as Ha.
    unfold Geo.row_keys, EE.set_result.
    destruct (EE.properties a) as [| [k g] [| b ps]] eqn:Hp; try discriminate.
    injection Ha as ->.
    destruct (value a); cbn [EE.properties].
    - cbn [EE.set]. rewrite Hng. cbn [map fst filter].
      change (Geo.keep labels "geometry") with false.
      change (Geo.keep labels "gid") with false. now rewrite Hkeep.
    - rewrite Hp. reflexivity. }
  assert (Hall : forall l : EE.FeatureCollection,
             Forall (eq name)
                    (flat_map (fun f => match value f with
                                        | Some _ => [name]
                                        | None => []
                                        end) l)).
  { induction l as [| a l IH]; [constructor |]. cbn [flat_map].
    destruct (value a); [constructor; auto | exact IH]. }
  assert (Hsome : forall l : EE.FeatureCollection,
             match flat_map (fun f => match value f with
                                      | Some _ => [name]
                                      | None => []
                                      end) l with
             | [] => []
             | _ => [name]
             end
             = if existsb (fun f => match value f with
                                    | Some _ => true
                                    | None => false
                                    end) l
               then [name] else []).
  { induction l as [| a l IH]; [reflexivity |]. cbn [flat_map existsb].
    destruct (value a); [reflexivity | exact IH]. }
  assert (Hcols : filter (Geo.keep labels)
                         (Geo.columns (Geo.from_features
                                         (EE.reduceRegions image AOI red SCALE)))
                  = if some then [name] else []).
  { unfold Geo.from_features; cbn [Geo.columns].
    rewrite filter_uniq, Hstats, (Hkeys AOI Hgid). cbn [filter].
    destruct (uniq_repeat (Hall AOI)) as (-> & _). apply Hsome. }
  unfold stat_frame, zonal_stats. rewrite Hred; cbn [bind].
  unfold Geo.drop.
  assert (Hhas : forallb (Geo.has_column
                            (Geo.from_features (EE.reduceRegions image AOI red SCALE)))
                         labels = true).
  { destruct AOI as [| a l]; [congruence |].
    pose proof (Hgid a (or_introl eq_refl)) as Ha.
    assert (Hin : forall k, In k labels ->
              In k (flat_map Geo.row_keys (EE.reduceRegions image (a :: l) red SCALE))).
    { intros k Hk. rewrite Hstats. cbn [map flat_map]. apply in_or_app. left.
      unfold Geo.row_keys, EE.set_result.
      destruct (EE.properties a) as [| [k0 g] [| b ps]] eqn:Hp; try discriminate.
      injection Ha as ->.
      destruct (value a); cbn [EE.properties].
      - cbn [EE.set]. rewrite Hng. cbn [map fst].
        destruct Hk as [<- | [<- | []]]; simpl; auto.
      - rewrite Hp. destruct Hk as [<- | [<- | []]]; simpl; auto. }
    unfold labels at 1. cbn [forallb]. unfold Geo.has_column, Geo.from_features.
    cbn [Geo.columns].
    rewrite !(proj2 (existsb_eqb_In _ _)); [reflexivity | |];
      apply uniq_In; (split; [apply Hin; simpl; auto | tauto]). }
  fold labels. rewrite Hhas. f_equal. rewrite Hcols. f_equal.
  unfold Geo.from_features at 2; cbn [Geo.rows]. rewrite map_map.
  change (Geo.uniq (flat_map Geo.row_keys (EE.reduceRegions image AOI red SCALE)) [])
    with (Geo.columns (Geo.from_features (EE.reduceRegions image AOI red SCALE))).
  set (cols := Geo.columns (Geo.from_features (EE.reduceRegions image AOI red SCALE)))
    in *.
  rewrite Hstats, map_map. apply map_ext_in. intros f Hf.
  rewrite drop_cells_map.
  rewrite Hcols. destruct some; [| reflexivity]. cbn [map]. f_equal.
  unfold Geo.row_cell, EE.set_result.
  destruct (value f) as [q |]; cbn [EE.properties].
  - now rewrite get_set_same.
  - rewrite get_None.
    + now rewrite Hgeo.
    + rewrite (Hgid f Hf). intros [E | []]. rewrite E, String.eqb_refl in Hng.
      discriminate.
Qed.

Lemma stat_frame_layout_witness :
  stat_frame Sample.AOI (EE.clip (EE.constant 3) Sample.one_polygon) "MEAN"
  = Ok {| Geo.columns := ["mean"%string];
          Geo.rows := [[Geo.Num 3]; [Geo.NaN]] |}.
Proof.
  refine (@stat_frame_layout Sample.AOI
            (EE.clip (EE.constant 3) Sample.one_polygon)
            "constant" _ "MEAN" EE.mean eq_refl eq_refl _ _).
  - discriminate.
  - intros f [<- | [<- | []]]; reflexivity.
Defined.

(** ** The cells of the table *)

Lemma string_of_list_ascii_nil (l : list ascii) :
  string_of_list_ascii l = EmptyString -> l = [].
Proof. destruct l; [reflexivity | discriminate]. Qed.

(** The tokens of [split()] are not empty and hold no white space. *)
Lemma split_aux_tokens (s : string) (cur : list ascii) :
  Forall (fun c => Py.isspace c = false) cur ->
  Forall (fun t => t <> EmptyString
                   /\ Forall (fun c => Py.isspace c = false) (list_ascii_of_string t))
         (Py.split_aux s cur).
Proof.
  assert (Hflush : forall cur rest,
             Forall (fun c => Py.isspace c = false) cur ->
             Forall (fun t => t <> EmptyString
                              /\ Forall (fun c => Py.isspace c = false)
                                        (list_ascii_of_string t)) rest ->
             Forall (fun t => t <> EmptyString
                              /\ Forall (fun c => Py.isspace c = false)
                                        (list_ascii_of_string t))
                    match cur with
                    | [] => rest
                    | _ => string_of_list_ascii (rev cur) :: rest
                    end).
  { intros [| c cur'] rest Hc Hr; [exact Hr |]. constructor; [| exact Hr]. split.
    - intros E. apply string_of_list_ascii_nil in E.
      apply (f_equal (@List.length ascii)) in E. rewrite length_rev in E. discriminate.
    - rewrite list_ascii_of_string_of_list_ascii. now apply Forall_rev. }
  revert cur; induction s as [| c s IH]; intros cur Hcur; cbn [Py.split_aux].
  - apply Hflush; [exact Hcur | constructor].
  - destruct (Py.isspace c) eqn:E.
    + apply Hflush; [exact Hcur | apply IH; constructor].
    + apply IH. constructor; assumption.
Qed.

Lemma In_firstn {A : Type} (n : nat) (l : list A) (x : A) :
  In x (firstn n l) -> In x l.
Proof.
  intros H. rewrite <- (firstn_skipn n l). apply in_or_app. now left.
Qed.

Lemma In_skipn {A : Type} (n : nat) (l : list A) (x : A) :
  In x (skipn n l) -> In x l.
Proof.
  intros H. rewrite <- (firstn_skipn n l). apply in_or_app. now right.
Qed.

(** X13. The table [reshape_results] returns is rectangular, a row for each week
    and in every row a cell for each of the nine statistics, and each of its
    cells is a token without white space and not empty: whatever the printed
    form of a result is, no cell is blank and none holds two words. *)
Theorem table_cells_are_tokens (str : Geo.GeoDataFrame -> string)
    (weeks : list Z) (results : list Geo.GeoDataFrame) (df : Frame.DataFrame) :
  reshape_results str weeks results = Ok df ->
  List.length (Frame.values df) = List.length weeks
  /\ Forall (fun r =>
               List.length r = 9%nat
               /\ Forall (fun t => t <> EmptyString
                                   /\ Forall (fun c => Py.isspace c = false)
                                             (list_ascii_of_string t)) r)
            (Frame.values df).
Proof.
  intros H. apply reshape_results_inv in H. destruct H as (values & Hv & Hlen & ->).
  cbn [Frame.values]. split; [now rewrite rows_length |].
  assert (Htok : Forall (fun t => t <> EmptyString
                                  /\ Forall (fun c => Py.isspace c = false)
                                            (list_ascii_of_string t)) values).
  { refine (@mapM_all _ _ _ _ _ _ _ Hv). intros x t Ht. unfold token, Py.getitem in Ht.
    destruct (nth_error (Py.split (str x)) 2) as [t' |] eqn:E; [| discriminate].
    inversion Ht; subst t'. apply nth_error_In in E.
    pose proof (@split_aux_tokens (str x) [] (Forall_nil _)) as Hall.
    rewrite Forall_forall in Hall. now apply Hall. }
  pose proof (mapM_length _ _ Hv) as Hvl.
  unfold Numpy.rows; cbn [Numpy.shape fst]. apply Forall_map, Forall_forall.
  intros i Hi. apply in_seq in Hi. unfold Numpy.row; cbn [Numpy.shape Numpy.items snd].
  split.
  - rewrite length_firstn, length_skipn, Hvl, Hlen.
    change (List.length STATISTICS) with 9%nat. nia.
  - rewrite Forall_forall in Htok |- *. intros t Ht. apply Htok.
    apply In_firstn in Ht. now apply In_skipn in Ht.
Qed.

Lemma table_cells_are_tokens_witness :
  List.length (Frame.values Sample.precipitation_table) = 3%nat
  /\ Forall (fun r =>
               List.length r = 9%nat
               /\ Forall (fun t => t <> EmptyString
                                   /\ Forall (fun c => Py.isspace c = false)
                                             (list_ascii_of_string t)) r)
            (Frame.values Sample.precipitation_table).
Proof.
  apply (@table_cells_are_tokens Sample.show [1; 2; 3] Sample.results27).
  reflexivity.
Defined.

(** ** The collection of a week, from the dates the loader writes *)

(** X1. The dates the loader writes as text are read back by [filterDate] as the
    days they were: for a week table whose dates are days a timestamp can
    hold, the collection of week [i] is the images of the study area, in
    their order, whose time is from 00:00 of the week's start day on and
    before 00:00 of the window's end day (the start of the next week, or the
    start plus seven days for the last week). *)
Theorem week_collection_is_day_range (weeks_df : list WeekRecord) (loaded : Loaded)
    (AOI : EE.FeatureCollection) (col : EE.ImageCollection) (i : nat)
    (w : WeekRecord) :
  data_loading weeks_df = Ok loaded ->
  dates_in_range weeks_df ->
  nth_error weeks_df i = Some w ->
  exists c e,
    week_collection AOI col loaded i = Ok c
    /\ window_end (map fecha_ini weeks_df) i = Some e
    /\ c = filter (in_days (fecha_ini w) e) (EE.filterBounds AOI col)
    /\ forall img,
         In img c
         <-> In img (EE.filterBounds AOI col)
             /\ exists t, EE.time_start img = Some t
                          /\ fecha_ini w * 86400000 <= t < e * 86400000.
Proof.
  intros Hl Hr Hw.
  destruct (@week_collection_days weeks_df loaded AOI col i w Hl Hr Hw)
    as (e & He & Hc).
  eexists; exists e. split; [exact Hc |]. split; [exact He |].
  split; [reflexivity |].
  intros img. rewrite filter_In. unfold in_days, EE.ms_per_day.
  split; intros (Hin & H); (split; [exact Hin |]).
  - destruct (EE.time_start img) as [t |]; [| discriminate].
    exists t. split; [reflexivity |].
    apply andb_true_iff in H. destruct H as (H1 & H2).
    apply Z.leb_le in H1. apply Z.ltb_lt in H2. lia.
  - destruct H as (t & -> & H1 & H2).
    apply andb_true_iff. split; [now apply Z.leb_le | now apply Z.ltb_lt].
Qed.

Lemma week_collection_is_day_range_witness :
  exists c e,
    week_collection Sample.AOI Sample.chirps Sample.loaded_jan_2024 2 = Ok c
    /\ window_end (map fecha_ini Sample.jan_2024) 2 = Some e
    /\ c = filter (in_days 19737 e) (EE.filterBounds Sample.AOI Sample.chirps)
    /\ forall img,
         In img c
         <-> In img (EE.filterBounds Sample.AOI Sample.chirps)
             /\ exists t, EE.time_start img = Some t
                          /\ 19737 * 86400000 <= t < e * 86400000.
Proof.
  apply (@week_collection_is_day_range Sample.jan_2024 Sample.loaded_jan_2024
           Sample.AOI Sample.chirps 2
           {| year := 2024; se := 3; fecha_ini := 19737 |}).
  - reflexivity.
  - unfold dates_in_range, Sample.jan_2024, first_day, last_day.
    repeat constructor; simpl; lia.
  - reflexivity.
Defined.

(** ** The weekly temperature at a pixel *)

Lemma mapM_flat_map {A B C : Type} (f : A -> res B) (h : B -> list C)
    (g : A -> list C) (l : list A) (l' : list B) :
  (forall x y, In x l -> f x = Ok y -> h y = g x) ->
  mapM f l = Ok l' ->
  flat_map h l' = flat_map g l.
Proof.
  revert l'; induction l as [| a l IH]; simpl; intros l' Hfg H.
  - now inversion H.
  - inv_bind H. inv_bind H. inversion H; subst; clear H. cbn [flat_map].
    f_equal; [apply Hfg; auto |]. apply IH; auto.
Qed.

(** X14. The image of a week of temperature: at a pixel of the study area, the
    median of the converted values of the observations of the week that have
    a temperature there and a quality value with bits 2 and 3 clear; masked
    outside the study area and where no observation qualifies. *)
Theorem weekly_temperature_is_median (sv : SubVariable) (AOI : EE.FeatureCollection)
    (c : EE.ImageCollection) (p : EE.pixel) :
  c <> [] ->
  (forall img, In img c -> In (lst_band sv) (map fst (EE.bands img))) ->
  (forall img, In img c -> In (qc_band sv) (map fst (EE.bands img))) ->
  exists col,
    mapM (mask_then_convert sv) c = Ok col
    /\ EE.value_at (lst_band sv) (Modis.weekly_image AOI col) p
       = if EE.inside AOI p
         then match flat_map
                      (fun img =>
                         match EE.value_at (lst_band sv) img p,
                               EE.value_at (qc_band sv) img p with
                         | Some v, Some w =>
                             if EE.nonzero (mask_value w)
                             then [(v * 0.02 - 273.15)%Q] else []
                         | _, _ => []
                         end) c with
              | [] => None
              | vs => EE.run EE.median vs
              end
         else None.
Proof.
  intros Hne Hlst Hqc.
  destruct (@mapM_ok _ _ (mask_then_convert sv) c) as (col & Hcol).
  { intros img Himg. apply observation_ok; auto. }
  exists col. split; [exact Hcol |].
  assert (Hsamples :
            EE.samples_at (lst_band sv) p col
            = flat_map
                (fun img =>
                   match EE.value_at (lst_band sv) img p,
                         EE.value_at (qc_band sv) img p with
                   | Some v, Some w =>
                       if EE.nonzero (mask_value w)
                       then [(v * 0.02 - 273.15)%Q] else []
                   | _, _ => []
                   end) c).
  { unfold EE.samples_at.
    refine (@mapM_flat_map _ _ _ (mask_then_convert sv) _ _ c col _ Hcol).
    intros img out Himg Hout.
    destruct (@get_In _ _ _ (Hlst img Himg)) as (r & Hr).
    destruct (@get_In _ _ _ (Hqc img Himg)) as (q & Hq).
    destruct (@mask_then_convert_value sv img _ _ Hr Hq)
      as (out' & Hout' & _ & _ & _ & Hv).
    rewrite Hout' in Hout. inversion Hout; subst out'; clear Hout.
    rewrite Hv. unfold EE.value_at. rewrite Hr, Hq.
    destruct (r p); [| reflexivity]. destruct (q p) as [w |]; [| reflexivity].
    destruct (EE.nonzero (mask_value w)); reflexivity. }
  destruct col as [| first rest].
  { apply mapM_length in Hcol. destruct c; [congruence | discriminate]. }
  assert (Hfirst : exists ras, EE.bands first = [(lst_band sv, ras)]).
  { destruct (@mapM_In _ _ _ _ _ first Hcol (or_introl eq_refl)) as (img & Himg & Hmc).
    destruct (@get_In _ _ _ (Hlst img Himg)) as (r & Hr).
    destruct (@get_In _ _ _ (Hqc img Himg)) as (q & Hq).
    destruct (@mask_then_convert_bands sv img _ _ Hr Hq) as (o & ras & Ho & Hb & _).
    rewrite Ho in Hmc. inversion Hmc; subst o. eauto. }
  destruct Hfirst as (ras & Hras).
  rewrite <- Hsamples.
  unfold EE.value_at, Modis.weekly_image, EE.clip, EE.collection_median, EE.reduce.
  cbn [EE.size List.length Nat.eqb EE.bands]. rewrite Hras.
  cbn [map fst snd EE.get]. rewrite String.eqb_refl. reflexivity.
Qed.

Lemma weekly_temperature_is_median_witness :
  exists col,
    mapM (mask_then_convert DAY)
         [Sample.lst_image 19723 15000 0; Sample.lst_image 19724 15100 4] = Ok col
    /\ EE.value_at (lst_band DAY) (Modis.weekly_image Sample.AOI col) (0, 0)
       = Some (537 # 20)%Q.
Proof.
  destruct (@weekly_temperature_is_median DAY Sample.AOI
              [Sample.lst_image 19723 15000 0; Sample.lst_image 19724 15100 4]
              (0, 0))
    as (col & H1 & H2).
  - discriminate.
  - intros img [<- | [<- | []]]; simpl; auto.
  - intros img [<- | [<- | []]]; simpl; auto.
  - exists col. split; [exact H1 |]. rewrite H2. reflexivity.
Defined.

(** ** The two functions of the temperature script, in the other order *)

Lemma mask_after_conversion_raises_witness :
  exists converted,
    kelvin_to_celsius DAY (Sample.lst_image 19724 15100 4) = Ok converted
    /\ mask DAY converted = Raise EEException.
Proof.
  eexists. split; [reflexivity |].
  apply (@mask_after_conversion_raises DAY (Sample.lst_image 19724 15100 4)).
  reflexivity.
Defined.
